(** * epub_rebuilder: chapter segmentation and metadata synchronisation

    A shallow embedding of [src/epub_rebuilder.py].  Python values are
    modelled as follows:
    - [str] is [string]; an attribute lookup that may yield [None] is an
      [option string];
    - a [dict] is an association list with Python's update discipline
      (assignment to an existing key keeps the key's position, a new key
      goes to the end), because the program iterates [values()] and
      [items()] in insertion order;
    - exceptions are the [Raise] branch of [result]; code that touches the
      working tree threads a [filesystem] through the state monad [io];
    - an ElementTree element is an [ET.element]; a BeautifulSoup tree is a
      list of [Bs4.node];
    - the third-party parsers and serialisers (bs4, ElementTree, zipfile)
      are the fields of the class [Libraries]: every theorem holds for any
      implementation of them.  [str(node)] and [decode_contents()] are
      separate fields, since bs4 prints a bare string unescaped and the
      contents of a tag escaped. *)

From Stdlib Require Import String Ascii List Bool Arith Lia.
From Stdlib Require Import Decimal DecimalString DecimalNat.
Import ListNotations.

#[local] Open Scope string_scope.
#[local] Open Scope list_scope.
#[local] Open Scope bool_scope.
#[local] Set Warnings "-register-all".

(* ================================================================= *)
(** ** Python values: strings, exceptions, dictionaries *)

Module Py.

(** The exception classes the program can raise or propagate. *)
Inductive exn : Set :=
  | IndexError | TypeError | AttributeError | ValueError
  | FileNotFoundError | FileExistsError | IsADirectoryError
  | NotADirectoryError | ParseError | BadZipFile.

Inductive result (A : Type) : Type :=
  | Ok (a : A)
  | Raise (e : exn).
Arguments Ok {A} a.
Arguments Raise {A} e.

Definition bind {A B} (m : result A) (k : A -> result B) : result B :=
  match m with
  | Ok a => k a
  | Raise e => Raise e
  end.

(** [s.startswith(p)] *)
Definition startswith (s p : string) : bool := String.prefix p s.

(** [s.endswith(p)] for a one-character [p]. *)
Fixpoint endswith_char (s : string) (c : ascii) : bool :=
  match s with
  | EmptyString => false
  | String a EmptyString => Ascii.eqb a c
  | String _ r => endswith_char r c
  end.

(** [sub in s] on strings. *)
Fixpoint contains (s sub : string) : bool :=
  String.prefix sub s ||
  match s with
  | EmptyString => false
  | String _ r => contains r sub
  end.

Definition lower_char (c : ascii) : ascii :=
  let n := nat_of_ascii c in
  if Nat.leb 65 n && Nat.leb n 90 then ascii_of_nat (n + 32) else c.

(** [s.lower()], on the ASCII letters. *)
Fixpoint lower (s : string) : string :=
  match s with
  | EmptyString => EmptyString
  | String c r => String (lower_char c) (lower r)
  end.

(** [str(n)] for a non-negative integer. *)
Definition str_of_nat (n : nat) : string :=
  NilEmpty.string_of_uint (Nat.to_uint n).

(** ["".join(parts)] *)
Definition join (parts : list string) : string := String.concat "" parts.

(** [x in xs] for a list or tuple of optional strings ([None] is a
    legal element on the left-hand side). *)
Definition opt_eqb (a b : option string) : bool :=
  match a, b with
  | Some x, Some y => String.eqb x y
  | None, None => true
  | _, _ => false
  end.

Definition mem (x : option string) (xs : list (option string)) : bool :=
  existsb (opt_eqb x) xs.

(** [l.insert(i, x)]: for [0 <= i] the element lands at index
    [min i (len l)]. *)
Definition list_insert {A} (i : nat) (x : A) (l : list A) : list A :=
  firstn i l ++ x :: skipn i l.

(** *** Dictionaries *)
Section Dict.
Context {K V : Type} (eqb : K -> K -> bool).

Definition dict := list (K * V).

(** [d.get(k)] *)
Fixpoint dict_get (k : K) (d : dict) : option V :=
  match d with
  | [] => None
  | (k', v) :: r => if eqb k k' then Some v else dict_get k r
  end.

(** [d[k] = v] *)
Fixpoint dict_set (k : K) (v : V) (d : dict) : dict :=
  match d with
  | [] => [(k, v)]
  | (k', v') :: r =>
      if eqb k k' then (k', v) :: r else (k', v') :: dict_set k v r
  end.

(** [k in d] *)
Definition dict_mem (k : K) (d : dict) : bool :=
  match dict_get k d with Some _ => true | None => false end.

Definition keys (d : dict) : list K := map fst d.
Definition values (d : dict) : list V := map snd d.

(** [del d[k]] where the key is known to occur at most once. *)
Definition dict_del (k : K) (d : dict) : dict :=
  filter (fun kv => negb (eqb k (fst kv))) d.
End Dict.

(** [next((x for x in xs if p(x)), None)] *)
Definition next_where {A} (p : A -> bool) (xs : list A) : option A :=
  List.find p xs.

End Py.

Export Py.

Declare Scope result_scope.
Delimit Scope result_scope with result.
Notation "'let*' x ':=' m 'in' k" :=
  (Py.bind m (fun x => k))
    (at level 10, x name, m at level 100, k at level 200,
     format "'[v' 'let*'  x  ':='  m  'in' '/' k ']'") : result_scope.
#[local] Open Scope result_scope.

(** Loops over a list whose body may raise. *)
Fixpoint filterM {A} (p : A -> result bool) (l : list A) : result (list A) :=
  match l with
  | [] => Ok []
  | x :: r =>
      let* b := p x in
      let* r' := filterM p r in
      Ok (if b then x :: r' else r')
  end.

Fixpoint foldM {A S} (f : S -> A -> result S) (l : list A) (s : S) : result S :=
  match l with
  | [] => Ok s
  | x :: r => let* s' := f s x in foldM f r s'
  end.

(* ================================================================= *)
(** ** [os.path] (POSIX flavour) *)

Module Path.

Definition sep : ascii := "/"%char.

(** [os.path.join(a, b)] *)
Definition join (a b : string) : string :=
  if Py.startswith b "/" then b
  else if (String.eqb a "") || Py.endswith_char a sep then a ++ b
  else a ++ "/" ++ b.

(** [p[:i], p[i:]] for [i = p.rfind('/') + 1]. *)
Fixpoint split_last (p : string) : string * string :=
  match p with
  | EmptyString => (EmptyString, EmptyString)
  | String c r =>
      let (h, t) := split_last r in
      match h with
      | EmptyString =>
          if Ascii.eqb c sep then (String c EmptyString, t)
          else (EmptyString, String c t)
      | _ => (String c h, t)
      end
  end.

(** [head.rstrip('/')] *)
Fixpoint rstrip_sep (s : string) : string :=
  match s with
  | EmptyString => EmptyString
  | String c r =>
      match rstrip_sep r with
      | EmptyString => if Ascii.eqb c sep then EmptyString else String c EmptyString
      | r' => String c r'
      end
  end.

Fixpoint all_sep (s : string) : bool :=
  match s with
  | EmptyString => true
  | String c r => Ascii.eqb c sep && all_sep r
  end.

(** [os.path.dirname(p)] *)
Definition dirname (p : string) : string :=
  let head := fst (split_last p) in
  if negb (String.eqb head "") && negb (all_sep head) then rstrip_sep head
  else head.

(** [os.path.basename(p)] *)
Definition basename (p : string) : string := snd (split_last p).

(** [p] lies strictly below the directory [d]. *)
Definition below (d p : string) : bool := Py.startswith p (d ++ "/").

End Path.

(* ================================================================= *)
(** ** The working tree *)

Inductive entry : Set :=
| File (data : string)
| Dir.

(** Paths are compared as strings. *)
Definition filesystem := list (string * entry).

Definition fs_get (p : string) (fs : filesystem) : option entry :=
  dict_get String.eqb p fs.

Definition fs_set (p : string) (e : entry) (fs : filesystem) : filesystem :=
  dict_set String.eqb p e fs.

Definition fs_del (p : string) (fs : filesystem) : filesystem :=
  dict_del String.eqb p fs.

(** Computations on the working tree: an exception leaves the tree as
    it was when the exception was raised. *)
Definition io (A : Type) : Type := filesystem -> result A * filesystem.

Definition ret {A} (a : A) : io A := fun fs => (Ok a, fs).
Definition raise {A} (e : exn) : io A := fun fs => (Raise e, fs).
Definition lift {A} (r : result A) : io A := fun fs => (r, fs).

Definition iobind {A B} (m : io A) (k : A -> io B) : io B :=
  fun fs =>
    match m fs with
    | (Ok a, fs') => k a fs'
    | (Raise e, fs') => (Raise e, fs')
    end.

Declare Scope io_scope.
Delimit Scope io_scope with io.
Notation "x <- m ;; k" :=
  (iobind m (fun x => k))
    (at level 61, m at next level, right associativity,
     format "'[v' x  <-  m  ;; '/' k ']'") : io_scope.
Notation "m ;; k" :=
  (iobind m (fun _ => k))
    (at level 61, right associativity,
     format "'[v' m  ;; '/' k ']'") : io_scope.

(** [try: body finally: handler].  The handler always runs, on the tree
    the body left; an exception of the handler replaces the body's
    outcome. *)
Definition try_finally {A} (body : io A) (handler : io unit) : io A :=
  fun fs =>
    let (r, fs1) := body fs in
    match handler fs1 with
    | (Ok _, fs2) => (r, fs2)
    | (Raise e, fs2) => (Raise e, fs2)
    end.

(** [try: body except Exception: pass] (the handler only prints). *)
Definition try_except_pass (body : io unit) : io unit :=
  fun fs => let (_, fs1) := body fs in (Ok tt, fs1).

(** [for x in l: body(x)] *)
Fixpoint for_each {A} (l : list A) (body : A -> io unit) : io unit :=
  match l with
  | [] => ret tt
  | x :: r => (body x ;; for_each r body)%io
  end.

(** [open(p, 'r').read()] *)
Definition read_file (p : string) : io string :=
  fun fs =>
    match fs_get p fs with
    | Some (File data) => (Ok data, fs)
    | Some Dir => (Raise IsADirectoryError, fs)
    | None => (Raise FileNotFoundError, fs)
    end.

(** [open(p, 'w').write(data)]; that the directory of [p] exists is not
    modelled. *)
Definition write_file (p data : string) : io unit :=
  fun fs =>
    match fs_get p fs with
    | Some Dir => (Raise IsADirectoryError, fs)
    | _ => (Ok tt, fs_set p (File data) fs)
    end.

(** [os.path.exists(p)] *)
Definition exists_ (p : string) : io bool :=
  fun fs => (Ok (match fs_get p fs with Some _ => true | None => false end), fs).

(** [os.remove(p)] *)
Definition os_remove (p : string) : io unit :=
  fun fs =>
    match fs_get p fs with
    | Some (File _) => (Ok tt, fs_del p fs)
    | Some Dir => (Raise IsADirectoryError, fs)
    | None => (Raise FileNotFoundError, fs)
    end.

(** [os.makedirs(d, exist_ok=True)] for a single-component [d]. *)
Definition makedirs (d : string) : io unit :=
  fun fs =>
    match fs_get d fs with
    | Some (File _) => (Raise FileExistsError, fs)
    | Some Dir => (Ok tt, fs)
    | None => (Ok tt, fs_set d Dir fs)
    end.

(** [shutil.rmtree(d)] *)
Definition rmtree (d : string) : io unit :=
  fun fs =>
    match fs_get d fs with
    | Some Dir =>
        (Ok tt,
         filter (fun pe => negb (String.eqb (fst pe) d || Path.below d (fst pe))) fs)
    | Some (File _) => (Raise NotADirectoryError, fs)
    | None => (Raise FileNotFoundError, fs)
    end.

(** First [Some] produced by [f] along a list, and in-place replacement
    of the first element [g] rewrites; both are used to walk trees in
    document order. *)
Definition first_some {A B} (f : A -> option B) : list A -> option B :=
  fix scan (l : list A) : option B :=
    match l with
    | [] => None
    | x :: r => match f x with Some y => Some y | None => scan r end
    end.

Definition update_first {A} (g : A -> option A) : list A -> option (list A) :=
  fix scan (l : list A) : option (list A) :=
    match l with
    | [] => None
    | x :: r =>
        match g x with
        | Some x' => Some (x' :: r)
        | None => option_map (cons x) (scan r)
        end
    end.

(* ================================================================= *)
(** ** [xml.etree.ElementTree] *)

Module ET.

(** An element: qualified tag ([{uri}local]), attribute dictionary,
    text, child elements.  Tails are not represented: the program never
    reads them. *)
Inductive element : Type :=
  | Element (tag : string) (attrib : list (string * string))
            (text : option string) (children : list element).

Definition tag (e : element) : string :=
  match e with Element t _ _ _ => t end.
Definition attrib (e : element) : list (string * string) :=
  match e with Element _ a _ _ => a end.
Definition text (e : element) : option string :=
  match e with Element _ _ x _ => x end.
Definition children (e : element) : list element :=
  match e with Element _ _ _ cs => cs end.

(** [e.get(key)] *)
Definition get (e : element) (key : string) : option string :=
  dict_get String.eqb key (attrib e).

(** [e.set(key, value)] *)
Definition set (key value : string) (e : element) : element :=
  match e with
  | Element t a x cs => Element t (dict_set String.eqb key value a) x cs
  end.

Definition set_text (value : string) (e : element) : element :=
  match e with Element t a _ cs => Element t a (Some value) cs end.

Definition set_children (cs : list element) (e : element) : element :=
  match e with Element t a x _ => Element t a x cs end.

(** [ET.SubElement(parent, tag)] followed by whatever initialises the
    new child. *)
Definition SubElement (child : element) (parent : element) : element :=
  set_children (children parent ++ [child]) parent.

(** What an ElementPath step tests: tag and attributes. *)
Definition pattern := string -> list (string * string) -> bool.

Definition matches (p : pattern) (e : element) : bool :=
  p (tag e) (attrib e).

Definition tag_is (t : string) : pattern := fun t' _ => String.eqb t' t.

(** [tag[@key="value"]] *)
Definition tag_attr_is (t key value : string) : pattern :=
  fun t' a =>
    String.eqb t' t &&
    match dict_get String.eqb key a with
    | Some v => String.eqb v value
    | None => false
    end.

(** First match among an element and its descendants, document order. *)
Fixpoint find_self (p : pattern) (e : element) : option element :=
  match e with
  | Element t a x cs =>
      if p t a then Some e else first_some (find_self p) cs
  end.

(** [root.find('.//pattern')]: the root itself is not a candidate. *)
Definition find (p : pattern) (root : element) : option element :=
  first_some (find_self p) (children root).

(** The tree in which the element [find] returns has been mutated by
    [f]; [None] when [find] returns nothing. *)
Fixpoint update_self (p : pattern) (f : element -> element) (e : element)
  : option element :=
  match e with
  | Element t a x cs =>
      if p t a then Some (f e)
      else option_map (Element t a x) (update_first (update_self p f) cs)
  end.

Definition update (p : pattern) (f : element -> element) (root : element)
  : option element :=
  option_map (fun cs => set_children cs root)
             (update_first (update_self p f) (children root)).

(** The lookups of the program try the namespaced tag first and the
    bare tag second; [find2] also tells which one succeeded. *)
Definition find2 (p1 p2 : pattern) (root : element)
  : option (pattern * element) :=
  match find p1 root with
  | Some e => Some (p1, e)
  | None =>
      match find p2 root with
      | Some e => Some (p2, e)
      | None => None
      end
  end.

End ET.

(* ================================================================= *)
(** ** BeautifulSoup trees *)

Module Bs4.

(** A page element is a string ([NavigableString] and its subclasses
    [Comment], [Doctype], ...) or a [Tag]. *)
Inductive node : Type :=
  | NavigableString (s : string)
  | Tag (name : string) (attrs : list (string * string)) (contents : list node).

(** The children of a [BeautifulSoup] object. *)
Definition soup := list node.

Definition contents (x : node) : list node :=
  match x with
  | NavigableString _ => []
  | Tag _ _ cs => cs
  end.

(** [isinstance(x, Tag) and x.name == n] *)
Definition is_tag_named (n : string) (x : node) : bool :=
  match x with
  | NavigableString _ => false
  | Tag n' _ _ => String.eqb n' n
  end.

Definition pattern := string -> list (string * string) -> bool.

Definition name_is (n : string) : pattern := fun n' _ => String.eqb n' n.

(** [find(n, attrs={key: value})] *)
Definition name_attr_is (n key value : string) : pattern :=
  fun n' a =>
    String.eqb n' n &&
    match dict_get String.eqb key a with
    | Some v => String.eqb v value
    | None => false
    end.

Fixpoint find_self (p : pattern) (x : node) : option node :=
  match x with
  | NavigableString _ => None
  | Tag n a cs => if p n a then Some x else first_some (find_self p) cs
  end.

(** [tag.find(...)]: first matching descendant in document order. *)
Definition find (p : pattern) (cs : list node) : option node :=
  first_some (find_self p) cs.

(** The tree in which the tag [find] returns has been mutated by [f]. *)
Fixpoint update_self (p : pattern) (f : node -> node) (x : node) : option node :=
  match x with
  | NavigableString _ => None
  | Tag n a cs =>
      if p n a then Some (f x)
      else option_map (Tag n a) (update_first (update_self p f) cs)
  end.

Definition update (p : pattern) (f : node -> node) (cs : list node)
  : option (list node) :=
  update_first (update_self p f) cs.

(** A tag as [find_all] hands it out: the tag together with what
    [tag.next_siblings] will enumerate. *)
Definition located := (node * list node)%type.

Fixpoint find_all_self (n : string) (x : node) (next_siblings : list node)
  : list located :=
  match x with
  | NavigableString _ => []
  | Tag n' _ cs =>
      (if String.eqb n' n then [(x, next_siblings)] else []) ++
      (fix walk (l : list node) : list located :=
         match l with
         | [] => []
         | c :: r => find_all_self n c r ++ walk r
         end) cs
  end.

(** [tag.find_all(n)]: every descendant tag named [n], document order. *)
Fixpoint find_all (n : string) (cs : list node) : list located :=
  match cs with
  | [] => []
  | c :: r => find_all_self n c r ++ find_all n r
  end.

(** [tag.append(child)] *)
Definition append (child : node) (x : node) : node :=
  match x with
  | NavigableString s => NavigableString s
  | Tag n a cs => Tag n a (cs ++ [child])
  end.

(** [tag.clear()] followed by appending [cs] one by one. *)
Definition set_contents (cs : list node) (x : node) : node :=
  match x with
  | NavigableString s => NavigableString s
  | Tag n a _ => Tag n a cs
  end.

(** [tag[key]] *)
Definition attr (key : string) (x : node) : option string :=
  match x with
  | NavigableString _ => None
  | Tag _ a _ => dict_get String.eqb key a
  end.

End Bs4.

(* ================================================================= *)
(** ** The third-party libraries *)

Class Libraries : Type := {
  (** [BeautifulSoup(markup, 'html.parser')], as the list of its
      children. *)
  BeautifulSoup : string -> Bs4.soup;
  (** [str(element)]: the markup of a tag, the bare text of a string. *)
  str_node : Bs4.node -> string;
  (** [tag.decode_contents()], also [str(soup)]: the markup of a run of
      children, strings with their entities and delimiters. *)
  decode_contents : list Bs4.node -> string;
  (** [tag.get_text(strip=True)] *)
  get_text_strip : Bs4.node -> string;
  (** [ET.parse(path).getroot()] on the text of the file; [None] when the
      text is not well-formed XML. *)
  ET_parse : string -> option ET.element;
  (** The text [tree.write(path, encoding='utf-8', xml_declaration=True)]
      stores. *)
  ET_write : ET.element -> string;
  (** The members [(name, data)] of a ZIP archive given by its bytes;
      [None] when the bytes are not an archive. *)
  zip_read : string -> option (list (string * string));
  (** The bytes of the archive with the given members. *)
  zip_write : list (string * string) -> string
}.

(* ================================================================= *)
(** ** The data of the program *)

(** A double quote, for the markup literals of the program. *)
Definition dq : string := String (ascii_of_nat 34) EmptyString.

Definition XHTML : string := "application/xhtml+xml".
Definition NCX : string := "application/x-dtbncx+xml".

(** The namespaced spelling of an OPF tag. *)
Definition opf (local : string) : string :=
  "{http://www.idpf.org/2007/opf}" ++ local.

(** A value of [content_data['manifest']]. *)
Module Item.
Record t : Type := mk {
    href : string;
    media_type : option string;
    full_path : string
  }.
End Item.

(** The dictionaries [find_chapter_boundaries] returns. *)
Module Chapter.
Record t : Type := mk {
    title : string;
    content : string;
    id : string
  }.
End Chapter.

(** The dictionaries [create_chapter_files] returns. *)
Module ChapterFile.
Record t : Type := mk {
    id : string;
    href : string;
    title : string;
    path : string
  }.
End ChapterFile.

(** Manifest keys are [item.get('id')]: a string, or [None] for an item
    without identifier. *)
Definition manifest_dict := list (option string * Item.t).

Definition manifest_get (k : option string) (m : manifest_dict) : option Item.t :=
  dict_get opt_eqb k m.

(** The dictionary [parse_content_opf] returns; ['tree'] and ['root'] are
    one object. *)
Record content_data : Type := mk_content_data {
  root : ET.element;
  manifest : manifest_dict;
  spine : list (option string);
  opf_dir : string
}.

(** The accumulator of the segmenter: the chapters emitted so far and
    the chapter being built. *)
Record seg_state : Type := mk_seg_state {
  chapters : list Chapter.t;
  current_title : option string;
  current_content : list string
}.

Definition seg_init : seg_state := mk_seg_state [] None [].

(** [f"ch_{n}"] *)
Definition ch_id (n : nat) : string := "ch_" ++ str_of_nat n.

(** [if current_title is not None: chapters.append({...})] *)
Definition flush (st : seg_state) : list Chapter.t :=
  match current_title st with
  | Some t =>
      chapters st ++
      [Chapter.mk t (Py.join (current_content st)) (ch_id (length (chapters st)))]
  | None => chapters st
  end.

(** The siblings the inner loop appends: those before the first [h1]. *)
Fixpoint siblings_until_h1 (sibs : list Bs4.node) : list Bs4.node :=
  match sibs with
  | [] => []
  | s :: r => if Bs4.is_tag_named "h1" s then [] else s :: siblings_until_h1 r
  end.

(** [soup.body if soup.body else soup], as the children it stands for. *)
Definition body_of (soup : Bs4.soup) : list Bs4.node :=
  match Bs4.find (Bs4.name_is "body") soup with
  | Some b => Bs4.contents b
  | None => soup
  end.

Definition find_manifest_elem (r : ET.element) :=
  ET.find2 (ET.tag_is (opf "manifest")) (ET.tag_is "manifest") r.

Definition find_spine_elem (r : ET.element) :=
  ET.find2 (ET.tag_is (opf "spine")) (ET.tag_is "spine") r.

(** [item_idref in manifest and manifest[item_idref]['href'] == 'cover.xhtml'] *)
Definition is_cover_ref (m : manifest_dict) (idref : option string) : bool :=
  match manifest_get idref m with
  | Some it => String.eqb (Item.href it) "cover.xhtml"
  | None => false
  end.

(** [next((item for item in manifest.values() if item['href'] == 'cover.xhtml'), None)] *)
Definition cover_item (m : manifest_dict) : option Item.t :=
  next_where (fun it => String.eqb (Item.href it) "cover.xhtml") (values m).

(** [enumerate(l)] *)
Definition enumerate {A} (l : list A) : list (nat * A) :=
  combine (seq 0 (length l)) l.

(* ================================================================= *)
(** ** The program *)

Section Program.

Context {lib : Libraries}.

#[local] Open Scope io_scope.

(** [ET.parse(path)] *)
Definition parse_xml_file (path : string) : io ET.element :=
  text <- read_file path ;;
  match ET_parse text with
  | Some r => ret r
  | None => raise ParseError
  end.

(** *** [extract_epub] *)
Definition extract_epub (epub_path extract_dir : string) : io unit :=
  makedirs extract_dir ;;
  bytes <- read_file epub_path ;;
  match zip_read bytes with
  | None => raise BadZipFile
  | Some members =>
      for_each members
        (fun m => write_file (extract_dir ++ "/" ++ fst m) (snd m))
  end.

(** *** [find_content_opf] *)
Definition find_content_opf (extract_dir : string) : io string :=
  let container_path :=
    Path.join (Path.join extract_dir "META-INF") "container.xml" in
  present <- exists_ container_path ;;
  if negb present then raise FileNotFoundError
  else
    r <- parse_xml_file container_path ;;
    let rootfile_element :=
      match ET.find (ET.tag_attr_is
                       "{urn:oasis:names:tc:opendocument:xmlns:container}rootfile"
                       "media-type" "application/oebps-package+xml") r with
      | Some e => Some e
      | None => ET.find (ET.tag_attr_is "rootfile" "media-type"
                                        "application/oebps-package+xml") r
      end in
    match rootfile_element with
    | None => raise ValueError
    | Some e =>
        match ET.get e "full-path" with
        | None => raise TypeError
        | Some content_opf_path => ret (Path.join extract_dir content_opf_path)
        end
    end.

(** *** [parse_content_opf] *)

(** One round of [for item in manifest_elem]. *)
Definition add_manifest_entry (opf_dir : string) (m : manifest_dict)
           (item : ET.element) : result manifest_dict :=
  match ET.get item "href" with
  | None => Raise TypeError
  | Some item_href =>
      Ok (dict_set opt_eqb (ET.get item "id")
                   (Item.mk item_href (ET.get item "media-type")
                            (Path.join opf_dir item_href)) m)
  end.

(** [for itemref in spine_elem: if idref in manifest: spine.append(idref)] *)
Definition parse_spine (m : manifest_dict) (itemrefs : list ET.element)
  : list (option string) :=
  filter (fun idref => dict_mem opt_eqb idref m)
         (map (fun itemref => ET.get itemref "idref") itemrefs).

Definition parse_root (opf_dir : string) (r : ET.element) : result content_data :=
  match find_manifest_elem r with
  | None => Raise ValueError
  | Some (_, manifest_elem) =>
      let* m := foldM (add_manifest_entry opf_dir) (ET.children manifest_elem) [] in
      match find_spine_elem r with
      | None => Raise ValueError
      | Some (_, spine_elem) =>
          Ok (mk_content_data r m (parse_spine m (ET.children spine_elem)) opf_dir)
      end
  end.

Definition parse_content_opf (content_opf_path : string) : io content_data :=
  r <- parse_xml_file content_opf_path ;;
  lift (parse_root (Path.dirname content_opf_path) r).

(** *** [find_chapter_boundaries] *)

(** The spine documents that are genuine content pages. *)
Definition content_files (cd : content_data) : list Item.t :=
  flat_map
    (fun item_id =>
       match manifest_get item_id (manifest cd) with
       | None => []
       | Some item =>
           if negb (opt_eqb (Item.media_type item) (Some XHTML)) then []
           else
             let href_lower := Py.lower (Item.href item) in
             if existsb (fun token => Py.contains href_lower token)
                        ["nav.xhtml"; "cover.xhtml"]
             then []
             else [item]
       end)
    (spine cd).

(** One round of [for idx, h1 in enumerate(h1_tags)]. *)
Definition start_chapter (st : seg_state) (h1 : Bs4.located) : seg_state :=
  mk_seg_state
    (flush st)
    (Some (get_text_strip (fst h1)))
    (str_node (fst h1) :: map str_node (siblings_until_h1 (snd h1))).

(** The body of [for item in content_files], after the file is parsed. *)
Definition process_document (st : seg_state) (soup : Bs4.soup) : seg_state :=
  let body := body_of soup in
  let h1_tags := Bs4.find_all "h1" body in
  match h1_tags with
  | [] =>
      match current_title st with
      | Some _ =>
          mk_seg_state (chapters st) (current_title st)
                       (current_content st ++ [decode_contents body])
      | None => st
      end
  | _ => fold_left start_chapter h1_tags st
  end.

Fixpoint segment_files (items : list Item.t) (st : seg_state) : io seg_state :=
  match items with
  | [] => ret st
  | item :: rest =>
      html_content <- read_file (Item.full_path item) ;;
      segment_files rest (process_document st (BeautifulSoup html_content))
  end.

Definition find_chapter_boundaries (cd : content_data) : io (list Chapter.t) :=
  st <- segment_files (content_files cd) seg_init ;;
  ret (flush st).

(** *** [create_chapter_files] *)

(** The guard of the removal loop, once the item is known to be XHTML. *)
Definition is_old_content_file (item_id : option string) (item : Item.t)
  : result bool :=
  if negb (String.eqb (Item.href item) "cover.xhtml")
     && negb (Py.mem item_id [Some "nav"; Some "cover"])
  then match item_id with
       | None => Raise AttributeError
       | Some s => Ok (negb (Py.startswith s "ch_"))
       end
  else Ok false.

Definition remove_old_file (m : manifest_dict) (item_id : option string) : io unit :=
  match manifest_get item_id m with
  | None => ret tt
  | Some item =>
      if opt_eqb (Item.media_type item) (Some XHTML) then
        old <- lift (is_old_content_file item_id item) ;;
        if (old : bool) then
          present <- exists_ (Item.full_path item) ;;
          if (present : bool) then try_except_pass (os_remove (Item.full_path item))
          else ret tt
        else ret tt
      else ret tt
  end.

(** [next(item['href'] for item in manifest.values() if text/css)] *)
Definition css_href (m : manifest_dict) : option string :=
  option_map Item.href
    (next_where (fun it => opt_eqb (Item.media_type it) (Some "text/css"))
                (values m)).

(** The head used when the template has none. *)
Definition minimal_head (m : manifest_dict) (chapter_title : string) : Bs4.node :=
  Bs4.Tag "head" []
    (Bs4.Tag "title" [] [Bs4.NavigableString chapter_title] ::
     match css_href m with
     | Some h =>
         if String.eqb h "" then []
         else [Bs4.Tag "link" [("href", h); ("rel", "stylesheet");
                               ("type", "text/css")] []]
     | None => []
     end).

Definition chapter_shell : string :=
  "<!DOCTYPE html><html xmlns=" ++ dq ++ "http://www.w3.org/1999/xhtml" ++ dq
  ++ " xmlns:epub=" ++ dq ++ "http://www.idpf.org/2007/ops" ++ dq ++ "></html>".

(** The document written for one chapter; [None] when the shell has no
    [html] tag to append to. *)
Definition chapter_document (head : option Bs4.node) (m : manifest_dict)
           (chapter : Chapter.t) : option Bs4.soup :=
  let chapter_soup := BeautifulSoup chapter_shell in
  let the_head :=
    match head with
    | Some h => h
    | None => minimal_head m (Chapter.title chapter)
    end in
  let section :=
    Bs4.Tag "section" [("epub:type", "bodymatter chapter")]
            (BeautifulSoup (Chapter.content chapter)) in
  let body := Bs4.Tag "body" [] [section] in
  match Bs4.update (Bs4.name_is "html") (Bs4.append the_head) chapter_soup with
  | None => None
  | Some with_head =>
      Bs4.update (Bs4.name_is "html") (Bs4.append body) with_head
  end.

Fixpoint write_chapters (head : option Bs4.node) (cd : content_data)
         (chs : list Chapter.t) : io (list ChapterFile.t) :=
  match chs with
  | [] => ret []
  | chapter :: rest =>
      let chapter_filename := (Chapter.id chapter ++ ".xhtml")%string in
      let chapter_path := Path.join (opf_dir cd) chapter_filename in
      match chapter_document head (manifest cd) chapter with
      | None => raise AttributeError
      | Some chapter_soup =>
          write_file chapter_path (decode_contents chapter_soup) ;;
          files <- write_chapters head cd rest ;;
          ret (ChapterFile.mk (Chapter.id chapter) chapter_filename
                              (Chapter.title chapter) chapter_path :: files)
      end
  end.

Definition create_chapter_files (chs : list Chapter.t) (cd : content_data)
  : io (list ChapterFile.t) :=
  match spine cd with
  | [] => raise IndexError
  | template_id :: _ =>
      match manifest_get template_id (manifest cd) with
      | None => raise TypeError
      | Some template_item =>
          template_content <- read_file (Item.full_path template_item) ;;
          let head := Bs4.find (Bs4.name_is "head") (BeautifulSoup template_content) in
          for_each (spine cd) (remove_old_file (manifest cd)) ;;
          write_chapters head cd chs
      end
  end.

(** *** [update_content_opf] *)

(** The children left after [for x in flagged: elem.remove(x)], where
    [flagged] collects the children on which [flag] holds: [remove]
    works by object identity, so exactly the flagged children go. *)
Definition remove_flagged (flag : ET.element -> result bool)
           (cs : list ET.element) : result (list ET.element) :=
  filterM (fun x => let* b := flag x in Ok (negb b)) cs.

Definition is_old_manifest_item (item : ET.element) : result bool :=
  let item_id := ET.get item "id" in
  let href := ET.get item "href" in
  if negb (Py.mem item_id [Some "nav"; Some "ncx"])
     && negb (opt_eqb href (Some "cover.xhtml"))
     && opt_eqb (ET.get item "media-type") (Some XHTML)
  then match item_id with
       | None => Raise AttributeError
       | Some s => Ok (negb (Py.startswith s "ch_"))
       end
  else Ok false.

Definition chapter_manifest_item (chapter : ChapterFile.t) : ET.element :=
  ET.Element (opf "item")
             [("id", ChapterFile.id chapter);
              ("href", ChapterFile.href chapter);
              ("media-type", XHTML)]
             None [].

(** One round of [for chapter in chapter_files] on the manifest. *)
Definition put_chapter_item (items : list ET.element) (chapter : ChapterFile.t)
  : list ET.element :=
  match update_first
          (fun item =>
             if opt_eqb (ET.get item "id") (Some (ChapterFile.id chapter))
             then Some (ET.set "media-type" XHTML
                          (ET.set "href" (ChapterFile.href chapter) item))
             else None)
          items with
  | Some items' => items'
  | None => items ++ [chapter_manifest_item chapter]
  end.

Definition update_manifest_children (items : list ET.element)
           (chapter_files : list ChapterFile.t) : result (list ET.element) :=
  let* kept := remove_flagged is_old_manifest_item items in
  Ok (fold_left put_chapter_item chapter_files kept).

Definition is_old_itemref (m : manifest_dict) (item : ET.element) : result bool :=
  let item_idref := ET.get item "idref" in
  let is_cover := is_cover_ref m item_idref in
  if negb (Py.mem item_idref [Some "nav"; Some "ncx"]) && negb is_cover
  then match item_idref with
       | None => Raise AttributeError
       | Some s => Ok (negb (Py.startswith s "ch_"))
       end
  else Ok false.

(** [item.get('idref') and item.get('idref').startswith('ch_')] *)
Definition is_chapter_itemref (item : ET.element) : bool :=
  match ET.get item "idref" with
  | Some s => negb (String.eqb s "") && Py.startswith s "ch_"
  | None => false
  end.

(** One round of the scan for the insertion point. *)
Definition scan_position (m : manifest_dict) (pos : nat) (ie : nat * ET.element)
  : nat :=
  let item_idref := ET.get (snd ie) "idref" in
  if opt_eqb item_idref (Some "nav") then fst ie + 1
  else if is_cover_ref m item_idref then fst ie + 1
  else pos.

Definition insert_position (m : manifest_dict) (refs : list ET.element) : nat :=
  fold_left (scan_position m) (enumerate refs) 0.

Definition chapter_itemref (chapter : ChapterFile.t) : ET.element :=
  ET.Element (opf "itemref") [("idref", ChapterFile.id chapter)] None [].

Definition insert_chapter_refs (pos : nat) (refs : list ET.element)
           (chapter_files : list ChapterFile.t) : list ET.element :=
  fold_left
    (fun sp ic => Py.list_insert (pos + fst ic) (chapter_itemref (snd ic)) sp)
    (enumerate chapter_files) refs.

Definition update_spine_children (m : manifest_dict) (refs : list ET.element)
           (chapter_files : list ChapterFile.t) : result (list ET.element) :=
  let* kept := remove_flagged (is_old_itemref m) refs in
  let kept := filter (fun r => negb (is_chapter_itemref r)) kept in
  Ok (insert_chapter_refs (insert_position m kept) kept chapter_files).

(** The mutated tree, before it is written. *)
Definition updated_root (cd : content_data) (chapter_files : list ChapterFile.t)
  : result ET.element :=
  match find_manifest_elem (root cd) with
  | None => Raise TypeError
  | Some (pm, manifest_elem) =>
      let* items := update_manifest_children (ET.children manifest_elem)
                                             chapter_files in
      match ET.update pm (ET.set_children items) (root cd) with
      | None => Raise TypeError
      | Some root1 =>
          match find_spine_elem root1 with
          | None => Raise TypeError
          | Some (ps, spine_elem) =>
              let* refs := update_spine_children (manifest cd)
                                                 (ET.children spine_elem)
                                                 chapter_files in
              match ET.update ps (ET.set_children refs) root1 with
              | None => Raise TypeError
              | Some root2 => Ok root2
              end
          end
      end
  end.

(** Returns the tree it has written. *)
Definition update_content_opf (cd : content_data)
           (chapter_files : list ChapterFile.t) : io ET.element :=
  root2 <- lift (updated_root cd chapter_files) ;;
  write_file (Path.join (opf_dir cd) "content.opf") (ET_write root2) ;;
  ret root2.

(** *** [update_nav_document] *)

Definition toc_pattern : Bs4.pattern := Bs4.name_attr_is "nav" "epub:type" "toc".

(** [<li><a href=h>label</a></li>] *)
Definition toc_entry (h label : string) : Bs4.node :=
  Bs4.Tag "li" [] [Bs4.Tag "a" [("href", h)] [Bs4.NavigableString label]].

Definition toc_entries (m : manifest_dict) (chapter_files : list ChapterFile.t)
  : list Bs4.node :=
  match cover_item m with
  | Some c => [toc_entry (Item.href c) "Cover"]
  | None => []
  end ++
  map (fun ch => toc_entry (ChapterFile.href ch) (ChapterFile.title ch))
      chapter_files.

(** The TOC [nav] element once its list is cleared (or created) and
    refilled. *)
Definition fill_toc (entries : list Bs4.node) (nav_elem : Bs4.node) : Bs4.node :=
  match Bs4.update (Bs4.name_is "ol") (Bs4.set_contents entries)
                   (Bs4.contents nav_elem) with
  | Some cs => Bs4.set_contents cs nav_elem
  | None => Bs4.append (Bs4.Tag "ol" [] entries) nav_elem
  end.

(** Returns the soup it has written, [None] when the update is skipped. *)
Definition update_nav_document (cd : content_data)
           (chapter_files : list ChapterFile.t) : io (option Bs4.soup) :=
  match next_where (fun i => opt_eqb i (Some "nav")) (spine cd) with
  | None => ret None
  | Some nav_id =>
      match manifest_get nav_id (manifest cd) with
      | None => raise TypeError
      | Some nav_item =>
          let nav_path := Item.full_path nav_item in
          nav_content <- read_file nav_path ;;
          let soup := BeautifulSoup nav_content in
          match Bs4.update toc_pattern
                           (fill_toc (toc_entries (manifest cd) chapter_files))
                           soup with
          | None => ret None
          | Some soup' =>
              write_file nav_path (decode_contents soup') ;;
              ret (Some soup')
          end
      end
  end.

(** *** [update_ncx_document] *)

Definition nav_point (play_order : nat) (label src : string) : ET.element :=
  ET.Element "navPoint"
    [("id", ("navPoint-" ++ str_of_nat play_order)%string);
     ("playOrder", str_of_nat play_order)]
    None
    [ET.Element "navLabel" [] None [ET.Element "text" [] (Some label) []];
     ET.Element "content" [("src", src)] None []].

(** The [(label, src)] pairs in the order the two loops visit them. *)
Definition ncx_entries (m : manifest_dict) (chapter_files : list ChapterFile.t)
  : list (string * string) :=
  match cover_item m with
  | Some c => [("Cover", Item.href c)]
  | None => []
  end ++
  map (fun ch => (ChapterFile.title ch, ChapterFile.href ch)) chapter_files.

(** The [navPoint]s appended, with the running [play_order]. *)
Definition nav_points (entries : list (string * string)) : list ET.element :=
  snd (fold_left
         (fun acc e =>
            (fst acc + 1, snd acc ++ [nav_point (fst acc) (fst e) (snd e)]))
         entries (1, [])).

Definition find_nav_map (r : ET.element) :=
  ET.find2 (ET.tag_is "{http://www.daisy.org/z3986/2005/ncx/}navMap")
           (ET.tag_is "navMap") r.

(** Python truth of an identifier. *)
Definition truthy (k : option string) : bool :=
  match k with
  | Some s => negb (String.eqb s "")
  | None => false
  end.

(** Returns the tree it has written, [None] when the update is skipped. *)
Definition update_ncx_document (cd : content_data)
           (chapter_files : list ChapterFile.t) : io (option ET.element) :=
  match next_where (fun kv => opt_eqb (Item.media_type (snd kv)) (Some NCX))
                   (manifest cd) with
  | None => ret None
  | Some (ncx_id, _) =>
      if negb (truthy ncx_id) then ret None
      else
        match manifest_get ncx_id (manifest cd) with
        | None => raise TypeError
        | Some ncx_item =>
            let ncx_path := Item.full_path ncx_item in
            r <- parse_xml_file ncx_path ;;
            match find_nav_map r with
            | None => ret None
            | Some (p, _) =>
                let points := nav_points (ncx_entries (manifest cd) chapter_files) in
                match ET.update p (ET.set_children points) r with
                | None => ret None
                | Some r' =>
                    write_file ncx_path (ET_write r') ;;
                    ret (Some r')
                end
            end
        end
  end.

(** *** [rebuild_epub], [clean_up], [main] *)

(** The regular files [os.walk(d)] reaches, as [(relative path, data)]. *)
Definition walk (d : string) : io (list (string * string)) :=
  fun fs =>
    (Ok (flat_map
           (fun pe =>
              match snd pe with
              | File data =>
                  if Path.below d (fst pe)
                  then [(String.substring (String.length d + 1)
                                          (String.length (fst pe)) (fst pe),
                         data)]
                  else []
              | Dir => []
              end) fs),
     fs).

Definition rebuild_epub (extract_dir output_path : string) : io unit :=
  let mimetype_path := Path.join extract_dir "mimetype" in
  present <- exists_ mimetype_path ;;
  first <- (if (present : bool)
            then data <- read_file mimetype_path ;; ret [("mimetype", data)]
            else ret []) ;;
  write_file output_path (zip_write first) ;;
  files <- walk extract_dir ;;
  let others :=
    filter (fun f => negb (String.eqb (Path.basename (fst f)) "mimetype")) files in
  write_file output_path (zip_write (first ++ others)).

Definition clean_up (extract_dir : string) : io unit := rmtree extract_dir.

(** The [try] block of [main]. *)
Definition pipeline (input_epub output_epub extract_dir : string) : io unit :=
  extract_epub input_epub extract_dir ;;
  content_opf_path <- find_content_opf extract_dir ;;
  cd <- parse_content_opf content_opf_path ;;
  chs <- find_chapter_boundaries cd ;;
  chapter_files <- create_chapter_files chs cd ;;
  update_content_opf cd chapter_files ;;
  update_nav_document cd chapter_files ;;
  update_ncx_document cd chapter_files ;;
  rebuild_epub extract_dir output_epub.

(** [main], with the command-line arguments and the freshly drawn
    directory name as parameters. *)
Definition main (input_epub output_epub extract_dir : string) : io unit :=
  try_finally (pipeline input_epub output_epub extract_dir)
              (clean_up extract_dir).

End Program.

(* ================================================================= *)
(** ** A reference implementation of the libraries, and sample packages *)

Module Sample.

#[local] Open Scope string_scope.

(** Markup as bs4 prints it, without entity substitution. *)
Definition render_attr (kv : string * string) : string :=
    " " ++ fst kv ++ "=" ++ dq ++ snd kv ++ dq.

Fixpoint render (x : Bs4.node) : string :=
    match x with
    | Bs4.NavigableString s => s
    | Bs4.Tag n a cs =>
        "<" ++ n ++ Py.join (map render_attr a) ++ ">"
        ++ Py.join (map render cs) ++ "</" ++ n ++ ">"
    end.

Definition render_soup (s : Bs4.soup) : string := Py.join (map render s).

Definition is_space (c : ascii) : bool :=
    let n := nat_of_ascii c in
    Nat.eqb n 32 || (Nat.leb 9 n && Nat.leb n 13).

Fixpoint lstrip (s : string) : string :=
    match s with
    | String c r => if is_space c then lstrip r else s
    | EmptyString => EmptyString
    end.

Fixpoint rstrip (s : string) : string :=
    match s with
    | EmptyString => EmptyString
    | String c r =>
        match rstrip r with
        | EmptyString => if is_space c then EmptyString else String c EmptyString
        | r' => String c r'
        end
    end.

(** The stripped strings below a node, joined. *)
Fixpoint text_of (x : Bs4.node) : string :=
    match x with
    | Bs4.NavigableString s => rstrip (lstrip s)
    | Bs4.Tag _ _ cs => Py.join (map text_of cs)
    end.

Fixpoint xml_text (e : ET.element) : string :=
    match e with
    | ET.Element t a x cs =>
        "<" ++ t ++ Py.join (map render_attr a) ++ ">"
        ++ match x with Some s => s | None => "" end
        ++ Py.join (map xml_text cs) ++ "</" ++ t ++ ">"
    end.

Definition archive_text (members : list (string * string)) : string :=
    Py.join (map (fun m => "[" ++ fst m ++ "|" ++ snd m ++ "]") members).

(** A parser that knows the documents of a corpus: the text a
    serialiser prints for one of them parses back to it. *)
Definition parse_known {T} (print : T -> string) (corpus : list T)
             (markup : string) : option T :=
    List.find (fun t => String.eqb (print t) markup) corpus.

Section Corpus.
Variable pages : list Bs4.soup.
Variable documents : list ET.element.
Variable archives : list (list (string * string)).

(** Markup outside the corpus is kept as one string, which is what
    [html.parser] does with markup-free text. *)
Definition library : Libraries := {|
  BeautifulSoup markup :=
    match parse_known render_soup pages markup with
    | Some s => s
    | None => [Bs4.NavigableString markup]
    end;
  str_node := render;
  decode_contents := render_soup;
  get_text_strip := text_of;
  ET_parse := parse_known xml_text documents;
  ET_write := xml_text;
  zip_read := parse_known archive_text archives;
  zip_write := archive_text
|}.
End Corpus.

Definition h1 (t : string) : Bs4.node :=
    Bs4.Tag "h1" [] [Bs4.NavigableString t].
Definition p (t : string) : Bs4.node :=
    Bs4.Tag "p" [] [Bs4.NavigableString t].

Definition xhtml_item (i h : string) : ET.element :=
    ET.Element (opf "item") [("id", i); ("href", h); ("media-type", XHTML)] None [].
Definition itemref (i : string) : ET.element :=
    ET.Element (opf "itemref") [("idref", i)] None [].
Definition package (items refs : list ET.element) : ET.element :=
    ET.Element (opf "package") [] None
      [ET.Element (opf "manifest") [] None items;
       ET.Element (opf "spine") [] None refs].

(** A page whose second heading sits inside a sibling of the first. *)
Definition nested_page : Bs4.soup :=
  [Bs4.Tag "html" []
     [Bs4.Tag "body" []
        [h1 "One"; p "a"; Bs4.Tag "section" [] [h1 "Two"; p "b"]]]].

(** A page with headings at different depths and a paragraph between
    two heading runs. *)
Definition scattered_page : Bs4.soup :=
  [Bs4.Tag "html" []
     [Bs4.Tag "body" []
        [Bs4.Tag "div" [] [h1 "A"; p "a"]; p "between"; h1 "B";
         Bs4.Tag "div" [] [h1 "C"; p "c"]]]].

Definition one_page_package : ET.element :=
  package [xhtml_item "c1" "c1.xhtml"] [itemref "c1"].

Definition one_page_cd : content_data :=
  mk_content_data one_page_package
    [(Some "c1", Item.mk "c1.xhtml" (Some XHTML) "OEBPS/c1.xhtml")]
    [Some "c1"] "OEBPS".

Definition nested_lib : Libraries := library [nested_page] [] [].
Definition nested_fs : filesystem :=
  [("OEBPS/c1.xhtml", File (render_soup nested_page))].

Definition scattered_lib : Libraries := library [scattered_page] [] [].
Definition scattered_fs : filesystem :=
  [("OEBPS/c1.xhtml", File (render_soup scattered_page))].

(** A page without heading. *)
Definition plain_page : Bs4.soup :=
  [Bs4.Tag "html" [] [Bs4.Tag "body" [] [p "more"]]].

Definition two_page_package : ET.element :=
  package [xhtml_item "c1" "c1.xhtml"; xhtml_item "c2" "c2.xhtml"]
          [itemref "c1"; itemref "c2"].

Definition nested_chapters : list Chapter.t :=
  [Chapter.mk "One" "<h1>One</h1><p>a</p><section><h1>Two</h1><p>b</p></section>"
              "ch_0";
   Chapter.mk "Two" "<h1>Two</h1><p>b</p>" "ch_1"].

Definition scattered_chapters : list Chapter.t :=
  [Chapter.mk "A" "<h1>A</h1><p>a</p>" "ch_0";
   Chapter.mk "B" "<h1>B</h1><div><h1>C</h1><p>c</p></div>" "ch_1";
   Chapter.mk "C" "<h1>C</h1><p>c</p>" "ch_2"].

(** A package whose only itemref names an identifier the manifest does
    not have. *)
Definition dangling_package : ET.element :=
  package [xhtml_item "c1" "c1.xhtml"] [itemref "gone"].

Definition dangling_cd : content_data :=
  mk_content_data dangling_package
    [(Some "c1", Item.mk "c1.xhtml" (Some XHTML) "OEBPS/c1.xhtml")]
    [] "OEBPS".

(** A complete book: cover, navigation document, NCX and two content
    pages with three headings; its root document is [OEBPS/package.opf]. *)
Definition container : ET.element :=
  ET.Element "container" [] None
    [ET.Element "rootfiles" [] None
       [ET.Element "{urn:oasis:names:tc:opendocument:xmlns:container}rootfile"
          [("full-path", "OEBPS/package.opf");
           ("media-type", "application/oebps-package+xml")] None []]].

Definition book_package : ET.element :=
  package
    [xhtml_item "cover" "cover.xhtml";
     xhtml_item "nav" "nav.xhtml";
     ET.Element (opf "item")
       [("id", "ncx"); ("href", "toc.ncx"); ("media-type", NCX)] None [];
     xhtml_item "c1" "c1.xhtml";
     xhtml_item "c2" "c2.xhtml"]
    [itemref "cover"; itemref "nav"; itemref "c1"; itemref "c2"].

Definition cover_page : Bs4.soup :=
  [Bs4.Tag "html" [] [Bs4.Tag "head" [] [Bs4.Tag "title" [] [Bs4.NavigableString "Book"]];
                      Bs4.Tag "body" [] [p "cover"]]].

Definition nav_page : Bs4.soup :=
  [Bs4.Tag "html" []
     [Bs4.Tag "body" []
        [Bs4.Tag "nav" [("epub:type", "toc")]
           [Bs4.Tag "ol" []
              [Bs4.Tag "li" [] [Bs4.Tag "a" [("href", "c1.xhtml")]
                                        [Bs4.NavigableString "Old"]]]]]]].

Definition ncx_document : ET.element :=
  ET.Element "ncx" [] None
    [ET.Element "navMap" [] None
       [ET.Element "navPoint" [("id", "old")] None
          [ET.Element "content" [("src", "c1.xhtml")] None []]]].

Definition intro_page : Bs4.soup :=
  [Bs4.Tag "html" [] [Bs4.Tag "body" [] [h1 "Intro"; p "first"; p "second"]]].

Definition parts_page : Bs4.soup :=
  [Bs4.Tag "html" []
     [Bs4.Tag "body" [] [h1 "Part One"; p "one"; h1 "Part Two"; p "two"]]].

Definition shell_page : Bs4.soup :=
  [Bs4.NavigableString "<!DOCTYPE html>";
   Bs4.Tag "html" [("xmlns", "http://www.w3.org/1999/xhtml");
                   ("xmlns:epub", "http://www.idpf.org/2007/ops")] []].

Definition book_members : list (string * string) :=
  [("mimetype", "application/epub+zip");
   ("META-INF/container.xml", xml_text container);
   ("OEBPS/package.opf", xml_text book_package);
   ("OEBPS/cover.xhtml", render_soup cover_page);
   ("OEBPS/nav.xhtml", render_soup nav_page);
   ("OEBPS/toc.ncx", xml_text ncx_document);
   ("OEBPS/c1.xhtml", render_soup intro_page);
   ("OEBPS/c2.xhtml", render_soup parts_page)].

Definition book_lib : Libraries :=
  library [cover_page; nav_page; intro_page; parts_page; shell_page]
          [container; book_package; ncx_document]
          [book_members].

(** The working tree before a run, and the one an extraction leaves. *)
Definition book_fs : filesystem := [("book.epub", File (archive_text book_members))].

Definition book_dir : string := "temp_epub_0a1b2c3d".

Definition extracted_fs : filesystem :=
  snd (extract_epub (lib := book_lib) "book.epub" book_dir book_fs).

Definition book_opf_path : string := "temp_epub_0a1b2c3d/OEBPS/package.opf".

(** What the loader returns for the book. *)
Definition book_cd : content_data :=
  match parse_root "temp_epub_0a1b2c3d/OEBPS" book_package with
  | Ok cd => cd
  | Raise _ => mk_content_data book_package [] [] ""
  end.

Definition book_chapter_files : list ChapterFile.t :=
  [ChapterFile.mk "ch_0" "ch_0.xhtml" "Intro" "temp_epub_0a1b2c3d/OEBPS/ch_0.xhtml";
   ChapterFile.mk "ch_1" "ch_1.xhtml" "Part One" "temp_epub_0a1b2c3d/OEBPS/ch_1.xhtml";
   ChapterFile.mk "ch_2" "ch_2.xhtml" "Part Two" "temp_epub_0a1b2c3d/OEBPS/ch_2.xhtml"].

(** The root document [update_content_opf] writes for the book, and the
    tree it leaves. *)
Definition book_new_root : ET.element :=
  match updated_root book_cd book_chapter_files with
  | Ok r => r
  | Raise _ => book_package
  end.

Definition book_updated_fs : filesystem :=
  snd (update_content_opf (lib := book_lib) book_cd book_chapter_files extracted_fs).

(** A package whose spine lists the navigation document before the
    cover. *)
Definition nav_first_package : ET.element :=
  package [xhtml_item "nav" "nav.xhtml"; xhtml_item "cover" "cover.xhtml";
           xhtml_item "c1" "c1.xhtml"]
          [itemref "nav"; itemref "cover"; itemref "c1"].

Definition nav_first_cd : content_data :=
  match parse_root "OEBPS" nav_first_package with
  | Ok cd => cd
  | Raise _ => mk_content_data nav_first_package [] [] ""
  end.

Definition one_chapter_file : list ChapterFile.t :=
  [ChapterFile.mk "ch_0" "ch_0.xhtml" "One" "OEBPS/ch_0.xhtml"].

Definition nav_first_new_root : ET.element :=
  package [xhtml_item "nav" "nav.xhtml"; xhtml_item "cover" "cover.xhtml";
           xhtml_item "ch_0" "ch_0.xhtml"]
          [itemref "nav"; itemref "cover"; itemref "ch_0"].

(** A package whose spine names a navigation document the manifest does
    not list. *)
Definition unlisted_nav_package : ET.element :=
  package [xhtml_item "c1" "c1.xhtml"] [itemref "nav"; itemref "c1"].

Definition unlisted_nav_cd : content_data :=
  match parse_root "OEBPS" unlisted_nav_package with
  | Ok cd => cd
  | Raise _ => mk_content_data unlisted_nav_package [] [] ""
  end.

Definition unlisted_nav_new_root : ET.element :=
  package [xhtml_item "ch_0" "ch_0.xhtml"] [itemref "nav"; itemref "ch_0"].

(** The two table-of-contents updates on the book. *)
Definition book_nav_run : result (option Bs4.soup) * filesystem :=
  update_nav_document (lib := book_lib) book_cd book_chapter_files
                      book_updated_fs.

Definition book_new_nav : Bs4.soup :=
  match fst book_nav_run with
  | Ok (Some soup) => soup
  | _ => []
  end.

Definition book_ncx_run : result (option ET.element) * filesystem :=
  update_ncx_document (lib := book_lib) book_cd book_chapter_files
                      (snd book_nav_run).

Definition book_new_ncx : ET.element :=
  match fst book_ncx_run with
  | Ok (Some r) => r
  | _ => ncx_document
  end.

(** A package that lists its navigation document in the manifest but
    not in the spine. *)
Definition nav_off_spine_package : ET.element :=
  package
    [xhtml_item "nav" "nav.xhtml";
     ET.Element (opf "item")
       [("id", "ncx"); ("href", "toc.ncx"); ("media-type", NCX)] None [];
     xhtml_item "c1" "c1.xhtml"]
    [itemref "c1"].

Definition nav_off_spine_cd : content_data :=
  match parse_root "OEBPS" nav_off_spine_package with
  | Ok cd => cd
  | Raise _ => mk_content_data nav_off_spine_package [] [] ""
  end.

Definition nav_off_spine_fs : filesystem :=
  [("OEBPS/nav.xhtml", File (render_soup nav_page));
   ("OEBPS/toc.ncx", File (xml_text ncx_document));
   ("OEBPS/ch_0.xhtml", File "")].

(** A package with two items of the same identifier. *)
Definition duplicate_id_package : ET.element :=
  package [xhtml_item "c1" "a.xhtml"; xhtml_item "c1" "b.xhtml"] [itemref "c1"].

Definition duplicate_id_cd : content_data :=
  match parse_root "OEBPS" duplicate_id_package with
  | Ok cd => cd
  | Raise _ => mk_content_data duplicate_id_package [] [] ""
  end.

(** The chapters of the book, and the tree [create_chapter_files] leaves
    for them. *)
Definition book_chapters : list Chapter.t :=
  [Chapter.mk "Intro" "<h1>Intro</h1><p>first</p><p>second</p>" "ch_0";
   Chapter.mk "Part One" "<h1>Part One</h1><p>one</p>" "ch_1";
   Chapter.mk "Part Two" "<h1>Part Two</h1><p>two</p>" "ch_2"].

Definition book_chapters_fs : filesystem :=
  snd (create_chapter_files (lib := book_lib) book_chapters book_cd extracted_fs).

(** A package whose spine holds an itemref without [idref]. *)
Definition bare_itemref_package : ET.element :=
  package [xhtml_item "c1" "c1.xhtml"]
          [itemref "c1"; ET.Element (opf "itemref") [] None []].

Definition bare_itemref_cd : content_data :=
  match parse_root "OEBPS" bare_itemref_package with
  | Ok cd => cd
  | Raise _ => mk_content_data bare_itemref_package [] [] ""
  end.

(** A book whose only content page has no heading. *)
Definition plain_lib : Libraries := library [plain_page] [] [].

Definition plain_fs : filesystem :=
  [("OEBPS/c1.xhtml", File (render_soup plain_page))].


(** A package document with attributes and a metadata element. *)
Definition metadata_element : ET.element :=
  ET.Element (opf "metadata") [] None
    [ET.Element "{http://purl.org/dc/elements/1.1/}title" [] (Some "Book") []].

Definition titled_package : ET.element :=
  ET.Element (opf "package") [("version", "3.0")] None
    [metadata_element;
     ET.Element (opf "manifest") [] None [xhtml_item "c1" "c1.xhtml"];
     ET.Element (opf "spine") [] None [itemref "c1"]].

Definition titled_cd : content_data :=
  match parse_root "OEBPS" titled_package with
  | Ok cd => cd
  | Raise _ => mk_content_data titled_package [] [] ""
  end.

(** The document [update_content_opf] writes for it and one chapter. *)
Definition titled_new_root : ET.element :=
  ET.Element (opf "package") [("version", "3.0")] None
    [metadata_element;
     ET.Element (opf "manifest") [] None [xhtml_item "ch_0" "ch_0.xhtml"];
     ET.Element (opf "spine") [] None [itemref "ch_0"]].

End Sample.


(* ================================================================= *)
(** ** Vocabulary of the statements *)

Section Vocabulary.

Context {lib : Libraries}.

(** The segmenter on documents already read and parsed. *)
Definition segment (docs : list Bs4.soup) : seg_state :=
  fold_left process_document docs seg_init.

(** The chapters returned for the parsed documents [docs]. *)
Definition emitted (docs : list Bs4.soup) : list Chapter.t :=
  flush (segment docs).

(** Every [h1] the segmenter enumerates, over all documents. *)
Definition headings (docs : list Bs4.soup) : list Bs4.located :=
  flat_map (fun d => Bs4.find_all "h1" (body_of d)) docs.

(** The parsed content documents, when every file can be read. *)
Fixpoint read_pages (items : list Item.t) (fs : filesystem)
  : result (list Bs4.soup) :=
  match items with
  | [] => Ok []
  | item :: rest =>
      match fst (read_file (Item.full_path item) fs) with
      | Ok html =>
          let* pages := read_pages rest fs in
          Ok (BeautifulSoup html :: pages)
      | Raise e => Raise e
      end
  end.

(** The identifiers of a chapter list follow the emission order. *)
Definition numbered (chs : list Chapter.t) : Prop :=
  map Chapter.id chs = map ch_id (seq 0 (length chs)).

(** A path component: no separator in it. *)
Fixpoint no_sep (s : string) : bool :=
  match s with
  | EmptyString => true
  | String c r => negb (Ascii.eqb c Path.sep) && no_sep r
  end.

(** The identifiers a list of itemrefs, or of manifest items, carries. *)
Definition idrefs (refs : list ET.element) : list (option string) :=
  map (fun r => ET.get r "idref") refs.

Definition item_ids (items : list ET.element) : list (option string) :=
  map (fun i => ET.get i "id") items.

(** An itemref the scan for the insertion point stops at. *)
Definition nav_or_cover (m : manifest_dict) (r : ET.element) : bool :=
  opt_eqb (ET.get r "idref") (Some "nav") || is_cover_ref m (ET.get r "idref").

(** An itemref that survives both removal passes. *)
Definition retained (m : manifest_dict) (r : ET.element) : bool :=
  (Py.mem (ET.get r "idref") [Some "nav"; Some "ncx"]
   || is_cover_ref m (ET.get r "idref"))
  && negb (is_chapter_itemref r).

(** The spine layout as C3 words it: the cover reference if there is
    one, then the navigation reference if there is one, then the
    chapters, and nothing else. *)
Definition claimed_spine_layout (m : manifest_dict) (refs : list ET.element)
           (chapter_files : list ChapterFile.t) : Prop :=
  exists cover nav,
    idrefs refs
    = cover ++ nav ++ map (fun ch => Some (ChapterFile.id ch)) chapter_files
    /\ (cover = [] \/ exists c, cover = [c] /\ is_cover_ref m c = true)
    /\ (nav = [] \/ nav = [Some "nav"%string]).

(** A list is empty or ends with an element on which [f] holds. *)
Definition ends_with {A} (f : A -> bool) (l : list A) : Prop :=
  l = [] \/ exists l0 x, l = l0 ++ [x] /\ f x = true.

(** A mutation that leaves tag and attributes of an element alone. *)
Definition keeps_label (f : ET.element -> ET.element) : Prop :=
  forall y, ET.tag (f y) = ET.tag y /\ ET.attrib (f y) = ET.attrib y.

(** Patterns that never match the same element. *)
Definition disjoint (q p : ET.pattern) : Prop :=
  forall t a, q t a = true -> p t a = false.

(** No element tagged with one of [tags] lies below [e]. *)
Definition nothing_below (tags : list string) (e : ET.element) : Prop :=
  forall t, In t tags ->
            first_some (ET.find_self (ET.tag_is t)) (ET.children e) = None.

(** The manifest and the spine of a package document are not nested in
    one another. *)
Definition separate (r : ET.element) : Prop :=
  (forall pm me, find_manifest_elem r = Some (pm, me) ->
                 nothing_below [opf "spine"; "spine"%string] me)
  /\ (forall ps se, find_spine_elem r = Some (ps, se) ->
                    nothing_below [opf "manifest"; "manifest"%string] se).

(** Every itemref of the spine element names an item of the manifest
    element. *)
Definition document_resolves (r : ET.element) : Prop :=
  forall pm me ps se,
    find_manifest_elem r = Some (pm, me) ->
    find_spine_elem r = Some (ps, se) ->
    forall ref, In ref (ET.children se) ->
                In (ET.get ref "idref") (item_ids (ET.children me)).

(** The same, for the itemrefs named [nav] or [ncx] only. *)
Definition nav_refs_resolve (r : ET.element) : Prop :=
  forall pm me ps se,
    find_manifest_elem r = Some (pm, me) ->
    find_spine_elem r = Some (ps, se) ->
    forall ref, In ref (ET.children se) ->
                Py.mem (ET.get ref "idref") [Some "nav"%string; Some "ncx"%string]
                = true ->
                In (ET.get ref "idref") (item_ids (ET.children me)).

(** No element with one of the tags [tags] is [c] or lies below it. *)
Definition free_of (tags : list string) (c : ET.element) : Prop :=
  forall u, In u tags -> ET.find_self (ET.tag_is u) c = None.

Definition structural_tags : list string :=
  [opf "manifest"; "manifest"%string; opf "spine"; "spine"%string].

(** The href targets of the TOC list of a navigation document, in
    document order. *)
Definition toc_targets (soup : Bs4.soup) : list (option string) :=
  match Bs4.find toc_pattern soup with
  | Some nav_elem =>
      match Bs4.find (Bs4.name_is "ol") (Bs4.contents nav_elem) with
      | Some ol =>
          map (fun a => Bs4.attr "href" (fst a))
              (Bs4.find_all "a" (Bs4.contents ol))
      | None => []
      end
  | None => []
  end.

(** The [src] targets of the navPoints of an NCX document, in order. *)
Definition ncx_targets (r : ET.element) : list (option string) :=
  match find_nav_map r with
  | Some (_, nav_map) =>
      flat_map
        (fun nav_point =>
           map (fun c => ET.get c "src")
               (filter (fun c => String.eqb (ET.tag c) "content")
                       (ET.children nav_point)))
        (ET.children nav_map)
  | None => []
  end.

(** The targets one update emits: none when the update is skipped. *)
Definition nav_emitted (written : option Bs4.soup) : list (option string) :=
  match written with
  | Some soup => toc_targets soup
  | None => []
  end.

Definition ncx_emitted (written : option ET.element) : list (option string) :=
  match written with
  | Some r => ncx_targets r
  | None => []
  end.

(** The cover first when the manifest has one, then the chapter files. *)
Definition expected_targets (m : manifest_dict)
           (chapter_files : list ChapterFile.t) : list (option string) :=
  match cover_item m with
  | Some c => [Some (Item.href c)]
  | None => []
  end ++ map (fun ch => Some (ChapterFile.href ch)) chapter_files.

(** A mutation of tags that leaves name and attributes alone. *)
Definition keeps_name (f : Bs4.node -> Bs4.node) : Prop :=
  forall n a cs, exists cs', f (Bs4.Tag n a cs) = Bs4.Tag n a cs'.

(** What a run of one of the two updates wrote ([None]: skipped, or an
    exception). *)
Definition written {A} (run : result (option A) * filesystem) : option A :=
  match fst run with
  | Ok w => w
  | Raise _ => None
  end.

(** A body whose [h1] are all direct children. *)
Definition flat (body : list Bs4.node) : Prop :=
  Forall (fun x => Bs4.find_all "h1" (Bs4.contents x) = []) body.

(** The nodes of a body from its first top-level [h1] on. *)
Fixpoint from_first_h1 (body : list Bs4.node) : list Bs4.node :=
  match body with
  | [] => []
  | x :: r => if Bs4.is_tag_named "h1" x then x :: r else from_first_h1 r
  end.

(** The markup of a flat document that goes to some chapter: in a
    document with headings, the nodes from the first heading on; in a
    document without heading, the whole body when a chapter is open. *)
Definition kept_of (open : bool) (body : list Bs4.node) : list string :=
  match from_first_h1 body with
  | [] => if open then [decode_contents body] else []
  | l => map str_node l
  end.

Definition opens (open : bool) (body : list Bs4.node) : bool :=
  match from_first_h1 body with
  | [] => open
  | _ => true
  end.

Fixpoint kept_markup (open : bool) (docs : list Bs4.soup) : list string :=
  match docs with
  | [] => []
  | d :: rest =>
      kept_of open (body_of d) ++ kept_markup (opens open (body_of d)) rest
  end.

Definition is_open (st : seg_state) : bool :=
  match current_title st with
  | Some _ => true
  | None => false
  end.

(** All the markup a segmenter state holds. *)
Definition markup (st : seg_state) : string :=
  (Py.join (map Chapter.content (chapters st))
   ++ Py.join (current_content st))%string.

(** A state without open chapter has no pending content. *)
Definition settled (st : seg_state) : Prop :=
  current_title st = None -> current_content st = [].

(** A computation under which the directory [d] stays a directory. *)
Definition keeps_dir (d : string) {A} (m : io A) : Prop :=
  forall fs r fs',
    fs_get d fs = Some Dir -> m fs = (r, fs') -> fs_get d fs' = Some Dir.

(** *** The loader *)

(** An item element carries an [href] attribute. *)
Definition has_href (x : ET.element) : bool :=
  match ET.get x "href" with Some _ => true | None => false end.

(** The manifest entry the loader stores for an item element. *)
Definition entry_of (dir : string) (x : ET.element) : option Item.t :=
  match ET.get x "href" with
  | Some h => Some (Item.mk h (ET.get x "media-type") (Path.join dir h))
  | None => None
  end.

(** The last item element that carries the identifier [i]. *)
Definition last_item (i : option string) (items : list ET.element)
  : option ET.element :=
  List.find (fun x => opt_eqb (ET.get x "id") i) (List.rev items).

(** *** The segmenter *)


(** A content document the segmenter can open. *)
Definition readable (fs : filesystem) (item : Item.t) : Prop :=
  exists data, fs_get (Item.full_path item) fs = Some (File data).

(** *** The chapter files *)

(** The path [create_chapter_files] writes a chapter to. *)
Definition chapter_path (cd : content_data) (ch : Chapter.t) : string :=
  Path.join (opf_dir cd) (Chapter.id ch ++ ".xhtml").

(** The record [create_chapter_files] returns for a chapter. *)
Definition chapter_file_of (cd : content_data) (ch : Chapter.t) : ChapterFile.t :=
  ChapterFile.mk (Chapter.id ch) (Chapter.id ch ++ ".xhtml")
                 (Chapter.title ch) (chapter_path cd ch).

(** The [head] the chapter documents take over from the template. *)
Definition template_head (template : string) : option Bs4.node :=
  Bs4.find (Bs4.name_is "head") (BeautifulSoup template).

(** A spine document the removal loop of [create_chapter_files] goes
    for: XHTML, not the cover, not named [nav] or [cover], not a
    chapter. *)
Definition old_content (cd : content_data) (item : Item.t) : Prop :=
  exists item_id,
    In item_id (spine cd)
    /\ manifest_get item_id (manifest cd) = Some item
    /\ Item.media_type item = Some XHTML
    /\ is_old_content_file item_id item = Ok true.

(** No regular file at [p]. *)
Definition no_file (p : string) (fs : filesystem) : Prop :=
  forall data, fs_get p fs <> Some (File data).

(** *** The package document *)

(** The identifiers of the chapter files, as manifest keys. *)
Definition chapter_ids (chapter_files : list ChapterFile.t) : list (option string) :=
  map (fun ch => Some (ChapterFile.id ch)) chapter_files.

(** The manifest item of a chapter file: identifier, href and media
    type are the chapter's. *)
Definition registers (y : ET.element) (ch : ChapterFile.t) : Prop :=
  ET.get y "id" = Some (ChapterFile.id ch)
  /\ ET.get y "href" = Some (ChapterFile.href ch)
  /\ ET.get y "media-type" = Some XHTML.

(** *** The navigation documents *)

(** The label and target of a TOC entry [<li><a href=h>label</a></li>]. *)
Definition toc_entry_pair (li : Bs4.node) : option (string * string) :=
  match li with
  | Bs4.Tag _ _ [Bs4.Tag _ a [Bs4.NavigableString label]] =>
      option_map (fun h => (label, h)) (dict_get String.eqb "href" a)
  | _ => None
  end.

(** The number of entries both navigation updates emit. *)
Definition entry_count (m : manifest_dict) (chapter_files : list ChapterFile.t)
  : nat :=
  match cover_item m with Some _ => 1 | None => 0 end + length chapter_files.

(** The label and target of a [navPoint]. *)
Definition nav_point_pair (np : ET.element) : option (string * string) :=
  match ET.children np with
  | [ET.Element _ _ _ [ET.Element _ _ (Some label) _]; content] =>
      option_map (fun s => (label, s)) (ET.get content "src")
  | _ => None
  end.

(** The two spellings of the navigation map's tag. *)
Definition nav_map_tags : list string :=
  ["{http://www.daisy.org/z3986/2005/ncx/}navMap"; "navMap"].

(** *** The archive *)

(** A working tree lists every path once. *)
Definition one_entry_per_path (fs : filesystem) : Prop := NoDup (map fst fs).

(** A member of the archive that is not the leading [mimetype]. *)
Definition not_mimetype (member : string * string) : Prop :=
  Path.basename (fst member) <> "mimetype".

(** *** The extraction *)

(** The components of a path, [name.split('/')]. *)
Fixpoint components (name : string) : list string :=
  match name with
  | EmptyString => [""]
  | String c r =>
      if Ascii.eqb c Path.sep then "" :: components r
      else match components r with
           | h :: t => String c h :: t
           | [] => [String c ""]
           end
  end.

(** A member name that [zipfile] extracts under itself: a relative path
    without empty, [.] or [..] component. *)
Definition plain_name (name : string) : bool :=
  forallb (fun c => negb (String.eqb c "" || String.eqb c "." || String.eqb c ".."))
          (components name).

(** An archive [zipfile] extracts member by member under the names the
    members carry: plain names, none of which is a directory of
    another. *)
Definition extractable (members : list (string * string)) : bool :=
  forallb (fun m => plain_name (fst m)) members
  && forallb (fun a => forallb (fun b => negb (Path.below (fst a) (fst b))) members)
             members.

(** The member of an archive that extraction leaves on disk under
    [name]: the last one of that name. *)
Definition last_member (name : string) (members : list (string * string))
  : option string :=
  option_map snd (List.find (fun m => String.eqb (fst m) name) (List.rev members)).

(** The [rootfile] element [find_content_opf] settles on. *)
Definition package_rootfile (container : ET.element) : option ET.element :=
  match ET.find (ET.tag_attr_is
                   "{urn:oasis:names:tc:opendocument:xmlns:container}rootfile"
                   "media-type" "application/oebps-package+xml") container with
  | Some e => Some e
  | None => ET.find (ET.tag_attr_is "rootfile" "media-type"
                                    "application/oebps-package+xml") container
  end.

(** *** Running the update again *)

(** The package as the program holds it after [update_content_opf]: the
    tree has been mutated, the manifest dictionary and the spine list
    are those of the load. *)
Definition with_root (r : ET.element) (cd : content_data) : content_data :=
  mk_content_data r (manifest cd) (spine cd) (opf_dir cd).

(** A chapter file whose identifier has the form [create_chapter_files]
    hands out. *)
Definition chapter_prefixed (ch : ChapterFile.t) : Prop :=
  Py.startswith (ChapterFile.id ch) "ch_" = true.

End Vocabulary.

(* ================================================================= *)
(** ** Properties *)

(** *** Identifiers *)

Lemma str_of_nat_inj (n m : nat) : str_of_nat n = str_of_nat m -> n = m.
Proof.
  unfold str_of_nat. intros E.
  apply DecimalNat.Unsigned.to_uint_inj.
  assert (Some (Nat.to_uint n) = Some (Nat.to_uint m)) as S
      by (rewrite <- !NilEmpty.usu, E; reflexivity).
  now injection S.
Qed.

Lemma ch_id_inj (n m : nat) : ch_id n = ch_id m -> n = m.
Proof.
  unfold ch_id. intros E. apply str_of_nat_inj.
  simpl in E. now repeat injection E as E.
Qed.

Lemma NoDup_ch_ids (k n : nat) : NoDup (map ch_id (seq k n)).
Proof.
  revert k. induction n as [|n IH]; intros k; simpl.
  - constructor.
  - constructor; [|apply IH].
    rewrite in_map_iff. intros (j & E & Hj).
    apply ch_id_inj in E. apply in_seq in Hj. lia.
Qed.

(** *** Strings *)

Lemma append_nil_r (s : string) : (s ++ "")%string = s.
Proof. induction s; simpl; congruence. Qed.

Lemma append_assoc (a b c : string) :
  ((a ++ b) ++ c)%string = (a ++ (b ++ c))%string.
Proof. induction a; simpl; congruence. Qed.

(** *** The [result] and [io] monads *)

Lemma bind_Ok {A B} (m : result A) (k : A -> result B) (b : B) :
  Py.bind m k = Ok b -> exists a, m = Ok a /\ k a = Ok b.
Proof. destruct m as [a|e]; simpl; intros E; [eauto | discriminate]. Qed.

Lemma iobind_Ok {A B} (m : io A) (k : A -> io B) fs b fs2 :
  iobind m k fs = (Ok b, fs2) ->
  exists a fs1, m fs = (Ok a, fs1) /\ k a fs1 = (Ok b, fs2).
Proof.
  unfold iobind. destruct (m fs) as [[a|e] fs1]; intros E;
    [eauto | discriminate].
Qed.

Lemma read_file_state p fs r fs' : read_file p fs = (r, fs') -> fs' = fs.
Proof.
  unfold read_file.
  destruct (fs_get p fs) as [[?|]|]; intros E; now inversion E.
Qed.

Section Segmenter.

Context {lib : Libraries}.

Lemma segment_files_spec items st fs :
  segment_files items st fs =
  (match read_pages items fs with
   | Ok pages => Ok (fold_left process_document pages st)
   | Raise e => Raise e
   end, fs).
Proof.
  revert st. induction items as [|item rest IH]; intros st; simpl.
  - reflexivity.
  - unfold iobind.
    destruct (read_file (Item.full_path item) fs) as [[html|e] fs1] eqn:R;
      pose proof (read_file_state _ _ _ _ R) as ->; simpl.
    + rewrite IH. now destruct (read_pages rest fs).
    + reflexivity.
Qed.

(** [find_chapter_boundaries] reads the filtered spine documents in
    order and returns what the segmenter emits for them. *)
Lemma find_chapter_boundaries_spec cd fs :
  find_chapter_boundaries cd fs =
  (match read_pages (content_files cd) fs with
   | Ok pages => Ok (emitted pages)
   | Raise e => Raise e
   end, fs).
Proof.
  unfold find_chapter_boundaries, iobind. rewrite segment_files_spec.
  now destruct (read_pages (content_files cd) fs).
Qed.

Lemma numbered_flush st : numbered (chapters st) -> numbered (flush st).
Proof.
  unfold numbered, flush. intros N.
  destruct (current_title st); [|exact N].
  rewrite length_app, map_app. simpl length.
  rewrite Nat.add_1_r, seq_S, map_app, N. reflexivity.
Qed.

Lemma numbered_start_chapter st h :
  numbered (chapters st) -> numbered (chapters (start_chapter st h)).
Proof. apply numbered_flush. Qed.

Lemma numbered_process_document st soup :
  numbered (chapters st) -> numbered (chapters (process_document st soup)).
Proof.
  unfold process_document.
  generalize (Bs4.find_all "h1" (body_of soup)) as hs.
  intros [|h hs] N.
  - now destruct (current_title st).
  - generalize (h :: hs) as l. clear h hs. intros l. revert st N.
    induction l as [|h l IH]; intros st N; simpl; [exact N|].
    apply IH, numbered_start_chapter, N.
Qed.

Lemma numbered_emitted docs : numbered (emitted docs).
Proof.
  unfold emitted, segment. apply numbered_flush.
  assert (numbered (chapters seg_init)) as N by reflexivity.
  revert N. generalize seg_init as st. induction docs as [|d docs IH];
    intros st N; simpl; [exact N|].
  apply IH, numbered_process_document, N.
Qed.

End Segmenter.

Section SegmenterClaims.

Context {lib : Libraries}.

(** C5. Every chapter the segmenter returns carries the identifier
    [ch_<n>] of its zero-based position in the returned list, so the
    identifiers are [ch_0 .. ch_(N-1)] and pairwise distinct. *)
Theorem chapter_ids_follow_emission_order cd fs chs fs' :
  find_chapter_boundaries cd fs = (Ok chs, fs') ->
  map Chapter.id chs = map ch_id (seq 0 (length chs))
  /\ (forall n ch, nth_error chs n = Some ch -> Chapter.id ch = ch_id n)
  /\ NoDup (map Chapter.id chs).
Proof.
  rewrite find_chapter_boundaries_spec.
  destruct (read_pages (content_files cd) fs) as [pages|e]; [|discriminate].
  intros E. injection E as <- _.
  pose proof (numbered_emitted pages) as N. unfold numbered in N.
  split; [exact N|]. split.
  - intros n ch Hn.
    assert (nth_error (map Chapter.id (emitted pages)) n = Some (Chapter.id ch)) as H
        by (rewrite nth_error_map, Hn; reflexivity).
    rewrite N, nth_error_map in H.
    assert (n < length (emitted pages)) as L
        by (apply nth_error_Some; rewrite Hn; discriminate).
    rewrite nth_error_seq in H.
    destruct (Nat.ltb_spec n (length (emitted pages))); [|lia].
    simpl in H. now injection H.
  - rewrite N. apply NoDup_ch_ids.
Qed.


Lemma flush_closed st : current_title st = None -> flush st = chapters st.
Proof. unfold flush. now intros ->. Qed.

Lemma segment_app docs1 docs2 :
  segment (docs1 ++ docs2) = fold_left process_document docs2 (segment docs1).
Proof. unfold segment. apply fold_left_app. Qed.

Lemma join_cons (x : string) (l : list string) :
  Py.join (x :: l) = (x ++ Py.join l)%string.
Proof.
  unfold Py.join. destruct l as [|y l]; simpl.
  - now rewrite append_nil_r.
  - reflexivity.
Qed.

Lemma join_app (l1 l2 : list string) :
  Py.join (l1 ++ l2) = (Py.join l1 ++ Py.join l2)%string.
Proof.
  induction l1 as [|x l1 IH].
  - reflexivity.
  - change ((x :: l1) ++ l2) with (x :: (l1 ++ l2)).
    now rewrite !join_cons, IH, append_assoc.
Qed.

Lemma join_single (x : string) : Py.join [x] = x.
Proof. reflexivity. Qed.

(** C6. A document in which the segmenter finds no [h1]: when a chapter
    is open, the document's whole body markup is appended to it (and so
    ends up in the emitted chapter); when none is open, the run is the
    one of the same spine without the document. *)
Theorem document_without_heading before d :
  Bs4.find_all "h1" (body_of d) = [] ->
  (forall t,
      current_title (segment before) = Some t ->
      segment (before ++ [d]) =
        mk_seg_state (chapters (segment before)) (Some t)
                     (current_content (segment before)
                        ++ [decode_contents (body_of d)])
      /\ emitted (before ++ [d]) =
           chapters (segment before) ++
           [Chapter.mk t
              (Py.join (current_content (segment before))
                 ++ decode_contents (body_of d))%string
              (ch_id (length (chapters (segment before))))])
  /\ (current_title (segment before) = None ->
      forall after, emitted (before ++ d :: after) = emitted (before ++ after)).
Proof.
  intros H. split.
  - intros t Ht.
    assert (segment (before ++ [d]) =
            mk_seg_state (chapters (segment before)) (Some t)
                         (current_content (segment before)
                            ++ [decode_contents (body_of d)])) as E.
    { rewrite segment_app. simpl. unfold process_document.
      rewrite H, Ht. reflexivity. }
    split; [exact E|].
    unfold emitted. rewrite E. unfold flush. simpl.
    now rewrite join_app, join_single.
  - intros Ht after. unfold emitted. rewrite !segment_app. simpl.
    unfold process_document at 2. now rewrite H, Ht.
Qed.

(** The number of chapters is the number of headings enumerated. *)
Lemma flush_start_chapter st h :
  flush (start_chapter st h) =
  flush st ++
  [Chapter.mk (get_text_strip (fst h))
     (Py.join (str_node (fst h) :: map str_node (siblings_until_h1 (snd h))))
     (ch_id (length (flush st)))].
Proof. reflexivity. Qed.

Lemma length_flush_headings hs st :
  length (flush (fold_left start_chapter hs st)) = length (flush st) + length hs.
Proof.
  revert st. induction hs as [|h hs IH]; intros st; simpl; [lia|].
  rewrite IH, flush_start_chapter, length_app. simpl. lia.
Qed.

Lemma length_flush_process_document st d :
  length (flush (process_document st d)) =
  length (flush st) + length (Bs4.find_all "h1" (body_of d)).
Proof.
  unfold process_document.
  destruct (Bs4.find_all "h1" (body_of d)) as [|h hs] eqn:E.
  - simpl. rewrite Nat.add_0_r.
    destruct (current_title st) eqn:T; [|reflexivity].
    unfold flush. simpl. rewrite T, !length_app. reflexivity.
  - apply length_flush_headings.
Qed.

Lemma emitted_count docs : length (emitted docs) = length (headings docs).
Proof.
  unfold emitted, segment, headings.
  assert (forall st,
             length (flush (fold_left process_document docs st)) =
             length (flush st)
             + length (flat_map (fun d => Bs4.find_all "h1" (body_of d)) docs))
    as G.
  { induction docs as [|d docs IH]; intros st; simpl; [lia|].
    rewrite IH, length_flush_process_document, length_app. lia. }
  rewrite G. reflexivity.
Qed.

End SegmenterClaims.

Lemma chapter_ids_follow_emission_order_witness :
  find_chapter_boundaries (lib := Sample.nested_lib)
                          Sample.one_page_cd Sample.nested_fs
  = (Ok Sample.nested_chapters, Sample.nested_fs)
  /\ map Chapter.id Sample.nested_chapters = ["ch_0"; "ch_1"]
  /\ NoDup (map Chapter.id Sample.nested_chapters).
Proof.
  assert (find_chapter_boundaries (lib := Sample.nested_lib)
                                  Sample.one_page_cd Sample.nested_fs
          = (Ok Sample.nested_chapters, Sample.nested_fs)) as E
      by (vm_compute; reflexivity).
  split; [exact E|].
  destruct (chapter_ids_follow_emission_order (lib := Sample.nested_lib)
              _ _ _ _ E) as (Hids & _ & Hnodup).
  split; [exact Hids | exact Hnodup].
Defined.

Lemma document_without_heading_witness :
  Bs4.find_all "h1" (body_of Sample.plain_page) = []
  /\ emitted (lib := Sample.nested_lib) ([Sample.nested_page] ++ [Sample.plain_page])
     = [Chapter.mk "One"
          "<h1>One</h1><p>a</p><section><h1>Two</h1><p>b</p></section>" "ch_0";
        Chapter.mk "Two" "<h1>Two</h1><p>b</p><p>more</p>" "ch_1"]
  /\ emitted (lib := Sample.nested_lib) ([] ++ Sample.plain_page :: [Sample.nested_page])
     = emitted (lib := Sample.nested_lib) ([] ++ [Sample.nested_page]).
Proof.
  assert (Bs4.find_all "h1" (body_of Sample.plain_page) = []) as H
      by reflexivity.
  split; [exact H|]. split.
  - destruct (document_without_heading (lib := Sample.nested_lib)
                [Sample.nested_page] Sample.plain_page H) as [Hopen _].
    destruct (Hopen "Two" eq_refl) as [_ E]. rewrite E. reflexivity.
  - destruct (document_without_heading (lib := Sample.nested_lib)
                [] Sample.plain_page H) as [_ Hclosed].
    exact (Hclosed eq_refl [Sample.nested_page]).
Defined.

(** C1. On a page whose headings sit at different depths, with body
    [<div><h1>A</h1><p>a</p></div><p>between</p><h1>B</h1>
     <div><h1>C</h1><p>c</p></div>],
    the segmenter returns three chapters, but the paragraph of heading C
    is in the content of chapters B and C, and the paragraph between the
    siblings of A and the heading B is in no chapter. *)
Theorem scattered_headings_duplicate_and_lose_markup :
  fst (find_chapter_boundaries (lib := Sample.scattered_lib)
                               Sample.one_page_cd Sample.scattered_fs)
  = Ok Sample.scattered_chapters
  /\ map (fun ch => Py.contains (Chapter.content ch) "<p>c</p>")
         Sample.scattered_chapters = [false; true; true]
  /\ map (fun ch => Py.contains (Chapter.content ch) "<p>between</p>")
         Sample.scattered_chapters = [false; false; false].
Proof. vm_compute. repeat split. Qed.

(** C2. On the page with body
    [<h1>One</h1><p>a</p><section><h1>Two</h1><p>b</p></section>]
    the chapter of the first heading contains the second heading and the
    paragraph that follows it. *)
Theorem first_chapter_contains_nested_second_heading :
  fst (find_chapter_boundaries (lib := Sample.nested_lib)
                               Sample.one_page_cd Sample.nested_fs)
  = Ok Sample.nested_chapters
  /\ (forall ch, nth_error Sample.nested_chapters 0 = Some ch ->
        Py.contains (Chapter.content ch) "<h1>Two</h1><p>b</p>" = true).
Proof.
  split; [vm_compute; reflexivity|].
  intros ch E. injection E as <-. vm_compute. reflexivity.
Qed.

(** *** The working tree *)

Lemma fs_get_set p q e fs :
  fs_get p (fs_set q e fs) = if String.eqb p q then Some e else fs_get p fs.
Proof.
  unfold fs_get, fs_set. induction fs as [|[k v] fs IH]; simpl.
  - reflexivity.
  - destruct (String.eqb_spec q k) as [->|Hqk]; simpl.
    + now destruct (String.eqb p k).
    + rewrite IH. destruct (String.eqb_spec p k) as [->|Hpk].
      * destruct (String.eqb_spec k q); congruence.
      * reflexivity.
Qed.

Lemma fs_get_filter (keep : string -> bool) p (fs : filesystem) :
  fs_get p (filter (fun pe => keep (fst pe)) fs) =
  if keep p then fs_get p fs else None.
Proof.
  unfold fs_get. induction fs as [|[k v] fs IH]; simpl.
  - now destruct (keep p).
  - destruct (keep k) eqn:K; simpl.
    + destruct (String.eqb_spec p k) as [->|Hpk].
      * now rewrite K.
      * exact IH.
    + rewrite IH. destruct (String.eqb_spec p k) as [->|Hpk].
      * now rewrite K.
      * reflexivity.
Qed.

Lemma fs_get_del p q fs :
  fs_get p (fs_del q fs) = if String.eqb p q then None else fs_get p fs.
Proof.
  unfold fs_del, dict_del.
  rewrite (fs_get_filter (fun k => negb (String.eqb q k))).
  rewrite (String.eqb_sym q p). now destruct (String.eqb p q).
Qed.

Lemma write_file_Ok p data fs fs' :
  write_file p data fs = (Ok tt, fs') ->
  fs_get p fs' = Some (File data)
  /\ forall q, q <> p -> fs_get q fs' = fs_get q fs.
Proof.
  unfold write_file. intros E.
  assert (fs' = fs_set p (File data) fs) as ->
      by (destruct (fs_get p fs) as [[?|]|]; now inversion E).
  split.
  - now rewrite fs_get_set, String.eqb_refl.
  - intros q Hq. rewrite fs_get_set.
    now destruct (String.eqb_spec q p).
Qed.

(** *** Paths *)

Lemma split_last_no_sep b : no_sep b = true -> Path.split_last b = (""%string, b).
Proof.
  induction b as [|c b IH]; simpl; [reflexivity|].
  intros H. apply andb_prop in H as [Hc Hb].
  rewrite (IH Hb). apply negb_true_iff in Hc. now rewrite Hc.
Qed.

Lemma split_last_app x b :
  no_sep b = true ->
  x = ""%string \/ Py.endswith_char x Path.sep = true ->
  Path.split_last (x ++ b) = (x, b).
Proof.
  intros Hb. induction x as [|c x IH]; intros Hx.
  - now apply split_last_no_sep.
  - destruct Hx as [Hx|Hx]; [discriminate|].
    change (String c x ++ b)%string with (String c (x ++ b)).
    cbn [Path.split_last].
    destruct x as [|c' x].
    + simpl in Hx. cbn [append]. rewrite (split_last_no_sep b Hb).
      now rewrite Hx.
    + rewrite IH by (right; exact Hx). reflexivity.
Qed.

Lemma basename_join d name :
  no_sep name = true -> name <> ""%string ->
  Path.basename (Path.join d name) = name.
Proof.
  intros Hn Hne. unfold Path.basename, Path.join, Py.startswith.
  assert (String.prefix "/" name = false) as ->.
  { destruct name as [|c r]; [congruence|].
    cbn [String.prefix].
    destruct (ascii_dec "/" c) as [<-|_]; [|reflexivity].
    simpl in Hn. discriminate. }
  destruct (String.eqb_spec d "") as [->|Hd]; cbn [orb].
  - simpl. now rewrite split_last_no_sep.
  - destruct (Py.endswith_char d Path.sep) eqn:E.
    + rewrite split_last_app; auto.
    + rewrite <- append_assoc. rewrite split_last_app; auto.
      right. clear. induction d as [|c d IH]; [reflexivity|].
      simpl. destruct d; [reflexivity|exact IH].
Qed.

(** *** The materializer and the root document *)

Section Materializer.

Context {lib : Libraries}.

(** When every itemref names an identifier the manifest lacks, the
    parsed spine is empty although the spine element is not. *)
Lemma parse_spine_all_dangling m refs :
  (forall r, In r refs -> dict_mem opt_eqb (ET.get r "idref") m = false) ->
  parse_spine m refs = [].
Proof.
  unfold parse_spine. induction refs as [|r refs IH]; intros H; simpl.
  - reflexivity.
  - rewrite (H r (or_introl eq_refl)). apply IH.
    intros r' Hr'. apply H. now right.
Qed.

(** C9. [create_chapter_files] indexes [content_data['spine'][0]] before
    anything else: on an empty parsed spine it raises [IndexError]
    whatever the chapter list, the empty one included, and leaves the
    working tree untouched. *)
Theorem create_chapter_files_needs_spine chs cd fs :
  spine cd = [] ->
  create_chapter_files chs cd fs = (Raise IndexError, fs).
Proof. unfold create_chapter_files. now intros ->. Qed.

Lemma update_content_opf_Ok cd chapter_files fs r' fs' :
  update_content_opf cd chapter_files fs = (Ok r', fs') ->
  updated_root cd chapter_files = Ok r'
  /\ write_file (Path.join (opf_dir cd) "content.opf") (ET_write r') fs
     = (Ok tt, fs').
Proof.
  unfold update_content_opf, iobind, lift, ret.
  destruct (updated_root cd chapter_files) as [r2|e]; [|discriminate].
  destruct (write_file _ _ fs) as [[[]|e] fs1] eqn:W; [|discriminate].
  intros E. injection E as <- <-. auto.
Qed.

Lemma parse_root_opf_dir dir r cd : parse_root dir r = Ok cd -> opf_dir cd = dir.
Proof.
  unfold parse_root.
  destruct (find_manifest_elem r) as [[? me]|]; [|discriminate].
  destruct (foldM _ _ _) as [m|e]; simpl; [|discriminate].
  destruct (find_spine_elem r) as [[? se]|]; [|discriminate].
  intros E. now injection E as <-.
Qed.

Lemma parse_content_opf_opf_dir p fs cd fs' :
  parse_content_opf p fs = (Ok cd, fs') -> opf_dir cd = Path.dirname p.
Proof.
  unfold parse_content_opf. intros E.
  apply iobind_Ok in E as (r & fs1 & _ & E).
  unfold lift in E. injection E as E _.
  now apply parse_root_opf_dir in E.
Qed.

(** C10. The updated root document always goes to [content.opf] in the
    directory of the root document.  When the container names a root
    document with another file name, that file keeps its content, and
    [content.opf] beside it holds the updated document; nothing else in
    the tree changes. *)
Theorem content_opf_written_beside_root
        extract_dir fs0 fs1 fs2 p cd chapter_files fs r' fs' :
  find_content_opf extract_dir fs0 = (Ok p, fs1) ->
  parse_content_opf p fs1 = (Ok cd, fs2) ->
  Path.basename p <> "content.opf"%string ->
  update_content_opf cd chapter_files fs = (Ok r', fs') ->
  let target := Path.join (Path.dirname p) "content.opf" in
  target <> p
  /\ fs_get target fs' = Some (File (ET_write r'))
  /\ fs_get p fs' = fs_get p fs
  /\ forall q, q <> target -> fs_get q fs' = fs_get q fs.
Proof.
  intros _ Hparse Hname Hupd target.
  apply parse_content_opf_opf_dir in Hparse.
  apply update_content_opf_Ok in Hupd as [_ W].
  rewrite Hparse in W. fold target in W.
  apply write_file_Ok in W as [Wt Wo].
  assert (target <> p) as Hneq.
  { intros E. apply Hname. rewrite <- E. unfold target.
    now apply basename_join. }
  repeat split; auto.
Qed.

End Materializer.

Lemma create_chapter_files_needs_spine_witness :
  parse_root "OEBPS" Sample.dangling_package = Ok Sample.dangling_cd
  /\ spine Sample.dangling_cd = []
  /\ create_chapter_files (lib := Sample.nested_lib) [] Sample.dangling_cd
                          Sample.nested_fs
     = (Raise IndexError, Sample.nested_fs).
Proof.
  split; [reflexivity|]. split; [reflexivity|].
  apply (create_chapter_files_needs_spine (lib := Sample.nested_lib)).
  reflexivity.
Defined.

Lemma content_opf_written_beside_root_witness :
  find_content_opf (lib := Sample.book_lib) Sample.book_dir Sample.extracted_fs
  = (Ok Sample.book_opf_path, Sample.extracted_fs)
  /\ parse_content_opf (lib := Sample.book_lib) Sample.book_opf_path
                       Sample.extracted_fs
     = (Ok Sample.book_cd, Sample.extracted_fs)
  /\ Path.basename Sample.book_opf_path <> "content.opf"%string
  /\ update_content_opf (lib := Sample.book_lib) Sample.book_cd
                        Sample.book_chapter_files Sample.extracted_fs
     = (Ok Sample.book_new_root, Sample.book_updated_fs)
  /\ fs_get "temp_epub_0a1b2c3d/OEBPS/content.opf" Sample.book_updated_fs
     = Some (File (Sample.xml_text Sample.book_new_root))
  /\ fs_get Sample.book_opf_path Sample.book_updated_fs
     = fs_get Sample.book_opf_path Sample.extracted_fs.
Proof.
  assert (find_content_opf (lib := Sample.book_lib) Sample.book_dir
                           Sample.extracted_fs
          = (Ok Sample.book_opf_path, Sample.extracted_fs)) as Hfind
      by (vm_compute; reflexivity).
  assert (parse_content_opf (lib := Sample.book_lib) Sample.book_opf_path
                            Sample.extracted_fs
          = (Ok Sample.book_cd, Sample.extracted_fs)) as Hparse
      by (vm_compute; reflexivity).
  assert (Path.basename Sample.book_opf_path <> "content.opf"%string) as Hname
      by (vm_compute; discriminate).
  assert (update_content_opf (lib := Sample.book_lib) Sample.book_cd
                             Sample.book_chapter_files Sample.extracted_fs
          = (Ok Sample.book_new_root, Sample.book_updated_fs)) as Hupd
      by (vm_compute; reflexivity).
  destruct (content_opf_written_beside_root
              (lib := Sample.book_lib) _ _ _ _ _ _ _ _ _ _
              Hfind Hparse Hname Hupd) as (_ & Ht & Hp & _).
  repeat split; assumption.
Defined.

(** *** The spine after [update_content_opf] *)

Lemma remove_flagged_Ok flag cs cs' :
  remove_flagged flag cs = Ok cs' ->
  Forall (fun x => exists b, flag x = Ok b) cs
  /\ cs' = filter (fun x => match flag x with Ok b => negb b | Raise _ => false end) cs.
Proof.
  unfold remove_flagged. revert cs'.
  induction cs as [|x cs IH]; intros cs' E; simpl in *.
  - injection E as <-. auto.
  - destruct (flag x) as [b|e] eqn:Fx; simpl in E; [|discriminate].
    destruct (filterM _ cs) as [r|e]; simpl in E; [|discriminate].
    destruct (IH r eq_refl) as [F ->]. injection E as <-.
    split; [constructor; eauto|]. now destruct b.
Qed.

Lemma startswith_ch_nonempty s :
  Py.startswith s "ch_" = true -> String.eqb s "" = false.
Proof. destruct s; [discriminate|reflexivity]. Qed.

Lemma is_old_itemref_Ok m r b :
  is_old_itemref m r = Ok b ->
  negb b && negb (is_chapter_itemref r) = retained m r.
Proof.
  unfold is_old_itemref, retained, is_chapter_itemref.
  destruct (Py.mem (ET.get r "idref") [Some "nav"%string; Some "ncx"%string]
            || is_cover_ref m (ET.get r "idref")) eqn:K.
  - apply orb_true_iff in K.
    assert (negb (Py.mem (ET.get r "idref") [Some "nav"%string; Some "ncx"%string])
            && negb (is_cover_ref m (ET.get r "idref")) = false) as ->
        by (destruct K as [-> | ->]; [reflexivity | apply andb_false_r]).
    intros E. injection E as <-. reflexivity.
  - apply orb_false_iff in K as [-> ->]. simpl.
    destruct (ET.get r "idref") as [s|]; [|discriminate].
    intros E. injection E as <-. rewrite negb_involutive.
    destruct (Py.startswith s "ch_") eqn:S; [|reflexivity].
    now rewrite (startswith_ch_nonempty s S).
Qed.

Lemma filter_filter_and {A} (f g : A -> bool) l :
  filter g (filter f l) = filter (fun x => f x && g x) l.
Proof.
  induction l as [|x l IH]; simpl; [reflexivity|].
  destruct (f x); simpl; [destruct (g x)|]; now rewrite IH.
Qed.

Lemma filter_ext_Forall {A} (f g : A -> bool) l :
  Forall (fun x => f x = g x) l -> filter f l = filter g l.
Proof.
  induction 1 as [|x l E _ IH]; simpl; [reflexivity|].
  now rewrite E, IH.
Qed.

(** The two removal passes keep exactly the [retained] itemrefs. *)
Lemma spine_passes m refs kept :
  remove_flagged (is_old_itemref m) refs = Ok kept ->
  filter (fun r => negb (is_chapter_itemref r)) kept = filter (retained m) refs.
Proof.
  intros E. apply remove_flagged_Ok in E as [F ->].
  rewrite filter_filter_and. apply filter_ext_Forall.
  eapply Forall_impl; [|exact F]. intros r [b Hb]. cbv beta.
  rewrite Hb. now apply is_old_itemref_Ok.
Qed.

Lemma combine_seq_snoc {A} (l : list A) (x : A) k :
  combine (seq k (length l) ++ [k + length l]) (l ++ [x])
  = combine (seq k (length l)) l ++ [(k + length l, x)].
Proof.
  revert k. induction l as [|y l IH]; intros k; simpl.
  - now rewrite Nat.add_0_r.
  - rewrite <- Nat.add_succ_comm. now rewrite IH.
Qed.

Lemma enumerate_snoc {A} (l : list A) (x : A) :
  enumerate (l ++ [x]) = enumerate l ++ [(length l, x)].
Proof.
  unfold enumerate. rewrite length_app. simpl length.
  rewrite Nat.add_1_r, seq_S. exact (combine_seq_snoc l x 0).
Qed.

Lemma insert_position_snoc m l x :
  insert_position m (l ++ [x]) =
  if nav_or_cover m x then length l + 1 else insert_position m l.
Proof.
  unfold insert_position. rewrite enumerate_snoc, fold_left_app. simpl.
  unfold scan_position, nav_or_cover. simpl.
  destruct (opt_eqb (ET.get x "idref") (Some "nav"%string)); [reflexivity|].
  simpl. now destruct (is_cover_ref m (ET.get x "idref")).
Qed.

(** The insertion point splits the spine right after its last
    navigation or cover reference. *)
Lemma insert_position_split m l :
  exists pre post,
    l = pre ++ post
    /\ length pre = insert_position m l
    /\ ends_with (nav_or_cover m) pre
    /\ Forall (fun r => nav_or_cover m r = false) post.
Proof.
  induction l as [|x l IH] using rev_ind.
  - exists [], []. repeat split; [left; reflexivity | constructor].
  - rewrite insert_position_snoc.
    destruct (nav_or_cover m x) eqn:K.
    + exists (l ++ [x]), []. rewrite app_nil_r, length_app. simpl.
      repeat split; [right; eauto | constructor].
    + destruct IH as (pre & post & -> & L & E & F).
      exists pre, (post ++ [x]). rewrite app_assoc.
      repeat split; auto.
      apply Forall_app. split; [exact F|]. now constructor.
Qed.

Lemma list_insert_middle {A} (pre post : list A) x :
  Py.list_insert (length pre) x (pre ++ post) = pre ++ x :: post.
Proof.
  unfold Py.list_insert.
  rewrite firstn_app, firstn_all, Nat.sub_diag, skipn_app, skipn_all,
    Nat.sub_diag. simpl. now rewrite app_nil_r.
Qed.

Lemma insert_chapter_refs_split pre post chapter_files :
  insert_chapter_refs (length pre) (pre ++ post) chapter_files
  = pre ++ map chapter_itemref chapter_files ++ post.
Proof.
  unfold insert_chapter_refs, enumerate.
  assert (forall k done,
             length done = k ->
             fold_left
               (fun sp ic =>
                  Py.list_insert (length pre + fst ic) (chapter_itemref (snd ic)) sp)
               (combine (seq k (length chapter_files)) chapter_files)
               (pre ++ done ++ post)
             = pre ++ done ++ map chapter_itemref chapter_files ++ post) as G.
  { induction chapter_files as [|ch chs IH]; intros k done L; simpl.
    - reflexivity.
    - rewrite <- L, <- length_app, app_assoc, list_insert_middle.
      rewrite <- app_assoc.
      change (chapter_itemref ch :: post) with ([chapter_itemref ch] ++ post).
      rewrite (app_assoc done), L.
      rewrite (IH (S k) (done ++ [chapter_itemref ch]))
        by (rewrite length_app; simpl; lia).
      now rewrite <- !app_assoc. }
  exact (G 0 [] eq_refl).
Qed.

(** The spine children [update_content_opf] leaves: the retained
    itemrefs in their order, with the chapter itemrefs inserted in
    emission order right after the last navigation or cover reference. *)
Lemma update_spine_children_spec m refs chapter_files refs' :
  update_spine_children m refs chapter_files = Ok refs' ->
  exists pre post,
    refs' = pre ++ map chapter_itemref chapter_files ++ post
    /\ pre ++ post = filter (retained m) refs
    /\ ends_with (nav_or_cover m) pre
    /\ Forall (fun r => nav_or_cover m r = false) post.
Proof.
  unfold update_spine_children. intros E.
  apply bind_Ok in E as (kept & K & E). injection E as <-.
  rewrite (spine_passes _ _ _ K).
  destruct (insert_position_split m (filter (retained m) refs))
    as (pre & post & S & L & Hpre & Hpost).
  exists pre, post. rewrite <- L, S.
  rewrite insert_chapter_refs_split. auto.
Qed.

(** *** Trees: what [find] returns after a mutation *)

Lemma element_induction (P : ET.element -> Prop) :
  (forall t a x cs, Forall P cs -> P (ET.Element t a x cs)) ->
  forall e, P e.
Proof.
  intros H. fix IH 1. intros [t a x cs]. apply H.
  induction cs as [|c cs IHcs]; constructor; [apply IH | exact IHcs].
Qed.

Lemma first_some_None {A B} (f : A -> option B) l :
  first_some f l = None <-> Forall (fun x => f x = None) l.
Proof.
  induction l as [|x l IH]; simpl.
  - split; constructor.
  - destruct (f x) eqn:E.
    + split; [discriminate|]. intros F. inversion F; congruence.
    + rewrite IH. split; [now constructor | now inversion 1].
Qed.

Lemma update_first_None {A} (g : A -> option A) l :
  Forall (fun x => g x = None) l -> update_first g l = None.
Proof.
  induction 1 as [|x l E _ IH]; simpl; [reflexivity|]. now rewrite E, IH.
Qed.

Section ElementTrees.

Variables (p q : ET.pattern) (f : ET.element -> ET.element).

Lemma find_self_None t a x cs :
  ET.find_self p (ET.Element t a x cs) = None <->
  p t a = false /\ Forall (fun c => ET.find_self p c = None) cs.
Proof.
  simpl. destruct (p t a).
  - split; [discriminate | intros [? _]; discriminate].
  - rewrite first_some_None. tauto.
Qed.

Lemma update_self_None e :
  ET.find_self p e = None -> ET.update_self p f e = None.
Proof.
  induction e as [t a x cs IH] using element_induction.
  intros E. apply find_self_None in E as [Pt F]. simpl. rewrite Pt.
  rewrite update_first_None; [reflexivity|].
  induction IH as [|c cs Hc _ IHcs]; [constructor|].
  inversion F; subst. constructor; auto.
Qed.

(** The element [find] returns, after the mutation, is the mutated one. *)
Lemma find_after_update_list cs :
  Forall (fun c => forall m, ET.find_self p c = Some m ->
                   exists c', ET.update_self p f c = Some c'
                              /\ ET.find_self p c' = Some (f m)) cs ->
  forall m, first_some (ET.find_self p) cs = Some m ->
  exists cs', update_first (ET.update_self p f) cs = Some cs'
              /\ first_some (ET.find_self p) cs' = Some (f m).
Proof.
  induction 1 as [|c cs Hc _ IHcs]; intros m E; simpl in *; [discriminate|].
  destruct (ET.find_self p c) as [m'|] eqn:Fc.
  - injection E as ->. destruct (Hc m eq_refl) as (c' & U & F').
    rewrite U. exists (c' :: cs). split; [reflexivity|]. simpl. now rewrite F'.
  - rewrite (update_self_None _ Fc). destruct (IHcs m E) as (cs' & U & F').
    rewrite U. exists (c :: cs'). split; [reflexivity|]. simpl. now rewrite Fc.
Qed.

Lemma find_after_update_self e m :
  keeps_label f ->
  ET.find_self p e = Some m ->
  exists e', ET.update_self p f e = Some e' /\ ET.find_self p e' = Some (f m).
Proof.
  intros Hf. revert m.
  induction e as [t a x cs IH] using element_induction.
  intros m E. simpl in E |- *. destruct (p t a) eqn:Pt.
  - injection E as <-. eexists. split; [reflexivity|].
    destruct (Hf (ET.Element t a x cs)) as [Ht Ha].
    destruct (f (ET.Element t a x cs)) as [t' a' x' cs']. simpl in Ht, Ha.
    subst. simpl. now rewrite Pt.
  - destruct (find_after_update_list cs IH m E) as (cs' & U & F').
    rewrite U. eexists. split; [reflexivity|]. simpl. now rewrite Pt.
Qed.

Lemma find_after_update r m :
  keeps_label f ->
  ET.find p r = Some m ->
  exists r', ET.update p f r = Some r' /\ ET.find p r' = Some (f m).
Proof.
  unfold ET.find, ET.update. intros Hf E.
  destruct (find_after_update_list (ET.children r)) with (m := m)
    as (cs' & U & F'); auto.
  - apply Forall_forall. intros c _ m'. now apply find_after_update_self.
  - rewrite U. eexists. split; [reflexivity|]. now destruct r.
Qed.

Lemma update_None r : ET.find p r = None -> ET.update p f r = None.
Proof.
  unfold ET.find, ET.update. intros E. apply first_some_None in E.
  rewrite update_first_None; [reflexivity|].
  eapply Forall_impl; [|exact E]. intros c. apply update_self_None.
Qed.

(** Below an element without [p]-match there is none either. *)
Lemma find_self_None_below e m :
  ET.find_self p e = None -> ET.find_self q e = Some m ->
  ET.find_self p m = None.
Proof.
  revert m. induction e as [t a x cs IH] using element_induction.
  intros m Ep Eq. simpl in Eq. destruct (q t a).
  - now injection Eq as <-.
  - apply find_self_None in Ep as [_ F].
    induction IH as [|c cs Hc _ IHcs]; simpl in Eq; [discriminate|].
    inversion F; subst.
    destruct (ET.find_self q c) as [m'|] eqn:Qc.
    + injection Eq as ->. now apply Hc.
    + now apply IHcs.
Qed.

Lemma find_None_below r m :
  ET.find p r = None -> ET.find q r = Some m -> ET.find_self p m = None.
Proof.
  unfold ET.find. intros Ep Eq. apply first_some_None in Ep.
  induction Ep as [|c cs Hc _ IH]; simpl in Eq; [discriminate|].
  destruct (ET.find_self q c) as [m'|] eqn:Qc.
  - injection Eq as ->. now apply (find_self_None_below c).
  - now apply IH.
Qed.

End ElementTrees.

Section OtherPattern.

Variables (p q : ET.pattern) (f : ET.element -> ET.element).
Hypothesis q_not_p : disjoint q p.
Hypothesis f_keeps : keeps_label f.

(** Mutating the first [q]-match [m] does not change what [find p]
    returns, provided no [p]-match lies below [m] before or after the
    mutation and [m] does not lie below the first [p]-match. *)
Lemma find_other_after_update_list cs :
  Forall (fun c =>
            forall m c',
              ET.find_self q c = Some m ->
              first_some (ET.find_self p) (ET.children m) = None ->
              first_some (ET.find_self p) (ET.children (f m)) = None ->
              (forall s, ET.find_self p c = Some s -> ET.find_self q s = None) ->
              ET.update_self q f c = Some c' ->
              ET.find_self p c' = ET.find_self p c) cs ->
  forall m cs',
    first_some (ET.find_self q) cs = Some m ->
    first_some (ET.find_self p) (ET.children m) = None ->
    first_some (ET.find_self p) (ET.children (f m)) = None ->
    (forall s, first_some (ET.find_self p) cs = Some s -> ET.find_self q s = None) ->
    update_first (ET.update_self q f) cs = Some cs' ->
    first_some (ET.find_self p) cs' = first_some (ET.find_self p) cs.
Proof.
  induction 1 as [|c cs Hc _ IHcs]; intros m cs' Eq Ha Hb H3 U; simpl in *;
    [discriminate|].
  destruct (ET.find_self q c) as [m'|] eqn:Qc.
  - injection Eq as ->.
    destruct (find_after_update_self q f c m f_keeps Qc) as (c' & Uc & _).
    rewrite Uc in U. injection U as <-. simpl.
    rewrite (Hc m c' eq_refl Ha Hb); auto.
    intros s Es. apply H3. now rewrite Es.
  - rewrite (update_self_None q f c Qc) in U.
    destruct (update_first (ET.update_self q f) cs) as [r'|] eqn:Ur;
      [|discriminate].
    simpl in U. injection U as <-. simpl.
    destruct (ET.find_self p c) eqn:Pc; [reflexivity|].
    now apply (IHcs m r').
Qed.

Lemma find_other_after_update_self e :
  forall m e',
    ET.find_self q e = Some m ->
    first_some (ET.find_self p) (ET.children m) = None ->
    first_some (ET.find_self p) (ET.children (f m)) = None ->
    (forall s, ET.find_self p e = Some s -> ET.find_self q s = None) ->
    ET.update_self q f e = Some e' ->
    ET.find_self p e' = ET.find_self p e.
Proof.
  induction e as [t a x cs IH] using element_induction.
  intros m e' Eq Ha Hb H3 U. simpl in Eq, U. destruct (q t a) eqn:Qt.
  - injection Eq as <-. injection U as <-.
    pose proof (q_not_p t a Qt) as Pt.
    destruct (f_keeps (ET.Element t a x cs)) as [Ht Hat].
    destruct (f (ET.Element t a x cs)) as [t' a' x' cs']. simpl in *.
    subst. now rewrite Pt, Ha, Hb.
  - destruct (update_first (ET.update_self q f) cs) as [cs'|] eqn:Ucs;
      simpl in U; [|discriminate].
    injection U as <-. simpl. destruct (p t a) eqn:Pt.
    + exfalso. specialize (H3 (ET.Element t a x cs)). simpl in H3.
      rewrite Pt, Qt, Eq in H3. specialize (H3 eq_refl). discriminate.
    + apply (find_other_after_update_list cs IH m cs'); auto.
      intros s Es. apply H3. simpl. now rewrite Pt.
Qed.

Lemma find_other_after_update r r' m :
  ET.find q r = Some m ->
  first_some (ET.find_self p) (ET.children m) = None ->
  first_some (ET.find_self p) (ET.children (f m)) = None ->
  (forall s, ET.find p r = Some s -> ET.find_self q s = None) ->
  ET.update q f r = Some r' ->
  ET.find p r' = ET.find p r.
Proof.
  unfold ET.find, ET.update. intros Eq Ha Hb H3 U.
  destruct (update_first (ET.update_self q f) (ET.children r)) as [cs'|] eqn:Ucs;
    simpl in U; [|discriminate].
  injection U as <-.
  assert (ET.children (ET.set_children cs' r) = cs') as -> by now destruct r.
  apply (find_other_after_update_list (ET.children r)) with (m := m); auto.
  apply Forall_forall. intros c _ m0 c'. apply find_other_after_update_self.
Qed.

End OtherPattern.

(** *** The two-step lookups of the package document *)

Lemma keeps_label_set_children cs : keeps_label (ET.set_children cs).
Proof. intros [t a x c]. split; reflexivity. Qed.

Lemma children_set_children cs e : ET.children (ET.set_children cs e) = cs.
Proof. now destruct e. Qed.

Lemma disjoint_tag_is t u : t <> u -> disjoint (ET.tag_is t) (ET.tag_is u).
Proof.
  intros N t' a. unfold ET.tag_is.
  destruct (String.eqb_spec t' t) as [->|]; [|discriminate].
  intros _. now apply String.eqb_neq.
Qed.

Lemma find_self_tag_is_not_self t u e :
  t <> u -> ET.tag e = u ->
  ET.find_self (ET.tag_is t) e
  = first_some (ET.find_self (ET.tag_is t)) (ET.children e).
Proof.
  intros N <-. destruct e as [t' a x cs]. simpl in *. unfold ET.tag_is at 1.
  destruct (String.eqb_spec t' t); [congruence | reflexivity].
Qed.

Lemma find_self_tag t e m :
  ET.find_self (ET.tag_is t) e = Some m -> ET.tag m = t.
Proof.
  revert m. induction e as [t' a x cs IH] using element_induction.
  intros m E. simpl in E. unfold ET.tag_is at 1 in E.
  destruct (String.eqb_spec t' t) as [->|_].
  - now injection E as <-.
  - induction IH as [|c cs Hc _ IHcs]; simpl in E; [discriminate|].
    destruct (ET.find_self (ET.tag_is t) c) eqn:Fc; [|now apply IHcs].
    injection E as ->. now apply Hc.
Qed.

Lemma find_tag t r m : ET.find (ET.tag_is t) r = Some m -> ET.tag m = t.
Proof.
  unfold ET.find. induction (ET.children r) as [|c cs IH]; simpl;
    [discriminate|].
  destruct (ET.find_self (ET.tag_is t) c) eqn:Fc; [|exact IH].
  intros E. injection E as ->. now apply find_self_tag in Fc.
Qed.

Lemma find2_cases p1 p2 r ps s :
  ET.find2 p1 p2 r = Some (ps, s) ->
  (ps = p1 /\ ET.find p1 r = Some s)
  \/ (ps = p2 /\ ET.find p1 r = None /\ ET.find p2 r = Some s).
Proof.
  unfold ET.find2. destruct (ET.find p1 r) as [e|].
  - intros E. injection E as <- <-. now left.
  - destruct (ET.find p2 r) as [e|]; [|discriminate].
    intros E. injection E as <- <-. now right.
Qed.

Lemma find2_tag t1 t2 r ps s :
  ET.find2 (ET.tag_is t1) (ET.tag_is t2) r = Some (ps, s) ->
  exists t, In t [t1; t2] /\ ps = ET.tag_is t /\ ET.find ps r = Some s
            /\ ET.tag s = t.
Proof.
  intros E. apply find2_cases in E as [[-> F]|(-> & _ & F)].
  - exists t1. simpl. pose proof (find_tag _ _ _ F). auto.
  - exists t2. simpl. pose proof (find_tag _ _ _ F). auto.
Qed.

(** Replacing the children of the element a two-step lookup returns:
    the lookup then returns the element with the new children. *)
Lemma find2_after_update t1 t2 r ps s cs' :
  t1 <> t2 ->
  ET.find2 (ET.tag_is t1) (ET.tag_is t2) r = Some (ps, s) ->
  (ET.find (ET.tag_is t1) r = None ->
   Forall (fun c => ET.find_self (ET.tag_is t1) c = None) cs') ->
  exists r',
    ET.update ps (ET.set_children cs') r = Some r'
    /\ ET.find2 (ET.tag_is t1) (ET.tag_is t2) r' = Some (ps, ET.set_children cs' s).
Proof.
  intros N E Hnew. apply find2_cases in E as [[-> F]|(-> & F1 & F2)].
  - destruct (find_after_update (ET.tag_is t1) (ET.set_children cs') r s
                (keeps_label_set_children cs') F) as (r' & U & F').
    exists r'. split; [exact U|]. unfold ET.find2. now rewrite F'.
  - destruct (find_after_update (ET.tag_is t2) (ET.set_children cs') r s
                (keeps_label_set_children cs') F2) as (r' & U & F').
    exists r'. split; [exact U|]. unfold ET.find2.
    assert (ET.find (ET.tag_is t1) r' = None) as ->; [|now rewrite F'].
    rewrite <- F1.
    apply (find_other_after_update (ET.tag_is t1) (ET.tag_is t2)
             (ET.set_children cs')) with (m := s); auto.
    + apply disjoint_tag_is. congruence.
    + apply keeps_label_set_children.
    + pose proof (find_None_below (ET.tag_is t1) (ET.tag_is t2) r s F1 F2) as B.
      destruct s as [t a x cs]. apply find_self_None in B as [_ B].
      now apply first_some_None.
    + rewrite children_set_children. apply first_some_None. auto.
    + intros s0 Es0. congruence.
Qed.

(** Replacing the children of an element tagged [t] leaves a two-step
    lookup for other tags alone, when the element and its new children
    hold no element with these tags and the lookup's result holds no
    element tagged [t]. *)
Lemma find2_other_after_update u1 u2 t r r' s cs' :
  t <> u1 -> t <> u2 ->
  ET.find (ET.tag_is t) r = Some s ->
  ET.update (ET.tag_is t) (ET.set_children cs') r = Some r' ->
  nothing_below [u1; u2] s ->
  Forall (fun c => forall u, In u [u1; u2] ->
                             ET.find_self (ET.tag_is u) c = None) cs' ->
  (forall pu e, ET.find2 (ET.tag_is u1) (ET.tag_is u2) r = Some (pu, e) ->
                first_some (ET.find_self (ET.tag_is t)) (ET.children e) = None) ->
  ET.find2 (ET.tag_is u1) (ET.tag_is u2) r'
  = ET.find2 (ET.tag_is u1) (ET.tag_is u2) r.
Proof.
  intros N1 N2 F U Hs Hnew H3.
  assert (forall u, In u [u1; u2] ->
            (forall s0, ET.find (ET.tag_is u) r = Some s0 ->
                        first_some (ET.find_self (ET.tag_is t)) (ET.children s0)
                        = None) ->
            ET.find (ET.tag_is u) r' = ET.find (ET.tag_is u) r) as G.
  { intros u Hu H3u.
    apply (find_other_after_update (ET.tag_is u) (ET.tag_is t)
             (ET.set_children cs')) with (m := s); auto.
    - apply disjoint_tag_is. destruct Hu as [<-|[<-|[]]]; assumption.
    - apply keeps_label_set_children.
    - rewrite children_set_children. apply first_some_None.
      eapply Forall_impl; [|exact Hnew]. intros c Hc. now apply Hc.
    - intros s0 Es0.
      rewrite (find_self_tag_is_not_self t u s0).
      + now apply H3u.
      + destruct Hu as [<-|[<-|[]]]; assumption.
      + now apply find_tag in Es0. }
  assert (forall s0, ET.find (ET.tag_is u1) r = Some s0 ->
                     first_some (ET.find_self (ET.tag_is t)) (ET.children s0)
                     = None) as H3a.
  { intros s0 Es0. apply (H3 (ET.tag_is u1) s0). unfold ET.find2.
    now rewrite Es0. }
  assert (ET.find (ET.tag_is u1) r = None ->
          forall s0, ET.find (ET.tag_is u2) r = Some s0 ->
                     first_some (ET.find_self (ET.tag_is t)) (ET.children s0)
                     = None) as H3b.
  { intros E1 s0 Es0. apply (H3 (ET.tag_is u2) s0). unfold ET.find2.
    now rewrite E1, Es0. }
  unfold ET.find2.
  rewrite (G u1 (or_introl eq_refl) H3a).
  destruct (ET.find (ET.tag_is u1) r) as [e1|] eqn:F1; [reflexivity|].
  rewrite (G u2 (or_intror (or_introl eq_refl)) (H3b eq_refl)).
  reflexivity.
Qed.

(** *** Dictionaries *)

Lemma opt_eqb_spec a b : reflect (a = b) (opt_eqb a b).
Proof.
  destruct a as [x|], b as [y|]; simpl; try (constructor; congruence).
  destruct (String.eqb_spec x y); constructor; congruence.
Qed.

Lemma dict_get_set {K V} (eqb : K -> K -> bool)
      (eqb_spec : forall a b, reflect (a = b) (eqb a b))
      (k k' : K) (v : V) (d : list (K * V)) :
  dict_get eqb k (dict_set eqb k' v d)
  = if eqb k k' then Some v else dict_get eqb k d.
Proof.
  induction d as [|[k0 v0] d IH]; simpl.
  - reflexivity.
  - destruct (eqb_spec k' k0) as [->|N]; simpl.
    + now destruct (eqb k k0).
    + rewrite IH. destruct (eqb_spec k k0) as [->|N'].
      * destruct (eqb_spec k0 k'); congruence.
      * reflexivity.
Qed.

Lemma get_set key k v e :
  ET.get (ET.set k v e) key = if String.eqb key k then Some v else ET.get e key.
Proof.
  destruct e as [t a x cs]. unfold ET.get. simpl.
  apply dict_get_set, String.eqb_spec.
Qed.

Lemma update_first_Forall {A} (P : A -> Prop) (g : A -> option A) l l' :
  (forall x x', P x -> g x = Some x' -> P x') ->
  Forall P l -> update_first g l = Some l' -> Forall P l'.
Proof.
  intros Hg F. revert l'. induction F as [|x l Px F IH]; intros l' U; simpl in U.
  - discriminate.
  - destruct (g x) as [x'|] eqn:G.
    + injection U as <-. constructor; eauto.
    + destruct (update_first g l) as [r|]; [|discriminate].
      injection U as <-. constructor; auto.
Qed.

Lemma update_first_map {A B} (h : A -> B) (g : A -> option A) l l' :
  (forall x x', g x = Some x' -> h x' = h x) ->
  update_first g l = Some l' -> map h l' = map h l.
Proof.
  intros Hg. revert l'. induction l as [|x l IH]; intros l' U; simpl in U.
  - discriminate.
  - destruct (g x) as [x'|] eqn:G.
    + injection U as <-. simpl. now rewrite (Hg _ _ G).
    + destruct (update_first g l) as [r|]; [|discriminate].
      injection U as <-. simpl. now rewrite (IH r).
Qed.

Lemma update_first_Some {A} (g : A -> option A) l l' :
  update_first g l = Some l' -> exists x x', In x l /\ g x = Some x'.
Proof.
  revert l'. induction l as [|x l IH]; intros l' U; simpl in U.
  - discriminate.
  - destruct (g x) as [x'|] eqn:G; [exists x, x'; simpl; auto|].
    destruct (update_first g l) as [r|]; [|discriminate].
    destruct (IH r eq_refl) as (y & y' & Hy & Gy). exists y, y'. simpl. auto.
Qed.

(** *** The manifest after [update_content_opf] *)

Lemma Forall_filter {A} (P : A -> Prop) (f : A -> bool) l :
  Forall P l -> Forall P (filter f l).
Proof.
  intros F. apply Forall_forall. intros x Hx. apply filter_In in Hx as [Hx _].
  revert x Hx. now apply Forall_forall.
Qed.

Lemma put_chapter_item_Forall (P : ET.element -> Prop) items ch :
  (forall k v e, P e -> P (ET.set k v e)) ->
  P (chapter_manifest_item ch) ->
  Forall P items -> Forall P (put_chapter_item items ch).
Proof.
  intros Hset Hnew F. unfold put_chapter_item.
  destruct (update_first _ items) as [items'|] eqn:U.
  - eapply update_first_Forall; [|exact F|exact U].
    intros x x' Px G. cbv beta in G.
    destruct (opt_eqb (ET.get x "id") (Some (ChapterFile.id ch)));
      [|discriminate].
    injection G as <-. auto.
  - apply Forall_app. split; [exact F|]. now constructor.
Qed.

Lemma update_manifest_children_Forall (P : ET.element -> Prop)
      items chapter_files items' :
  (forall k v e, P e -> P (ET.set k v e)) ->
  (forall ch, P (chapter_manifest_item ch)) ->
  Forall P items ->
  update_manifest_children items chapter_files = Ok items' ->
  Forall P items'.
Proof.
  intros Hset Hnew F E. unfold update_manifest_children in E.
  apply bind_Ok in E as (kept & K & E). injection E as <-.
  apply remove_flagged_Ok in K as [_ ->].
  assert (Forall P (filter
                      (fun x => match is_old_manifest_item x with
                                | Ok b => negb b
                                | Raise _ => false
                                end) items)) as Fk by now apply Forall_filter.
  revert Fk. generalize (filter
                           (fun x => match is_old_manifest_item x with
                                     | Ok b => negb b
                                     | Raise _ => false
                                     end) items) as kept.
  induction chapter_files as [|ch chs IH]; intros kept Fk; simpl; [exact Fk|].
  apply IH. now apply put_chapter_item_Forall.
Qed.

Lemma update_spine_children_Forall (P : ET.element -> Prop)
      m refs chapter_files refs' :
  (forall ch, P (chapter_itemref ch)) ->
  Forall P refs ->
  update_spine_children m refs chapter_files = Ok refs' ->
  Forall P refs'.
Proof.
  intros Hnew F E.
  apply update_spine_children_spec in E as (pre & post & -> & S & _ & _).
  assert (Forall P (pre ++ post)) as Fpp
      by (rewrite S; now apply Forall_filter).
  apply Forall_app in Fpp as [Fpre Fpost].
  apply Forall_app. split; [exact Fpre|].
  apply Forall_app. split; [|exact Fpost].
  apply Forall_forall. intros x Hx. apply in_map_iff in Hx as (ch & <- & _).
  apply Hnew.
Qed.

Lemma item_ids_put_chapter_item items ch :
  incl (item_ids items) (item_ids (put_chapter_item items ch))
  /\ In (Some (ChapterFile.id ch)) (item_ids (put_chapter_item items ch)).
Proof.
  unfold put_chapter_item.
  destruct (update_first _ items) as [items'|] eqn:U.
  - assert (item_ids items' = item_ids items) as E.
    { unfold item_ids. eapply update_first_map; [|exact U].
      intros x x' G. cbv beta in G.
      destruct (opt_eqb (ET.get x "id") (Some (ChapterFile.id ch)));
        [|discriminate].
      injection G as <-. now rewrite !get_set. }
    rewrite E. split; [apply incl_refl|].
    apply update_first_Some in U as (x & x' & Hx & G). cbv beta in G.
    destruct (opt_eqb_spec (ET.get x "id") (Some (ChapterFile.id ch)))
      as [Hid|]; [|discriminate].
    rewrite <- Hid. unfold item_ids.
    exact (in_map (fun i => ET.get i "id") items x Hx).
  - unfold item_ids. rewrite map_app. split.
    + apply incl_appl, incl_refl.
    + apply in_or_app. right. simpl. auto.
Qed.

Lemma item_ids_fold_put items chapter_files :
  incl (item_ids items) (item_ids (fold_left put_chapter_item chapter_files items))
  /\ forall ch, In ch chapter_files ->
                In (Some (ChapterFile.id ch))
                   (item_ids (fold_left put_chapter_item chapter_files items)).
Proof.
  revert items. induction chapter_files as [|c chs IH]; intros items; simpl.
  - split; [apply incl_refl | tauto].
  - destruct (item_ids_put_chapter_item items c) as [I1 I2].
    destruct (IH (put_chapter_item items c)) as [J1 J2].
    split.
    + eapply incl_tran; eassumption.
    + intros ch [<-|Hch]; [now apply J1 | now apply J2].
Qed.

(** A manifest item survives the removal pass when its identifier is
    [nav] or [ncx], or when it points to [cover.xhtml]. *)
Lemma kept_manifest_item items kept x :
  remove_flagged is_old_manifest_item items = Ok kept ->
  In x items ->
  Py.mem (ET.get x "id") [Some "nav"%string; Some "ncx"%string] = true
  \/ ET.get x "href" = Some "cover.xhtml"%string ->
  In x kept.
Proof.
  intros K Hx Hkeep. apply remove_flagged_Ok in K as [_ ->].
  apply filter_In. split; [exact Hx|].
  unfold is_old_manifest_item. destruct Hkeep as [-> | ->]; [reflexivity|].
  cbn [opt_eqb]. rewrite String.eqb_refl. cbn [negb].
  now rewrite andb_false_r.
Qed.

(** Every entry of the parsed manifest comes from an item of the
    manifest element with the same identifier and href. *)
Lemma manifest_entry_source dir items m0 m :
  foldM (add_manifest_entry dir) items m0 = Ok m ->
  forall i it,
    manifest_get i m = Some it ->
    manifest_get i m0 = Some it
    \/ exists x, In x items /\ ET.get x "id" = i
                 /\ ET.get x "href" = Some (Item.href it).
Proof.
  revert m0. induction items as [|x items IH]; intros m0 E i it G; simpl in E.
  - injection E as <-. now left.
  - apply bind_Ok in E as (m1 & A & E).
    destruct (IH m1 E i it G) as [G1|(y & Hy & Hid & Hh)].
    + unfold add_manifest_entry in A.
      destruct (ET.get x "href") as [h|] eqn:Hh; [|discriminate].
      injection A as <-. unfold manifest_get in G1.
      rewrite (dict_get_set opt_eqb opt_eqb_spec) in G1.
      destruct (opt_eqb_spec i (ET.get x "id")) as [->|N].
      * injection G1 as <-. right. exists x. simpl. auto.
      * now left.
    + right. exists y. simpl. auto.
Qed.

(** After the update every itemref of the spine element names a
    manifest item, provided those named [nav] or [ncx] did before. *)
Lemma spine_resolves_stage dir items m refs chapter_files items' refs' :
  foldM (add_manifest_entry dir) items [] = Ok m ->
  update_manifest_children items chapter_files = Ok items' ->
  update_spine_children m refs chapter_files = Ok refs' ->
  (forall r, In r refs ->
             Py.mem (ET.get r "idref") [Some "nav"%string; Some "ncx"%string] = true ->
             In (ET.get r "idref") (item_ids items)) ->
  forall r', In r' refs' -> In (ET.get r' "idref") (item_ids items').
Proof.
  intros Hm Hitems Hrefs Hres r' Hr'.
  unfold update_manifest_children in Hitems.
  apply bind_Ok in Hitems as (kept & K & E). injection E as <-.
  destruct (item_ids_fold_put kept chapter_files) as [Hincl Hch].
  apply update_spine_children_spec in Hrefs as (pre & post & -> & S & _ & _).
  assert (forall x, In x items ->
            Py.mem (ET.get x "id") [Some "nav"%string; Some "ncx"%string] = true
            \/ ET.get x "href" = Some "cover.xhtml"%string ->
            In (ET.get x "id")
               (item_ids (fold_left put_chapter_item chapter_files kept))) as Hkept.
  { intros x Hx Hk. apply Hincl. unfold item_ids.
    apply (in_map (fun i => ET.get i "id")).
    now apply (kept_manifest_item items). }
  assert (forall r, In r (pre ++ post) ->
            In (ET.get r "idref")
               (item_ids (fold_left put_chapter_item chapter_files kept))) as Hold.
  { intros r Hr. rewrite S in Hr. apply filter_In in Hr as [Hr R].
    unfold retained in R. apply andb_prop in R as [R _].
    apply orb_prop in R as [R|R].
    - specialize (Hres r Hr R). unfold item_ids in Hres.
      apply in_map_iff in Hres as (x & Hid & Hx).
      rewrite <- Hid. apply Hkept; [exact Hx|]. left. now rewrite Hid.
    - unfold is_cover_ref in R.
      destruct (manifest_get (ET.get r "idref") m) as [it|] eqn:G;
        [|discriminate].
      apply String.eqb_eq in R.
      destruct (manifest_entry_source _ _ _ _ Hm _ _ G)
        as [G0|(x & Hx & Hid & Hh)]; [discriminate|].
      rewrite <- Hid. apply Hkept; [exact Hx|]. right. now rewrite Hh, R. }
  apply in_app_or in Hr' as [H|H]; [apply Hold, in_or_app; now left|].
  apply in_app_or in H as [H|H]; [|apply Hold, in_or_app; now right].
  apply in_map_iff in H as (ch & <- & Hc). simpl. now apply Hch.
Qed.

(** *** The package document after [update_content_opf] *)

Lemma nothing_below_free tags e :
  nothing_below tags e <-> Forall (free_of tags) (ET.children e).
Proof.
  unfold nothing_below, free_of. split.
  - intros H. apply Forall_forall. intros c Hc u Hu.
    specialize (H u Hu). apply first_some_None in H.
    revert c Hc. now apply Forall_forall.
  - intros H u Hu. apply first_some_None.
    eapply Forall_impl; [|exact H]. intros c Hc. now apply Hc.
Qed.

Lemma free_of_set tags k v e : free_of tags e -> free_of tags (ET.set k v e).
Proof.
  unfold free_of. intros H u Hu. specialize (H u Hu).
  destruct e as [t a x cs]. simpl in *. unfold ET.tag_is in *.
  destruct (String.eqb t u); [discriminate | exact H].
Qed.

Lemma free_of_chapter_manifest_item tags ch :
  incl tags structural_tags -> free_of tags (chapter_manifest_item ch).
Proof.
  intros I u Hu. apply I in Hu.
  repeat (destruct Hu as [<-|Hu]; [reflexivity|]). destruct Hu.
Qed.

Lemma free_of_chapter_itemref tags ch :
  incl tags structural_tags -> free_of tags (chapter_itemref ch).
Proof.
  intros I u Hu. apply I in Hu.
  repeat (destruct Hu as [<-|Hu]; [reflexivity|]). destruct Hu.
Qed.

Lemma updated_root_Ok cd chapter_files r2 :
  updated_root cd chapter_files = Ok r2 ->
  exists pm me items' root1 ps se refs',
    find_manifest_elem (root cd) = Some (pm, me)
    /\ update_manifest_children (ET.children me) chapter_files = Ok items'
    /\ ET.update pm (ET.set_children items') (root cd) = Some root1
    /\ find_spine_elem root1 = Some (ps, se)
    /\ update_spine_children (manifest cd) (ET.children se) chapter_files
       = Ok refs'
    /\ ET.update ps (ET.set_children refs') root1 = Some r2.
Proof.
  unfold updated_root.
  destruct (find_manifest_elem (root cd)) as [[pm me]|] eqn:Fm; [|discriminate].
  destruct (update_manifest_children _ _) as [items'|] eqn:I; [|discriminate].
  simpl.
  destruct (ET.update pm _ (root cd)) as [root1|] eqn:U1; [|discriminate].
  destruct (find_spine_elem root1) as [[ps se]|] eqn:Fs; [|discriminate].
  destruct (update_spine_children _ _ _) as [refs'|] eqn:R; [|discriminate].
  simpl.
  destruct (ET.update ps _ root1) as [root2|] eqn:U2; [|discriminate].
  intros E. injection E as <-.
  exists pm, me, items', root1, ps, se, refs'.
  repeat split; try assumption; reflexivity.
Qed.

Lemma parse_root_Ok dir r cd :
  parse_root dir r = Ok cd ->
  exists pm me ps se m,
    find_manifest_elem r = Some (pm, me)
    /\ foldM (add_manifest_entry dir) (ET.children me) [] = Ok m
    /\ find_spine_elem r = Some (ps, se)
    /\ cd = mk_content_data r m (parse_spine m (ET.children se)) dir.
Proof.
  unfold parse_root.
  destruct (find_manifest_elem r) as [[pm me]|] eqn:Fm; [|discriminate].
  destruct (foldM _ _ _) as [m|] eqn:M; [|discriminate]. simpl.
  destruct (find_spine_elem r) as [[ps se]|] eqn:Fs; [|discriminate].
  intros E. injection E as <-. exists pm, me, ps, se, m.
  repeat split; try assumption; reflexivity.
Qed.

Lemma structural_tag_neq t u :
  In t [opf "manifest"; "manifest"%string] ->
  In u [opf "spine"; "spine"%string] -> t <> u.
Proof.
  intros Ht Hu.
  repeat (destruct Ht as [<-|Ht]; [|]);
    repeat (destruct Hu as [<-|Hu]; [|]);
    try contradiction; apply String.eqb_neq; reflexivity.
Qed.

(** The manifest step leaves the spine lookup alone when manifest and
    spine are not nested. *)
Lemma spine_lookup_after_manifest_step r pm me items chapter_files items' root1 :
  separate r ->
  find_manifest_elem r = Some (pm, me) ->
  update_manifest_children items chapter_files = Ok items' ->
  items = ET.children me ->
  ET.update pm (ET.set_children items') r = Some root1 ->
  find_spine_elem root1 = find_spine_elem r.
Proof.
  intros [Sm Ss] Fm I -> U.
  destruct (find2_tag _ _ _ _ _ Fm) as (tm & Htm & -> & Fm' & _).
  apply (find2_other_after_update (opf "spine") "spine" tm r root1 me items');
    auto.
  - apply structural_tag_neq; simpl; auto.
  - apply structural_tag_neq; simpl; auto.
  - now apply (Sm (ET.tag_is tm)).
  - apply (update_manifest_children_Forall
             (free_of [opf "spine"; "spine"%string]) (ET.children me)
             chapter_files); auto.
    + intros k v e. apply free_of_set.
    + intros ch. apply free_of_chapter_manifest_item.
      unfold structural_tags. intros x [<-|[<-|[]]]; simpl; auto.
    + apply nothing_below_free. now apply (Sm (ET.tag_is tm)).
  - intros pu e Fe. now apply (Ss pu e Fe).
Qed.

(** The spine step installs the new children in the spine element. *)
Lemma spine_lookup_after_spine_step m root1 ps se chapter_files refs' r2 :
  find_spine_elem root1 = Some (ps, se) ->
  update_spine_children m (ET.children se) chapter_files = Ok refs' ->
  ET.update ps (ET.set_children refs') root1 = Some r2 ->
  find_spine_elem r2 = Some (ps, ET.set_children refs' se).
Proof.
  intros Fs R U.
  destruct (find2_after_update (opf "spine") "spine" root1 ps se refs')
    as (r2' & U' & F'); auto.
  - apply String.eqb_neq. reflexivity.
  - intros N.
    apply (update_spine_children_Forall
             (fun c => ET.find_self (ET.tag_is (opf "spine")) c = None)
             m (ET.children se) chapter_files); auto.
    apply find2_cases in Fs as [[_ F]|(-> & _ & F)]; [congruence|].
    pose proof (find_None_below _ _ _ _ N F) as B.
    destruct se as [t a x cs]. now apply find_self_None in B as [_ B].
  - rewrite U in U'. injection U' as <-. exact F'.
Qed.

(** C3 (amended). After [update_content_opf] the spine element holds the
    itemrefs it retained (those named [nav] or [ncx] and those of a
    manifest entry with href [cover.xhtml]) in the order they had, and
    one itemref per chapter file, in emission order, right after the
    last retained itemref that is a navigation or cover reference (at
    the front when there is none); only [ncx] itemrefs can follow the
    chapters. *)
Theorem spine_after_update {lib : Libraries} cd chapter_files fs r' fs' :
  update_content_opf cd chapter_files fs = (Ok r', fs') ->
  exists ps se se' pre post,
    find_spine_elem r' = Some (ps, se')
    /\ ET.children se' = pre ++ map chapter_itemref chapter_files ++ post
    /\ idrefs (map chapter_itemref chapter_files)
       = map (fun ch => Some (ChapterFile.id ch)) chapter_files
    /\ pre ++ post = filter (retained (manifest cd)) (ET.children se)
    /\ ends_with (nav_or_cover (manifest cd)) pre
    /\ Forall (fun r => nav_or_cover (manifest cd) r = false) post
    /\ (separate (root cd) -> find_spine_elem (root cd) = Some (ps, se)).
Proof.
  intros E. apply update_content_opf_Ok in E as [E _].
  apply updated_root_Ok in E
    as (pm & me & items' & root1 & ps & se & refs' & Fm & I & U1 & Fs & R & U2).
  pose proof (spine_lookup_after_spine_step _ _ _ _ _ _ _ Fs R U2) as F2.
  destruct (update_spine_children_spec _ _ _ _ R)
    as (pre & post & -> & S & Hpre & Hpost).
  exists ps, se, (ET.set_children (pre ++ map chapter_itemref chapter_files ++ post) se),
    pre, post.
  rewrite children_set_children. repeat split; auto.
  - unfold idrefs. rewrite map_map. reflexivity.
  - intros Sep. rewrite <- Fs.
    symmetry. now apply (spine_lookup_after_manifest_step
                           (root cd) pm me (ET.children me) chapter_files items').
Qed.

Lemma spine_after_update_witness :
  update_content_opf (lib := Sample.book_lib) Sample.book_cd
                     Sample.book_chapter_files Sample.extracted_fs
  = (Ok Sample.book_new_root, Sample.book_updated_fs)
  /\ exists ps se se' pre post,
      find_spine_elem Sample.book_new_root = Some (ps, se')
      /\ ET.children se'
         = pre ++ map chapter_itemref Sample.book_chapter_files ++ post
      /\ idrefs (map chapter_itemref Sample.book_chapter_files)
         = [Some "ch_0"; Some "ch_1"; Some "ch_2"]%string
      /\ pre ++ post
         = filter (retained (manifest Sample.book_cd)) (ET.children se)
      /\ ends_with (nav_or_cover (manifest Sample.book_cd)) pre
      /\ Forall (fun r => nav_or_cover (manifest Sample.book_cd) r = false) post.
Proof.
  assert (update_content_opf (lib := Sample.book_lib) Sample.book_cd
                             Sample.book_chapter_files Sample.extracted_fs
          = (Ok Sample.book_new_root, Sample.book_updated_fs)) as Hupd
      by (vm_compute; reflexivity).
  split; [exact Hupd|].
  destruct (spine_after_update (lib := Sample.book_lib) _ _ _ _ _ Hupd)
    as (ps & se & se' & pre & post & H1 & H2 & H3 & H4 & H5 & H6 & _).
  exists ps, se, se', pre, post. repeat split; assumption.
Defined.

(** C3 as worded fails on a spine that lists the navigation document
    before the cover: the order is kept, so the cover is not first. *)
Lemma spine_keeps_navigation_before_cover :
  fst (update_content_opf (lib := Sample.nested_lib) Sample.nav_first_cd
                          Sample.one_chapter_file [])
  = Ok Sample.nav_first_new_root
  /\ option_map snd (find_spine_elem Sample.nav_first_new_root)
     = Some (ET.Element (opf "spine") [] None
               [Sample.itemref "nav"; Sample.itemref "cover";
                Sample.itemref "ch_0"])
  /\ ~ claimed_spine_layout
         (manifest Sample.nav_first_cd)
         [Sample.itemref "nav"; Sample.itemref "cover"; Sample.itemref "ch_0"]
         Sample.one_chapter_file.
Proof.
  split; [vm_compute; reflexivity|].
  split; [vm_compute; reflexivity|].
  intros (cover & nav & E & Hc & Hn).
  change (idrefs _) with [Some "nav"; Some "cover"; Some "ch_0"]%string in E.
  simpl in E.
  destruct Hc as [->|(c & -> & _)], Hn as [->| ->]; simpl in E;
    discriminate.
Qed.

(** *** The spine resolves in the manifest *)

Lemma manifest_lookup_after_manifest_step r pm me chapter_files items' root1 :
  find_manifest_elem r = Some (pm, me) ->
  update_manifest_children (ET.children me) chapter_files = Ok items' ->
  ET.update pm (ET.set_children items') r = Some root1 ->
  find_manifest_elem root1 = Some (pm, ET.set_children items' me).
Proof.
  intros Fm I U.
  destruct (find2_after_update (opf "manifest") "manifest" r pm me items')
    as (r1 & U' & F'); auto.
  - apply String.eqb_neq. reflexivity.
  - intros N.
    apply (update_manifest_children_Forall
             (free_of [opf "manifest"]) (ET.children me) chapter_files) in I.
    + eapply Forall_impl; [|exact I]. intros c Hc. apply Hc. now left.
    + intros k v e. apply free_of_set.
    + intros ch. apply free_of_chapter_manifest_item.
      intros x [<-|[]]. now left.
    + apply find2_cases in Fm as [[_ F]|(-> & _ & F)]; [congruence|].
      pose proof (find_None_below _ _ _ _ N F) as B.
      destruct me as [t a x cs]. apply find_self_None in B as [_ B].
      eapply Forall_impl; [|exact B]. intros c Hc u [<-|[]]. exact Hc.
  - rewrite U in U'. injection U' as <-. exact F'.
Qed.

Lemma manifest_lookup_after_spine_step m root1 pm me' ps se chapter_files refs' r2 :
  find_manifest_elem root1 = Some (pm, me') ->
  find_spine_elem root1 = Some (ps, se) ->
  nothing_below [opf "manifest"; "manifest"%string] se ->
  nothing_below [opf "spine"; "spine"%string] me' ->
  update_spine_children m (ET.children se) chapter_files = Ok refs' ->
  ET.update ps (ET.set_children refs') root1 = Some r2 ->
  find_manifest_elem r2 = Some (pm, me').
Proof.
  intros Fm Fs Hse Hme R U. unfold find_manifest_elem in *. rewrite <- Fm.
  destruct (find2_tag _ _ _ _ _ Fs) as (ts & Hts & -> & Fs' & _).
  apply (find2_other_after_update (opf "manifest") "manifest" ts root1 r2 se refs');
    auto.
  - intros E. symmetry in E. revert E.
    apply structural_tag_neq; simpl; auto.
  - intros E. symmetry in E. revert E.
    apply structural_tag_neq; simpl; auto.
  - apply (update_spine_children_Forall
             (free_of [opf "manifest"; "manifest"%string])
             m (ET.children se) chapter_files); auto.
    + intros ch. apply free_of_chapter_itemref.
      unfold structural_tags. intros x [<-|[<-|[]]]; simpl; auto.
    + now apply nothing_below_free.
  - intros pu e Fe. rewrite Fm in Fe. injection Fe as <- <-.
    now apply Hme.
Qed.

(** C7 (amended). The loader makes every identifier of the in-memory
    spine a key of the in-memory manifest.  In the document
    [update_content_opf] writes, every itemref of the spine element names
    an item of the manifest element as soon as the itemrefs named [nav]
    or [ncx] of the input document did; these are kept whether or not
    the manifest lists them. *)
Theorem spine_resolves_after_update {lib : Libraries} dir r cd :
  parse_root dir r = Ok cd ->
  (forall i, In i (spine cd) -> dict_mem opt_eqb i (manifest cd) = true)
  /\ (forall chapter_files fs r' fs',
         update_content_opf cd chapter_files fs = (Ok r', fs') ->
         separate r ->
         nav_refs_resolve r ->
         document_resolves r').
Proof.
  intros P. apply parse_root_Ok in P
    as (pm0 & me0 & ps0 & se0 & m & Fm0 & Hm & Fs0 & ->).
  split.
  - simpl. intros i Hi. unfold parse_spine in Hi.
    now apply filter_In in Hi as [_ Hi].
  - intros chapter_files fs r' fs' E Sep Hres.
    apply update_content_opf_Ok in E as [E _].
    apply updated_root_Ok in E
      as (pm & me & items' & root1 & ps & se & refs'
          & Fm & I & U1 & Fs & R & U2).
    simpl in Fm, U1, R. rewrite Fm0 in Fm. injection Fm as <- <-.
    pose proof (spine_lookup_after_manifest_step
                  r pm0 me0 (ET.children me0) chapter_files items' root1
                  Sep Fm0 I eq_refl U1) as Fs1.
    rewrite Fs, Fs0 in Fs1. injection Fs1 as -> ->.
    destruct Sep as [Sm Ss].
    pose proof (manifest_lookup_after_manifest_step _ _ _ _ _ _ Fm0 I U1) as Fm1.
    assert (nothing_below [opf "spine"; "spine"%string]
                          (ET.set_children items' me0)) as Hme.
    { apply nothing_below_free. rewrite children_set_children.
      apply (update_manifest_children_Forall
               (free_of [opf "spine"; "spine"%string]) (ET.children me0)
               chapter_files); auto.
      - intros k v e. apply free_of_set.
      - intros ch. apply free_of_chapter_manifest_item.
        unfold structural_tags. intros x [<-|[<-|[]]]; simpl; auto.
      - apply nothing_below_free. now apply (Sm pm0). }
    pose proof (manifest_lookup_after_spine_step
                  _ _ _ _ _ _ _ _ _ Fm1 Fs (Ss _ _ Fs0) Hme R U2) as Fm2.
    pose proof (spine_lookup_after_spine_step _ _ _ _ _ _ _ Fs R U2) as Fs2.
    intros pm' me' ps' se' Fm' Fs' ref Href.
    rewrite Fm2 in Fm'. injection Fm' as <- <-.
    rewrite Fs2 in Fs'. injection Fs' as <- <-.
    rewrite children_set_children in *.
    apply (spine_resolves_stage dir (ET.children me0) m (ET.children se0)
                                chapter_files items' refs'); auto.
    intros ref0 H0 Hnav. now apply (Hres pm0 me0 ps0 se0).
Qed.

(** C7 as worded fails on a package whose spine names [nav] without a
    manifest item of that name: the loader drops the identifier from
    the in-memory spine, but the written document keeps the itemref. *)
Lemma written_spine_keeps_unlisted_nav :
  parse_root "OEBPS" Sample.unlisted_nav_package = Ok Sample.unlisted_nav_cd
  /\ spine Sample.unlisted_nav_cd = [Some "c1"%string]
  /\ fst (update_content_opf (lib := Sample.nested_lib) Sample.unlisted_nav_cd
                             Sample.one_chapter_file [])
     = Ok Sample.unlisted_nav_new_root
  /\ ~ document_resolves Sample.unlisted_nav_new_root.
Proof.
  split; [reflexivity|]. split; [reflexivity|].
  split; [vm_compute; reflexivity|].
  intros H.
  specialize (H (ET.tag_is (opf "manifest"))
                (ET.Element (opf "manifest") [] None
                            [Sample.xhtml_item "ch_0" "ch_0.xhtml"])
                (ET.tag_is (opf "spine"))
                (ET.Element (opf "spine") [] None
                            [Sample.itemref "nav"; Sample.itemref "ch_0"])
                eq_refl eq_refl (Sample.itemref "nav") (or_introl eq_refl)).
  vm_compute in H. destruct H as [H|[]]. discriminate.
Qed.

Lemma book_package_separate : separate Sample.book_package.
Proof.
  split.
  - intros pm me F. vm_compute in F. injection F as <- <-.
    intros t [<-|[<-|[]]]; reflexivity.
  - intros ps se F. vm_compute in F. injection F as <- <-.
    intros t [<-|[<-|[]]]; reflexivity.
Qed.

Lemma book_package_resolves : document_resolves Sample.book_package.
Proof.
  intros pm me ps se Fm Fs ref Href.
  vm_compute in Fm. injection Fm as <- <-.
  vm_compute in Fs. injection Fs as <- <-.
  simpl in Href.
  repeat (destruct Href as [<-|Href]; [vm_compute; tauto|]).
  destruct Href.
Qed.

Lemma spine_resolves_after_update_witness :
  parse_root "temp_epub_0a1b2c3d/OEBPS" Sample.book_package = Ok Sample.book_cd
  /\ (forall i, In i (spine Sample.book_cd) ->
                dict_mem opt_eqb i (manifest Sample.book_cd) = true)
  /\ update_content_opf (lib := Sample.book_lib) Sample.book_cd
                        Sample.book_chapter_files Sample.extracted_fs
     = (Ok Sample.book_new_root, Sample.book_updated_fs)
  /\ separate Sample.book_package
  /\ nav_refs_resolve Sample.book_package
  /\ document_resolves Sample.book_new_root.
Proof.
  assert (parse_root "temp_epub_0a1b2c3d/OEBPS" Sample.book_package
          = Ok Sample.book_cd) as Hparse by reflexivity.
  assert (update_content_opf (lib := Sample.book_lib) Sample.book_cd
                             Sample.book_chapter_files Sample.extracted_fs
          = (Ok Sample.book_new_root, Sample.book_updated_fs)) as Hupd
      by (vm_compute; reflexivity).
  assert (nav_refs_resolve Sample.book_package) as Hnav.
  { intros pm me ps se Fm Fs ref Href _.
    now apply (book_package_resolves pm me ps se). }
  destruct (spine_resolves_after_update (lib := Sample.book_lib) _ _ _ Hparse)
    as [Hmem Hdoc].
  repeat split; try assumption.
  - apply book_package_separate.
  - apply book_package_separate.
  - exact (Hdoc _ _ _ _ Hupd book_package_separate Hnav).
Defined.

(** *** The two tables of contents *)

Lemma node_induction (P : Bs4.node -> Prop) :
  (forall s, P (Bs4.NavigableString s)) ->
  (forall n a cs, Forall P cs -> P (Bs4.Tag n a cs)) ->
  forall x, P x.
Proof.
  intros Hs Ht. fix IH 1. intros [s|n a cs]; [apply Hs|]. apply Ht.
  induction cs as [|c cs IHcs]; constructor; [apply IH | exact IHcs].
Qed.

Lemma first_some_app_None {A B} (f : A -> option B) l1 l2 :
  first_some f l1 = None -> first_some f (l1 ++ l2) = first_some f l2.
Proof.
  induction l1 as [|x l1 IH]; simpl; [reflexivity|].
  destruct (f x); [discriminate | exact IH].
Qed.

Section SoupTrees.

Variables (p : Bs4.pattern) (f : Bs4.node -> Bs4.node).
Hypothesis f_keeps : keeps_name f.

Lemma soup_update_self_None x :
  Bs4.find_self p x = None -> Bs4.update_self p f x = None.
Proof.
  induction x as [s|n a cs IH] using node_induction; [reflexivity|].
  simpl. destruct (p n a); [discriminate|]. intros E.
  apply first_some_None in E. rewrite update_first_None; [reflexivity|].
  induction IH as [|c cs Hc _ IHcs]; [constructor|].
  inversion E; subst. constructor; auto.
Qed.

Lemma soup_find_after_update_list cs :
  Forall (fun c => forall m, Bs4.find_self p c = Some m ->
                   exists c', Bs4.update_self p f c = Some c'
                              /\ Bs4.find_self p c' = Some (f m)) cs ->
  forall m, first_some (Bs4.find_self p) cs = Some m ->
  exists cs', update_first (Bs4.update_self p f) cs = Some cs'
              /\ first_some (Bs4.find_self p) cs' = Some (f m).
Proof.
  induction 1 as [|c cs Hc _ IHcs]; intros m E; simpl in *; [discriminate|].
  destruct (Bs4.find_self p c) as [m'|] eqn:Fc.
  - injection E as ->. destruct (Hc m eq_refl) as (c' & U & F').
    rewrite U. exists (c' :: cs). split; [reflexivity|]. simpl. now rewrite F'.
  - rewrite (soup_update_self_None _ Fc).
    destruct (IHcs m E) as (cs' & U & F').
    rewrite U. exists (c :: cs'). split; [reflexivity|]. simpl. now rewrite Fc.
Qed.

Lemma soup_find_after_update_self x m :
  Bs4.find_self p x = Some m ->
  exists x', Bs4.update_self p f x = Some x' /\ Bs4.find_self p x' = Some (f m).
Proof.
  revert m. induction x as [s|n a cs IH] using node_induction;
    intros m E; [discriminate|].
  simpl in E |- *. destruct (p n a) eqn:Pn.
  - injection E as <-. eexists. split; [reflexivity|].
    destruct (f_keeps n a cs) as [cs' ->]. simpl. now rewrite Pn.
  - destruct (soup_find_after_update_list cs IH m E) as (cs' & U & F').
    rewrite U. eexists. split; [reflexivity|]. simpl. now rewrite Pn.
Qed.

(** The tag [find] returns, after the mutation, is the mutated one. *)
Lemma soup_find_after_update cs m :
  Bs4.find p cs = Some m ->
  exists cs', Bs4.update p f cs = Some cs' /\ Bs4.find p cs' = Some (f m).
Proof.
  unfold Bs4.find, Bs4.update. apply soup_find_after_update_list.
  apply Forall_forall. intros c _ m'. apply soup_find_after_update_self.
Qed.

Lemma soup_update_Some cs cs' :
  Bs4.update p f cs = Some cs' -> exists m, Bs4.find p cs = Some m.
Proof.
  unfold Bs4.find, Bs4.update. intros U.
  destruct (first_some (Bs4.find_self p) cs) as [m|] eqn:E; [eauto|].
  apply first_some_None in E.
  rewrite update_first_None in U; [discriminate|].
  eapply Forall_impl; [|exact E]. intros c. apply soup_update_self_None.
Qed.

Lemma soup_find_is_tag cs m :
  Bs4.find p cs = Some m -> exists n a c, m = Bs4.Tag n a c /\ p n a = true.
Proof.
  unfold Bs4.find.
  assert (forall x, Bs4.find_self p x = Some m ->
                    exists n a c, m = Bs4.Tag n a c /\ p n a = true) as G.
  { intros x. induction x as [s|n a c IH] using node_induction;
      [simpl; discriminate|].
    simpl. destruct (p n a) eqn:Pn.
    - intros E. injection E as <-. eauto.
    - induction IH as [|c0 c Hc _ IHc]; simpl; [discriminate|].
      destruct (Bs4.find_self p c0) eqn:Fc; [|exact IHc].
      intros E. injection E as ->. now apply Hc. }
  induction cs as [|c cs IH]; simpl; [discriminate|].
  destruct (Bs4.find_self p c) eqn:Fc; [|exact IH].
  intros E. injection E as ->. now apply (G c).
Qed.

End SoupTrees.

Lemma keeps_name_set_contents cs : keeps_name (Bs4.set_contents cs).
Proof. intros n a c. now exists cs. Qed.

Lemma keeps_name_fill_toc entries : keeps_name (fill_toc entries).
Proof.
  intros n a cs. unfold fill_toc. simpl.
  destruct (Bs4.update _ _ cs) as [cs'|]; eauto.
Qed.

(** After [fill_toc] the first [ol] below the element holds exactly the
    new entries. *)
Lemma toc_list_after_fill entries n a cs :
  exists ol,
    Bs4.find (Bs4.name_is "ol") (Bs4.contents (fill_toc entries (Bs4.Tag n a cs)))
    = Some ol
    /\ Bs4.contents ol = entries.
Proof.
  unfold fill_toc. simpl.
  destruct (Bs4.find (Bs4.name_is "ol") cs) as [m|] eqn:F.
  - destruct (soup_find_after_update (Bs4.name_is "ol")
                (Bs4.set_contents entries)
                (keeps_name_set_contents entries) cs m F) as (cs' & U & F').
    rewrite U. simpl. exists (Bs4.set_contents entries m).
    split; [exact F'|].
    destruct (soup_find_is_tag _ _ _ F) as (n' & a' & c' & -> & _).
    reflexivity.
  - destruct (Bs4.update (Bs4.name_is "ol") (Bs4.set_contents entries) cs)
      as [cs'|] eqn:U.
    + apply soup_update_Some in U as [m Fm]. congruence.
    + simpl. exists (Bs4.Tag "ol" [] entries). split; [|reflexivity].
      unfold Bs4.find in *. now rewrite first_some_app_None.
Qed.

Lemma toc_entry_targets (l : list (string * string)) :
  map (fun a => Bs4.attr "href" (fst a))
      (Bs4.find_all "a" (map (fun hl => toc_entry (fst hl) (snd hl)) l))
  = map (fun hl => Some (fst hl)) l.
Proof.
  induction l as [|[h label] l IH]; simpl; [reflexivity|].
  now rewrite IH.
Qed.

Lemma toc_entries_targets m chapter_files :
  map (fun a => Bs4.attr "href" (fst a))
      (Bs4.find_all "a" (toc_entries m chapter_files))
  = expected_targets m chapter_files.
Proof.
  assert (toc_entries m chapter_files
          = map (fun hl => toc_entry (fst hl) (snd hl))
                (match cover_item m with
                 | Some c => [(Item.href c, "Cover"%string)]
                 | None => []
                 end ++
                 map (fun ch => (ChapterFile.href ch, ChapterFile.title ch))
                     chapter_files)) as ->.
  { unfold toc_entries. rewrite map_app, map_map.
    now destruct (cover_item m). }
  rewrite toc_entry_targets. unfold expected_targets.
  rewrite map_app, map_map. now destruct (cover_item m).
Qed.

Lemma nav_points_targets entries :
  flat_map
    (fun nav_point =>
       map (fun c => ET.get c "src")
           (filter (fun c => String.eqb (ET.tag c) "content")
                   (ET.children nav_point)))
    (nav_points entries)
  = map (fun e => Some (snd e)) entries.
Proof.
  unfold nav_points.
  assert (forall k acc,
             flat_map
               (fun nav_point =>
                  map (fun c => ET.get c "src")
                      (filter (fun c => String.eqb (ET.tag c) "content")
                              (ET.children nav_point)))
               (snd (fold_left
                       (fun acc e =>
                          (fst acc + 1,
                           snd acc ++ [nav_point (fst acc) (fst e) (snd e)]))
                       entries (k, acc)))
             = flat_map
                 (fun nav_point =>
                    map (fun c => ET.get c "src")
                        (filter (fun c => String.eqb (ET.tag c) "content")
                                (ET.children nav_point))) acc
               ++ map (fun e => Some (snd e)) entries) as G.
  { induction entries as [|e entries IH]; intros k acc; simpl.
    - now rewrite app_nil_r.
    - rewrite IH, flat_map_app. simpl. now rewrite <- app_assoc. }
  exact (G 1 []).
Qed.

Lemma nav_points_no_nav_map entries :
  Forall (fun c => ET.find_self
                     (ET.tag_is "{http://www.daisy.org/z3986/2005/ncx/}navMap")
                     c = None)
         (nav_points entries).
Proof.
  unfold nav_points.
  assert (forall k acc,
             Forall (fun c => ET.find_self
                                (ET.tag_is "{http://www.daisy.org/z3986/2005/ncx/}navMap")
                                c = None) acc ->
             Forall (fun c => ET.find_self
                                (ET.tag_is "{http://www.daisy.org/z3986/2005/ncx/}navMap")
                                c = None)
                    (snd (fold_left
                            (fun acc e =>
                               (fst acc + 1,
                                snd acc ++ [nav_point (fst acc) (fst e) (snd e)]))
                            entries (k, acc)))) as G.
  { induction entries as [|e es IH]; intros k acc Fa; simpl; [exact Fa|].
    apply IH. apply Forall_app. split; [exact Fa|]. now constructor. }
  apply G. constructor.
Qed.

Lemma ncx_entries_targets m chapter_files :
  map (fun e => Some (snd e)) (ncx_entries m chapter_files)
  = expected_targets m chapter_files.
Proof.
  unfold ncx_entries, expected_targets. rewrite map_app, map_map.
  now destruct (cover_item m).
Qed.

Section Navigation.

Context {lib : Libraries}.

Lemma update_nav_document_Some cd chapter_files fs soup' fs1 :
  update_nav_document cd chapter_files fs = (Ok (Some soup'), fs1) ->
  exists soup,
    Bs4.update toc_pattern (fill_toc (toc_entries (manifest cd) chapter_files))
               soup = Some soup'.
Proof.
  unfold update_nav_document.
  destruct (next_where _ (spine cd)) as [nav_id|]; [|discriminate].
  destruct (manifest_get nav_id (manifest cd)) as [nav_item|]; [|discriminate].
  intros E. apply iobind_Ok in E as (nav_content & fs0 & _ & E).
  destruct (Bs4.update toc_pattern _ (BeautifulSoup nav_content))
    as [soup''|] eqn:U; [|discriminate].
  apply iobind_Ok in E as ([] & fs0' & _ & E).
  injection E as <- _. eauto.
Qed.

Lemma update_ncx_document_Some cd chapter_files fs r' fs1 :
  update_ncx_document cd chapter_files fs = (Ok (Some r'), fs1) ->
  exists r p nav_map,
    find_nav_map r = Some (p, nav_map)
    /\ ET.update p (ET.set_children
                      (nav_points (ncx_entries (manifest cd) chapter_files))) r
       = Some r'.
Proof.
  unfold update_ncx_document.
  destruct (next_where _ (manifest cd)) as [[ncx_id ncx_item0]|];
    [|discriminate].
  destruct (negb (truthy ncx_id)); [discriminate|].
  destruct (manifest_get ncx_id (manifest cd)) as [ncx_item|]; [|discriminate].
  intros E. apply iobind_Ok in E as (r & fs0 & _ & E).
  destruct (find_nav_map r) as [[p nav_map]|] eqn:F; [|discriminate].
  destruct (ET.update p _ r) as [r''|] eqn:U; [|discriminate].
  apply iobind_Ok in E as ([] & fs0' & _ & E).
  injection E as <- _. eauto.
Qed.

Lemma toc_targets_after_update soup soup' m chapter_files :
  Bs4.update toc_pattern (fill_toc (toc_entries m chapter_files)) soup
  = Some soup' ->
  toc_targets soup' = expected_targets m chapter_files.
Proof.
  intros U. destruct (soup_update_Some _ _ _ _ U) as [nav F].
  destruct (soup_find_after_update
              toc_pattern (fill_toc (toc_entries m chapter_files))
              (keeps_name_fill_toc _) soup nav F) as (soup'' & U' & F').
  rewrite U in U'. injection U' as <-.
  unfold toc_targets. rewrite F'.
  destruct (soup_find_is_tag _ _ _ F) as (n & a & cs & -> & _).
  destruct (toc_list_after_fill (toc_entries m chapter_files) n a cs)
    as (ol & -> & ->).
  apply toc_entries_targets.
Qed.

Lemma ncx_targets_after_update r p nav_map r' m chapter_files :
  find_nav_map r = Some (p, nav_map) ->
  ET.update p (ET.set_children (nav_points (ncx_entries m chapter_files))) r
  = Some r' ->
  ncx_targets r' = expected_targets m chapter_files.
Proof.
  intros F U.
  destruct (find2_after_update
              "{http://www.daisy.org/z3986/2005/ncx/}navMap" "navMap"
              r p nav_map (nav_points (ncx_entries m chapter_files)))
    as (r'' & U' & F'); auto.
  - apply String.eqb_neq. reflexivity.
  - intros _. apply nav_points_no_nav_map.
  - rewrite U in U'. injection U' as <-.
    unfold ncx_targets. unfold find_nav_map. rewrite F'.
    rewrite children_set_children, nav_points_targets.
    apply ncx_entries_targets.
Qed.

(** C4 (amended). Whenever both updates are carried out, the href
    targets of the TOC list in the navigation document and the src
    targets of the navigation map in the NCX are the same sequence: the
    cover first when the manifest has an entry with href [cover.xhtml],
    then one target per chapter file in emission order. *)
Theorem navigation_targets_agree cd chapter_files fs soup' fs1 ncx' fs2 :
  update_nav_document cd chapter_files fs = (Ok (Some soup'), fs1) ->
  update_ncx_document cd chapter_files fs1 = (Ok (Some ncx'), fs2) ->
  toc_targets soup' = ncx_targets ncx'
  /\ toc_targets soup' = expected_targets (manifest cd) chapter_files.
Proof.
  intros Hnav Hncx.
  apply update_nav_document_Some in Hnav as (soup & U).
  apply update_ncx_document_Some in Hncx as (r & p & nav_map & F & U').
  rewrite (toc_targets_after_update _ _ _ _ U).
  rewrite (ncx_targets_after_update _ _ _ _ _ _ F U').
  split; reflexivity.
Qed.

End Navigation.

Lemma navigation_targets_agree_witness :
  update_nav_document (lib := Sample.book_lib) Sample.book_cd
                      Sample.book_chapter_files Sample.book_updated_fs
  = (Ok (Some Sample.book_new_nav), snd Sample.book_nav_run)
  /\ update_ncx_document (lib := Sample.book_lib) Sample.book_cd
                         Sample.book_chapter_files (snd Sample.book_nav_run)
     = (Ok (Some Sample.book_new_ncx), snd Sample.book_ncx_run)
  /\ toc_targets Sample.book_new_nav = ncx_targets Sample.book_new_ncx
  /\ toc_targets Sample.book_new_nav
     = [Some "cover.xhtml"; Some "ch_0.xhtml"; Some "ch_1.xhtml";
        Some "ch_2.xhtml"]%string.
Proof.
  assert (update_nav_document (lib := Sample.book_lib) Sample.book_cd
                              Sample.book_chapter_files Sample.book_updated_fs
          = (Ok (Some Sample.book_new_nav), snd Sample.book_nav_run)) as Hnav
      by (vm_compute; reflexivity).
  assert (update_ncx_document (lib := Sample.book_lib) Sample.book_cd
                              Sample.book_chapter_files (snd Sample.book_nav_run)
          = (Ok (Some Sample.book_new_ncx), snd Sample.book_ncx_run)) as Hncx
      by (vm_compute; reflexivity).
  destruct (navigation_targets_agree (lib := Sample.book_lib)
              _ _ _ _ _ _ _ Hnav Hncx) as [Hsame Hexp].
  split; [exact Hnav|]. split; [exact Hncx|]. split; [exact Hsame|].
  rewrite Hexp. reflexivity.
Defined.

(** C4 as worded fails on a package whose navigation document is in the
    manifest but not in the spine: the TOC update is skipped, so it
    emits nothing and the navigation document keeps its old list, while
    the NCX receives the new targets. *)
Lemma skipped_toc_update_disagrees_with_ncx :
  update_nav_document (lib := Sample.book_lib) Sample.nav_off_spine_cd
                      Sample.one_chapter_file Sample.nav_off_spine_fs
  = (Ok None, Sample.nav_off_spine_fs)
  /\ nav_emitted (written (update_nav_document
                             (lib := Sample.book_lib) Sample.nav_off_spine_cd
                             Sample.one_chapter_file Sample.nav_off_spine_fs))
     = []
  /\ toc_targets (@BeautifulSoup Sample.book_lib
                                 (Sample.render_soup Sample.nav_page))
     = [Some "c1.xhtml"%string]
  /\ ncx_emitted (written (update_ncx_document
                             (lib := Sample.book_lib) Sample.nav_off_spine_cd
                             Sample.one_chapter_file Sample.nav_off_spine_fs))
     = [Some "ch_0.xhtml"%string]
  /\ nav_emitted (written (update_nav_document
                             (lib := Sample.book_lib) Sample.nav_off_spine_cd
                             Sample.one_chapter_file Sample.nav_off_spine_fs))
     <> ncx_emitted (written (update_ncx_document
                                (lib := Sample.book_lib) Sample.nav_off_spine_cd
                                Sample.one_chapter_file Sample.nav_off_spine_fs)).
Proof.
  split; [vm_compute; reflexivity|].
  split; [vm_compute; reflexivity|].
  split; [vm_compute; reflexivity|].
  split; [vm_compute; reflexivity|].
  vm_compute. discriminate.
Qed.

(** *** The extraction directory *)

Section KeepsDir.

Variable d : string.

Lemma keeps_dir_ret {A} (a : A) : keeps_dir d (ret a).
Proof. intros fs r fs' H E. unfold ret in E. now injection E as _ <-. Qed.

Lemma keeps_dir_raise {A} (e : exn) : keeps_dir d (@raise A e).
Proof. intros fs r fs' H E. unfold raise in E. now injection E as _ <-. Qed.

Lemma keeps_dir_lift {A} (x : result A) : keeps_dir d (lift x).
Proof. intros fs r fs' H E. unfold lift in E. now injection E as _ <-. Qed.

Lemma keeps_dir_bind {A B} (m : io A) (k : A -> io B) :
  keeps_dir d m -> (forall a, keeps_dir d (k a)) -> keeps_dir d (iobind m k).
Proof.
  intros Hm Hk fs r fs' H E. unfold iobind in E.
  destruct (m fs) as [[a|e] fs1] eqn:M.
  - exact (Hk a _ _ _ (Hm _ _ _ H M) E).
  - injection E as _ <-. exact (Hm _ _ _ H M).
Qed.

Lemma keeps_dir_read_file p : keeps_dir d (read_file p).
Proof. intros fs r fs' H E. now apply read_file_state in E as ->. Qed.

Lemma keeps_dir_exists p : keeps_dir d (exists_ p).
Proof. intros fs r fs' H E. unfold exists_ in E. now injection E as _ <-. Qed.

Lemma keeps_dir_write_file p data : keeps_dir d (write_file p data).
Proof.
  intros fs r fs' H E. unfold write_file in E.
  destruct (String.eqb_spec d p) as [<-|N].
  - rewrite H in E. now injection E as _ <-.
  - assert (fs_get d (fs_set p (File data) fs) = Some Dir) as G.
    { rewrite fs_get_set. now destruct (String.eqb_spec d p). }
    destruct (fs_get p fs) as [[?|]|]; injection E as _ <-; assumption.
Qed.

Lemma keeps_dir_os_remove p : keeps_dir d (os_remove p).
Proof.
  intros fs r fs' H E. unfold os_remove in E.
  destruct (fs_get p fs) as [[data|]|] eqn:G; injection E as _ <-; auto.
  rewrite fs_get_del. destruct (String.eqb_spec d p) as [->|]; [|exact H].
  congruence.
Qed.

Lemma keeps_dir_try_except_pass (m : io unit) :
  keeps_dir d m -> keeps_dir d (try_except_pass m).
Proof.
  intros Hm fs r fs' H E. unfold try_except_pass in E.
  destruct (m fs) as [r1 fs1] eqn:M. injection E as _ <-.
  exact (Hm _ _ _ H M).
Qed.

Lemma keeps_dir_for_each {A} (l : list A) (body : A -> io unit) :
  (forall x, keeps_dir d (body x)) -> keeps_dir d (for_each l body).
Proof.
  intros Hb. induction l as [|x l IH]; simpl.
  - apply keeps_dir_ret.
  - apply keeps_dir_bind; auto.
Qed.

Lemma keeps_dir_walk p : keeps_dir d (walk p).
Proof. intros fs r fs' H E. unfold walk in E. now injection E as _ <-. Qed.

End KeepsDir.

(** One step of a syntax-directed proof that a computation keeps the
    directory. *)
Ltac keeps_dir_step :=
  cbv zeta;
  match goal with
  | |- keeps_dir _ (iobind _ _) => apply keeps_dir_bind; [|intros ?]
  | |- keeps_dir _ (ret _) => apply keeps_dir_ret
  | |- keeps_dir _ (raise _) => apply keeps_dir_raise
  | |- keeps_dir _ (lift _) => apply keeps_dir_lift
  | |- keeps_dir _ (read_file _) => apply keeps_dir_read_file
  | |- keeps_dir _ (write_file _ _) => apply keeps_dir_write_file
  | |- keeps_dir _ (exists_ _) => apply keeps_dir_exists
  | |- keeps_dir _ (os_remove _) => apply keeps_dir_os_remove
  | |- keeps_dir _ (walk _) => apply keeps_dir_walk
  | |- keeps_dir _ (try_except_pass _) => apply keeps_dir_try_except_pass
  | |- keeps_dir _ (for_each _ _) => apply keeps_dir_for_each; intros ?
  | |- keeps_dir _ (match ?x with _ => _ end) => destruct x
  end.

Section Cleanup.

Context {lib : Libraries}.
Variable d : string.

Lemma keeps_dir_parse_xml_file p : keeps_dir d (parse_xml_file p).
Proof. unfold parse_xml_file. repeat keeps_dir_step. Qed.

Lemma keeps_dir_find_content_opf e : keeps_dir d (find_content_opf e).
Proof.
  unfold find_content_opf. keeps_dir_step. keeps_dir_step. keeps_dir_step.
  keeps_dir_step. keeps_dir_step.
  - apply keeps_dir_parse_xml_file.
  - repeat keeps_dir_step.
Qed.

Lemma keeps_dir_parse_content_opf p : keeps_dir d (parse_content_opf p).
Proof.
  unfold parse_content_opf. keeps_dir_step.
  - apply keeps_dir_parse_xml_file.
  - keeps_dir_step.
Qed.

Lemma keeps_dir_segment_files items st : keeps_dir d (segment_files items st).
Proof.
  revert st. induction items as [|item items IH]; intros st; simpl.
  - apply keeps_dir_ret.
  - keeps_dir_step; [keeps_dir_step | apply IH].
Qed.

Lemma keeps_dir_find_chapter_boundaries cd :
  keeps_dir d (find_chapter_boundaries cd).
Proof.
  unfold find_chapter_boundaries. keeps_dir_step.
  - apply keeps_dir_segment_files.
  - keeps_dir_step.
Qed.

Lemma keeps_dir_remove_old_file m i : keeps_dir d (remove_old_file m i).
Proof. unfold remove_old_file. repeat keeps_dir_step. Qed.

Lemma keeps_dir_write_chapters head cd chs :
  keeps_dir d (write_chapters head cd chs).
Proof.
  induction chs as [|ch chs IH]; simpl.
  - apply keeps_dir_ret.
  - keeps_dir_step; [|keeps_dir_step].
    keeps_dir_step; [keeps_dir_step|].
    keeps_dir_step; [apply IH | keeps_dir_step].
Qed.

Lemma keeps_dir_create_chapter_files chs cd :
  keeps_dir d (create_chapter_files chs cd).
Proof.
  unfold create_chapter_files.
  keeps_dir_step; [keeps_dir_step|].
  keeps_dir_step; [|keeps_dir_step].
  keeps_dir_step; [keeps_dir_step|].
  keeps_dir_step.
  - keeps_dir_step. apply keeps_dir_remove_old_file.
  - apply keeps_dir_write_chapters.
Qed.

Lemma keeps_dir_update_content_opf cd chapter_files :
  keeps_dir d (update_content_opf cd chapter_files).
Proof. unfold update_content_opf. repeat keeps_dir_step. Qed.

Lemma keeps_dir_update_nav_document cd chapter_files :
  keeps_dir d (update_nav_document cd chapter_files).
Proof. unfold update_nav_document. repeat keeps_dir_step. Qed.

Lemma keeps_dir_update_ncx_document cd chapter_files :
  keeps_dir d (update_ncx_document cd chapter_files).
Proof.
  unfold update_ncx_document.
  keeps_dir_step; [|keeps_dir_step].
  keeps_dir_step. keeps_dir_step; [keeps_dir_step|].
  keeps_dir_step; [|keeps_dir_step].
  keeps_dir_step; [apply keeps_dir_parse_xml_file|].
  repeat keeps_dir_step.
Qed.

Lemma keeps_dir_rebuild_epub e output : keeps_dir d (rebuild_epub e output).
Proof. unfold rebuild_epub. repeat keeps_dir_step. Qed.

(** Once [makedirs] has run, the extraction directory is a directory
    whatever the archive holds, and stays one. *)
Lemma extract_epub_leaves_dir input fs r fs1 :
  (forall data, fs_get d fs <> Some (File data)) ->
  extract_epub input d fs = (r, fs1) ->
  fs_get d fs1 = Some Dir.
Proof.
  intros Hd E. unfold extract_epub in E. unfold iobind at 1 in E.
  assert (exists fs0, makedirs d fs = (Ok tt, fs0) /\ fs_get d fs0 = Some Dir)
    as (fs0 & M & H0).
  { unfold makedirs. destruct (fs_get d fs) as [[data|]|] eqn:G.
    - now destruct (Hd data).
    - eauto.
    - eexists. split; [reflexivity|].
      now rewrite fs_get_set, String.eqb_refl. }
  rewrite M in E. revert E. generalize H0. generalize fs0 r fs1.
  change (keeps_dir d
            (bytes <- read_file input ;;
             match zip_read bytes with
             | Some members =>
                 for_each members
                   (fun m => write_file (d ++ "/" ++ fst m) (snd m))
             | None => raise BadZipFile
             end)%io).
  repeat keeps_dir_step.
Qed.

Lemma pipeline_leaves_dir input output fs r fs1 :
  (forall data, fs_get d fs <> Some (File data)) ->
  pipeline input output d fs = (r, fs1) ->
  fs_get d fs1 = Some Dir.
Proof.
  intros Hd E. unfold pipeline in E. unfold iobind at 1 in E.
  destruct (extract_epub input d fs) as [[[]|e] fs0] eqn:X.
  - pose proof (extract_epub_leaves_dir _ _ _ _ Hd X) as H0.
    revert E. generalize H0. generalize fs0 r fs1.
    change (keeps_dir d
              (content_opf_path <- find_content_opf d ;;
               cd <- parse_content_opf content_opf_path ;;
               chs <- find_chapter_boundaries cd ;;
               chapter_files <- create_chapter_files chs cd ;;
               update_content_opf cd chapter_files ;;
               update_nav_document cd chapter_files ;;
               update_ncx_document cd chapter_files ;;
               rebuild_epub d output)%io).
    keeps_dir_step; [apply keeps_dir_find_content_opf|].
    keeps_dir_step; [apply keeps_dir_parse_content_opf|].
    keeps_dir_step; [apply keeps_dir_find_chapter_boundaries|].
    keeps_dir_step; [apply keeps_dir_create_chapter_files|].
    keeps_dir_step; [apply keeps_dir_update_content_opf|].
    keeps_dir_step; [apply keeps_dir_update_nav_document|].
    keeps_dir_step; [apply keeps_dir_update_ncx_document|].
    apply keeps_dir_rebuild_epub.
  - injection E as _ <-. exact (extract_epub_leaves_dir _ _ _ _ Hd X).
Qed.

Lemma rmtree_removes fs :
  fs_get d fs = Some Dir ->
  exists fs',
    rmtree d fs = (Ok tt, fs')
    /\ fs_get d fs' = None
    /\ (forall p, Path.below d p = true -> fs_get p fs' = None)
    /\ (forall p, String.eqb p d = false -> Path.below d p = false ->
                  fs_get p fs' = fs_get p fs).
Proof.
  intros H. unfold rmtree. rewrite H. eexists. split; [reflexivity|].
  repeat split.
  - rewrite (fs_get_filter (fun k => negb (String.eqb k d || Path.below d k))).
    now rewrite String.eqb_refl.
  - intros p Hp.
    rewrite (fs_get_filter (fun k => negb (String.eqb k d || Path.below d k))).
    now rewrite Hp, orb_true_r.
  - intros p H1 H2.
    rewrite (fs_get_filter (fun k => negb (String.eqb k d || Path.below d k))).
    now rewrite H1, H2.
Qed.

End Cleanup.

(** C8. Whatever the run does, once [main] returns the extraction
    directory and everything below it are gone, and the outcome is the
    one of the [try] block: a normal return, or the exception that
    stopped the pipeline.  The directory name is assumed not to be that
    of an existing regular file, which is what drawing a fresh name is
    for. *)
Theorem main_removes_extract_dir {lib : Libraries}
        input output d fs r fs' :
  (forall data, fs_get d fs <> Some (File data)) ->
  main input output d fs = (r, fs') ->
  r = fst (pipeline input output d fs)
  /\ fs_get d fs' = None
  /\ forall p, Path.below d p = true -> fs_get p fs' = None.
Proof.
  intros Hd E. unfold main, try_finally, clean_up in E.
  destruct (pipeline input output d fs) as [rb fs1] eqn:B.
  pose proof (pipeline_leaves_dir d _ _ _ _ _ Hd B) as H1.
  destruct (rmtree_removes d fs1 H1) as (fs2 & R & Hgone & Hbelow & _).
  rewrite R in E. injection E as <- <-. auto.
Qed.

Lemma main_removes_extract_dir_witness :
  (forall data, fs_get Sample.book_dir Sample.book_fs <> Some (File data))
  /\ fst (main (lib := Sample.book_lib) "book.epub" "out.epub"
               Sample.book_dir Sample.book_fs) = Ok tt
  /\ fs_get Sample.book_dir
            (snd (main (lib := Sample.book_lib) "book.epub" "out.epub"
                       Sample.book_dir Sample.book_fs)) = None
  /\ (forall p, Path.below Sample.book_dir p = true ->
                fs_get p (snd (main (lib := Sample.book_lib) "book.epub"
                                    "out.epub" Sample.book_dir Sample.book_fs))
                = None)
  /\ fst (main (lib := Sample.book_lib) "absent.epub" "out.epub"
               Sample.book_dir Sample.book_fs) = Raise FileNotFoundError
  /\ fs_get Sample.book_dir
            (snd (main (lib := Sample.book_lib) "absent.epub" "out.epub"
                       Sample.book_dir Sample.book_fs)) = None.
Proof.
  assert (forall data, fs_get Sample.book_dir Sample.book_fs <> Some (File data))
    as Hd by (intros data; vm_compute; discriminate).
  destruct (main_removes_extract_dir
              (lib := Sample.book_lib) "book.epub" "out.epub"
              Sample.book_dir Sample.book_fs _ _ Hd (surjective_pairing _))
    as (_ & Hgone & Hbelow).
  destruct (main_removes_extract_dir
              (lib := Sample.book_lib) "absent.epub" "out.epub"
              Sample.book_dir Sample.book_fs _ _ Hd (surjective_pairing _))
    as (_ & Hgone' & _).
  split; [exact Hd|].
  split; [vm_compute; reflexivity|].
  split; [exact Hgone|].
  split; [exact Hbelow|].
  split; [vm_compute; reflexivity | exact Hgone'].
Defined.

(** *** Headings that are siblings *)

Lemma find_all_self_Tag n n' a cs sibs :
  Bs4.find_all_self n (Bs4.Tag n' a cs) sibs
  = (if String.eqb n' n then [(Bs4.Tag n' a cs, sibs)] else [])
    ++ Bs4.find_all n cs.
Proof.
  simpl. f_equal. induction cs as [|c cs IH]; simpl; congruence.
Qed.







Section SiblingHeadings.

Context {lib : Libraries}.


End SiblingHeadings.

(** *** Flat documents: every kept node once, in order *)

Lemma siblings_until_from_first l :
  siblings_until_h1 l ++ from_first_h1 l = l.
Proof.
  induction l as [|x l IH]; simpl; [reflexivity|].
  destruct (Bs4.is_tag_named "h1" x); simpl; [reflexivity|]. now rewrite IH.
Qed.

Lemma find_all_flat_cons x r :
  Bs4.find_all "h1" (Bs4.contents x) = [] ->
  Bs4.find_all "h1" (x :: r)
  = (if Bs4.is_tag_named "h1" x then [(x, r)] else []) ++ Bs4.find_all "h1" r.
Proof.
  intros E. simpl. f_equal. destruct x as [s|n a cs]; [reflexivity|].
  rewrite find_all_self_Tag. simpl in *. rewrite E. apply app_nil_r.
Qed.

Lemma from_first_h1_nil body :
  flat body -> Bs4.find_all "h1" body = [] -> from_first_h1 body = [].
Proof.
  induction 1 as [|x r Hx _ IH]; [reflexivity|].
  rewrite (find_all_flat_cons x r Hx). simpl.
  destruct (Bs4.is_tag_named "h1" x); [discriminate|]. exact IH.
Qed.

Lemma from_first_h1_cons body h hs :
  flat body -> Bs4.find_all "h1" body = h :: hs -> from_first_h1 body <> [].
Proof.
  induction 1 as [|x r Hx _ IH]; [discriminate|].
  rewrite (find_all_flat_cons x r Hx). simpl.
  destruct (Bs4.is_tag_named "h1" x); [discriminate | exact IH].
Qed.

Section FlatDocuments.

Context {lib : Libraries}.

Lemma markup_flush st :
  settled st -> Py.join (map Chapter.content (flush st)) = markup st.
Proof.
  unfold settled, markup, flush. intros S.
  destruct (current_title st).
  - rewrite map_app, join_app. reflexivity.
  - rewrite (S eq_refl). simpl. now rewrite append_nil_r.
Qed.

Lemma markup_start_chapter st h :
  settled st ->
  markup (start_chapter st h)
  = (markup st
     ++ Py.join (map str_node (fst h :: siblings_until_h1 (snd h))))%string.
Proof.
  intros S. unfold markup at 1. simpl chapters. simpl current_content.
  now rewrite (markup_flush st S).
Qed.

Lemma settled_start_chapter st h : settled (start_chapter st h).
Proof. intros E. discriminate E. Qed.

Lemma markup_headings body :
  flat body ->
  forall st,
    settled st ->
    markup (fold_left start_chapter (Bs4.find_all "h1" body) st)
    = (markup st ++ Py.join (map str_node (from_first_h1 body)))%string
    /\ settled (fold_left start_chapter (Bs4.find_all "h1" body) st).
Proof.
  induction 1 as [|x r Hx _ IH]; intros st S.
  - simpl. split; [now rewrite append_nil_r | exact S].
  - rewrite (find_all_flat_cons x r Hx). simpl from_first_h1.
    destruct (Bs4.is_tag_named "h1" x); [|now apply IH].
    simpl. destruct (IH (start_chapter st (x, r)) (settled_start_chapter _ _))
      as [E S'].
    split; [|exact S'].
    rewrite E, markup_start_chapter by exact S. simpl fst. simpl snd.
    rewrite append_assoc, <- join_app, <- map_app.
    change (x :: siblings_until_h1 r) with ([x] ++ siblings_until_h1 r).
    rewrite <- app_assoc, siblings_until_from_first. reflexivity.
Qed.

Lemma is_open_headings hs st :
  is_open st = true -> is_open (fold_left start_chapter hs st) = true.
Proof.
  revert st. induction hs as [|h hs IH]; intros st O; simpl; [exact O|].
  now apply IH.
Qed.

Lemma markup_process_document st d :
  flat (body_of d) ->
  settled st ->
  markup (process_document st d)
  = (markup st ++ Py.join (kept_of (is_open st) (body_of d)))%string
  /\ settled (process_document st d)
  /\ is_open (process_document st d) = opens (is_open st) (body_of d).
Proof.
  intros F S. unfold process_document, kept_of, opens, is_open.
  destruct (Bs4.find_all "h1" (body_of d)) as [|h hs] eqn:E.
  - rewrite (from_first_h1_nil _ F E).
    destruct (current_title st) as [t|] eqn:T.
    + split; [|split].
      * unfold markup. simpl. rewrite join_app, join_single.
        now rewrite append_assoc.
      * intros N. simpl in N. congruence.
      * reflexivity.
    + split; [|split].
      * simpl. now rewrite append_nil_r.
      * exact S.
      * now rewrite T.
  - pose proof (from_first_h1_cons _ h hs F E) as N.
    destruct (markup_headings _ F st S) as [M S']. rewrite E in M, S'.
    destruct (from_first_h1 (body_of d)) as [|y l] eqn:L; [congruence|].
    repeat split; auto.
    simpl. apply (is_open_headings hs (start_chapter st h)). reflexivity.
Qed.

Lemma markup_segment docs :
  Forall (fun d => flat (body_of d)) docs ->
  forall st,
    settled st ->
    markup (fold_left process_document docs st)
    = (markup st ++ Py.join (kept_markup (is_open st) docs))%string
    /\ settled (fold_left process_document docs st).
Proof.
  induction 1 as [|d docs Fd _ IH]; intros st S; simpl.
  - split; [now rewrite append_nil_r | exact S].
  - destruct (markup_process_document st d Fd S) as (M & S' & O).
    destruct (IH _ S') as [E S'']. split; [|exact S''].
    rewrite E, M, O, append_assoc, <- join_app. reflexivity.
Qed.

(** On flat documents the chapter contents, put end to end in emission
    order, are the kept markup in document order: every kept node goes
    to one chapter, and to one only. *)
Lemma flat_documents_partition docs :
  Forall (fun d => flat (body_of d)) docs ->
  Py.join (map Chapter.content (emitted docs))
  = Py.join (kept_markup false docs).
Proof.
  intros F. unfold emitted, segment.
  assert (settled seg_init) as S by (intros _; reflexivity).
  destruct (markup_segment docs F seg_init S) as [M S'].
  rewrite (markup_flush _ S'), M. reflexivity.
Qed.

End FlatDocuments.

(** *** The loader: outcomes and the manifest dictionary *)

Lemma foldM_add_Ok dir items m0 :
  forallb has_href items = true ->
  exists m, foldM (add_manifest_entry dir) items m0 = Ok m.
Proof.
  revert m0. induction items as [|x items IH]; intros m0 H; simpl in *.
  - now exists m0.
  - apply andb_true_iff in H as [Hx H].
    unfold add_manifest_entry at 1. unfold has_href in Hx.
    destruct (ET.get x "href") as [h|]; [|discriminate]. simpl.
    apply IH, H.
Qed.

Lemma foldM_add_Raise dir items m0 :
  forallb has_href items = false ->
  foldM (add_manifest_entry dir) items m0 = Raise TypeError.
Proof.
  revert m0. induction items as [|x items IH]; intros m0 H; simpl in *.
  - discriminate.
  - unfold add_manifest_entry at 1. unfold has_href in H at 1.
    destruct (ET.get x "href") as [h|]; simpl in *; [|reflexivity].
    apply IH, H.
Qed.

Section Loader.

Context {lib : Libraries}.

(** X1. On a package document that can be read and parsed,
    [parse_content_opf] leaves the working tree alone and: raises
    [ValueError] when no manifest element is found; otherwise raises
    [TypeError] when some manifest item has no [href], wherever the item
    stands and before the spine is looked for; otherwise raises
    [ValueError] when no spine element is found; otherwise returns, with
    the parsed root and the directory of the document. *)
Theorem parse_content_opf_outcome p fs text r :
  fs_get p fs = Some (File text) ->
  ET_parse text = Some r ->
  snd (parse_content_opf p fs) = fs
  /\ match find_manifest_elem r with
     | None => fst (parse_content_opf p fs) = Raise ValueError
     | Some (_, manifest_elem) =>
         if forallb has_href (ET.children manifest_elem) then
           match find_spine_elem r with
           | None => fst (parse_content_opf p fs) = Raise ValueError
           | Some _ =>
               exists cd, fst (parse_content_opf p fs) = Ok cd
                          /\ root cd = r /\ opf_dir cd = Path.dirname p
           end
         else fst (parse_content_opf p fs) = Raise TypeError
     end.
Proof.
  intros F P.
  unfold parse_content_opf, parse_xml_file, iobind, read_file, lift, ret.
  rewrite F, P. simpl. split; [reflexivity|].
  unfold parse_root.
  destruct (find_manifest_elem r) as [[pm me]|]; [|reflexivity].
  destruct (forallb has_href (ET.children me)) eqn:H.
  - destruct (foldM_add_Ok (Path.dirname p) _ [] H) as [m ->]. simpl.
    destruct (find_spine_elem r) as [[ps se]|]; [|reflexivity].
    eexists. split; [reflexivity|]. split; reflexivity.
  - now rewrite (foldM_add_Raise _ _ _ H).
Qed.

End Loader.

Lemma find_app {A} (f : A -> bool) l1 l2 :
  List.find f (l1 ++ l2) =
  match List.find f l1 with Some x => Some x | None => List.find f l2 end.
Proof.
  induction l1 as [|x l1 IH]; simpl; [reflexivity|].
  destruct (f x); [reflexivity|exact IH].
Qed.

Lemma opt_eqb_sym a b : opt_eqb a b = opt_eqb b a.
Proof.
  destruct (opt_eqb_spec a b) as [E|N], (opt_eqb_spec b a) as [E'|N'];
    try reflexivity; congruence.
Qed.

Lemma manifest_get_fold dir items m0 m i :
  foldM (add_manifest_entry dir) items m0 = Ok m ->
  manifest_get i m =
  match last_item i items with
  | Some x => entry_of dir x
  | None => manifest_get i m0
  end.
Proof.
  revert m0. induction items as [|x items IH]; intros m0 H; simpl in H.
  - injection H as <-. reflexivity.
  - unfold add_manifest_entry in H at 1.
    destruct (ET.get x "href") as [h|] eqn:Hh; [|discriminate]. simpl in H.
    rewrite (IH _ H). unfold last_item. simpl List.rev. rewrite find_app.
    destruct (List.find _ (List.rev items)) as [y|]; [reflexivity|].
    simpl. unfold manifest_get. rewrite (dict_get_set _ opt_eqb_spec).
    rewrite (opt_eqb_sym (ET.get x "id") i).
    destruct (opt_eqb i (ET.get x "id")); [|reflexivity].
    unfold entry_of. now rewrite Hh.
Qed.

(** X2. The manifest dictionary [parse_content_opf] builds maps an
    identifier to the entry (href, media type,
    [os.path.join(opf_dir, href)]) of the last item element that carries
    it, and has no key besides the identifiers of the item elements. *)
Theorem manifest_holds_last_item dir r cd :
  parse_root dir r = Ok cd ->
  exists pm manifest_elem,
    find_manifest_elem r = Some (pm, manifest_elem)
    /\ forall i,
        manifest_get i (manifest cd) =
        match last_item i (ET.children manifest_elem) with
        | Some x => entry_of dir x
        | None => None
        end.
Proof.
  intros H. apply parse_root_Ok in H as (pm & me & ps & se & m & Hm & F & Hs & ->).
  exists pm, me. split; [exact Hm|]. intros i. simpl.
  now rewrite (manifest_get_fold _ _ _ _ i F).
Qed.

Lemma parse_content_opf_outcome_witness :
  fs_get Sample.book_opf_path Sample.extracted_fs
  = Some (File (Sample.xml_text Sample.book_package))
  /\ ET_parse (Libraries := Sample.book_lib) (Sample.xml_text Sample.book_package)
     = Some Sample.book_package
  /\ snd (parse_content_opf (lib := Sample.book_lib) Sample.book_opf_path
                            Sample.extracted_fs) = Sample.extracted_fs
  /\ exists cd,
      fst (parse_content_opf (lib := Sample.book_lib) Sample.book_opf_path
                             Sample.extracted_fs) = Ok cd
      /\ root cd = Sample.book_package
      /\ opf_dir cd = "temp_epub_0a1b2c3d/OEBPS".
Proof.
  assert (fs_get Sample.book_opf_path Sample.extracted_fs
          = Some (File (Sample.xml_text Sample.book_package))) as Hfile
      by (vm_compute; reflexivity).
  assert (ET_parse (Libraries := Sample.book_lib)
                   (Sample.xml_text Sample.book_package)
          = Some Sample.book_package) as Hparse by (vm_compute; reflexivity).
  destruct (parse_content_opf_outcome (lib := Sample.book_lib)
              _ _ _ _ Hfile Hparse) as [Hfs Hcase].
  split; [exact Hfile|]. split; [exact Hparse|]. split; [exact Hfs|].
  exact Hcase.
Defined.

Lemma manifest_holds_last_item_witness :
  parse_root "OEBPS" Sample.duplicate_id_package = Ok Sample.duplicate_id_cd
  /\ manifest_get (Some "c1") (manifest Sample.duplicate_id_cd)
     = Some (Item.mk "b.xhtml" (Some XHTML) "OEBPS/b.xhtml")
  /\ manifest_get (Some "c2") (manifest Sample.duplicate_id_cd) = None.
Proof.
  assert (parse_root "OEBPS" Sample.duplicate_id_package
          = Ok Sample.duplicate_id_cd) as Hparse by reflexivity.
  destruct (manifest_holds_last_item _ _ _ Hparse) as (pm & me & Fm & Hget).
  vm_compute in Fm. injection Fm as <- <-.
  split; [exact Hparse|]. split.
  - rewrite Hget. reflexivity.
  - rewrite Hget. reflexivity.
Defined.

(** *** The chapters and the headings *)

Section ChaptersAndHeadings.
Context {lib : Libraries}.






Lemma read_pages_Ok items fs :
  (exists pages, read_pages items fs = Ok pages) <-> Forall (readable fs) items.
Proof.
  induction items as [|it items IH]; simpl.
  - split; [constructor | now exists []].
  - unfold read_file at 1. split.
    + intros [pages H].
      destruct (fs_get (Item.full_path it) fs) as [[data|]|] eqn:G;
        simpl in H; try discriminate.
      constructor; [now exists data|].
      apply IH. destruct (read_pages items fs); [eauto|discriminate].
    + intros H. inversion H as [|? ? [data G] H']; subst. rewrite G. simpl.
      apply IH in H' as [pages ->]. simpl. eauto.
Qed.

Lemma read_pages_Raise items fs e :
  read_pages items fs = Raise e ->
  e = FileNotFoundError \/ e = IsADirectoryError.
Proof.
  induction items as [|it items IH]; simpl; [discriminate|].
  unfold read_file at 1.
  destruct (fs_get (Item.full_path it) fs) as [[data|]|]; simpl.
  - destruct (read_pages items fs) as [pages|e']; simpl; [discriminate|].
    intros E. injection E as <-. now apply IH.
  - intros E. injection E as <-. now right.
  - intros E. injection E as <-. now left.
Qed.

(** X4. [find_chapter_boundaries] only reads: whatever its outcome,
    it leaves the working tree as it was; it returns only if every
    content document of the spine is a regular file, and a content
    document that is missing or a directory makes it raise
    [FileNotFoundError] or [IsADirectoryError]. *)
Theorem find_chapter_boundaries_only_reads cd fs :
  snd (find_chapter_boundaries cd fs) = fs
  /\ (forall chs,
         fst (find_chapter_boundaries cd fs) = Ok chs ->
         Forall (readable fs) (content_files cd))
  /\ (forall item,
         In item (content_files cd) -> ~ readable fs item ->
         fst (find_chapter_boundaries cd fs) = Raise FileNotFoundError
         \/ fst (find_chapter_boundaries cd fs) = Raise IsADirectoryError).
Proof.
  rewrite find_chapter_boundaries_spec. split; [reflexivity|]. simpl.
  destruct (read_pages (content_files cd) fs) as [pages|e] eqn:R.
  - assert (Forall (readable fs) (content_files cd)) as F
        by (apply read_pages_Ok; eauto).
    split; [intros chs _; exact F|].
    intros item Hin N. exfalso. apply N.
    rewrite Forall_forall in F. now apply F.
  - split; [intros chs E; discriminate|].
    intros item _ _. destruct (read_pages_Raise _ _ _ R) as [->| ->]; auto.
Qed.

(** X5. In a package whose content documents have all their [h1]
    directly under the body, the chapters' markup, concatenated, is the
    markup the documents hold from their first heading on (and the whole
    body of a document without heading that follows an open chapter):
    nothing twice, nothing missing, nothing out of order. *)
Theorem flat_package_markup_is_partitioned cd fs chs fs' pages :
  find_chapter_boundaries cd fs = (Ok chs, fs') ->
  read_pages (content_files cd) fs = Ok pages ->
  Forall (fun d => flat (body_of d)) pages ->
  Py.join (map Chapter.content chs) = Py.join (kept_markup false pages).
Proof.
  rewrite find_chapter_boundaries_spec. intros E R F. rewrite R in E.
  injection E as <- _. apply flat_documents_partition, F.
Qed.

End ChaptersAndHeadings.


Lemma flat_package_markup_is_partitioned_witness :
  find_chapter_boundaries (lib := Sample.book_lib) Sample.book_cd
                          Sample.extracted_fs
  = (Ok Sample.book_chapters, Sample.extracted_fs)
  /\ read_pages (lib := Sample.book_lib) (content_files Sample.book_cd)
                Sample.extracted_fs
     = Ok [Sample.intro_page; Sample.parts_page]
  /\ Forall (fun d => flat (body_of d)) [Sample.intro_page; Sample.parts_page]
  /\ Py.join (map Chapter.content Sample.book_chapters)
     = ("<h1>Intro</h1><p>first</p><p>second</p>"
        ++ "<h1>Part One</h1><p>one</p><h1>Part Two</h1><p>two</p>")%string.
Proof.
  assert (find_chapter_boundaries (lib := Sample.book_lib) Sample.book_cd
                                  Sample.extracted_fs
          = (Ok Sample.book_chapters, Sample.extracted_fs)) as Hrun
      by (vm_compute; reflexivity).
  assert (read_pages (lib := Sample.book_lib) (content_files Sample.book_cd)
                     Sample.extracted_fs
          = Ok [Sample.intro_page; Sample.parts_page]) as Hread
      by (vm_compute; reflexivity).
  assert (Forall (fun d => flat (body_of d))
                 [Sample.intro_page; Sample.parts_page]) as Hflat
      by (repeat constructor).
  split; [exact Hrun|]. split; [exact Hread|]. split; [exact Hflat|].
  rewrite (flat_package_markup_is_partitioned (lib := Sample.book_lib)
             _ _ _ _ _ Hrun Hread Hflat).
  reflexivity.
Defined.


(** *** The chapter files *)

Lemma append_inj_l (a b c : string) : (a ++ b)%string = (a ++ c)%string -> b = c.
Proof. induction a as [|x a IH]; simpl; intros E; [exact E|]. injection E as E. auto. Qed.

Lemma length_append (a b : string) :
  String.length (a ++ b) = String.length a + String.length b.
Proof. induction a as [|x a IH]; simpl; congruence. Qed.

Lemma append_inj_r (a b s : string) : (a ++ s)%string = (b ++ s)%string -> a = b.
Proof.
  revert b. induction a as [|x a IH]; intros [|y b] E; simpl in E.
  - reflexivity.
  - apply (f_equal String.length) in E. simpl in E. rewrite length_append in E. lia.
  - apply (f_equal String.length) in E. simpl in E. rewrite length_append in E. lia.
  - injection E as -> E. f_equal. apply IH, E.
Qed.

Lemma join_inj d x y :
  Py.startswith x "/" = false -> Py.startswith y "/" = false ->
  Path.join d x = Path.join d y -> x = y.
Proof.
  unfold Path.join. intros -> ->.
  destruct (String.eqb d "" || Py.endswith_char d Path.sep); intros E.
  - eapply append_inj_l, E.
  - apply append_inj_l in E. now injection E.
Qed.

Lemma numbered_nth chs n ch :
  numbered chs -> nth_error chs n = Some ch -> Chapter.id ch = ch_id n.
Proof.
  unfold numbered. intros N Hn.
  assert (nth_error (map Chapter.id chs) n = Some (Chapter.id ch)) as H
      by (rewrite nth_error_map, Hn; reflexivity).
  rewrite N, nth_error_map in H.
  assert (n < length chs) as L by (apply nth_error_Some; rewrite Hn; discriminate).
  rewrite nth_error_seq in H.
  destruct (Nat.ltb_spec n (length chs)); [|lia].
  simpl in H. now injection H.
Qed.

Section ChapterFiles.
Context {lib : Libraries}.

Lemma chapter_paths_NoDup cd chs :
  numbered chs -> NoDup (map (chapter_path cd) chs).
Proof.
  unfold numbered. intros N.
  assert (map (chapter_path cd) chs
          = map (fun i => Path.join (opf_dir cd) (i ++ ".xhtml"))
                (map Chapter.id chs)) as -> by (now rewrite map_map).
  rewrite N, map_map.
  generalize 0 as k. generalize (length chs) as n. clear N.
  induction n as [|n IH]; intros k; simpl; constructor; [|apply IH].
  rewrite in_map_iff. intros (j & E & Hj).
  apply join_inj in E; [|reflexivity|reflexivity].
  apply (append_inj_r (ch_id j) (ch_id k)), ch_id_inj in E.
  apply in_seq in Hj. lia.
Qed.

Lemma write_chapters_shape head cd chs fs files fs' :
  write_chapters head cd chs fs = (Ok files, fs') ->
  files = map (chapter_file_of cd) chs.
Proof.
  revert fs files. induction chs as [|ch chs IH]; intros fs files H; simpl in H.
  - unfold ret in H. now injection H as <- _.
  - destruct (chapter_document head (manifest cd) ch) as [doc|];
      [|discriminate].
    apply iobind_Ok in H as ([] & fs1 & _ & H).
    apply iobind_Ok in H as (fl & fs2 & H & E).
    unfold ret in E. injection E as <- <-. simpl. f_equal. eapply IH, H.
Qed.

Lemma write_chapters_frame head cd chs fs r fs' q :
  write_chapters head cd chs fs = (r, fs') ->
  (forall ch, In ch chs -> chapter_path cd ch <> q) ->
  fs_get q fs' = fs_get q fs.
Proof.
  revert fs r. induction chs as [|ch chs IH]; intros fs r H N; simpl in H.
  - unfold ret in H. now injection H as _ <-.
  - destruct (chapter_document head (manifest cd) ch) as [doc|].
    + unfold iobind in H at 1.
      destruct (write_file _ _ fs) as [[[]|e] fs1] eqn:W.
      * apply write_file_Ok in W as [_ W].
        rewrite <- (W q) by (intros ->; now apply (N ch); [left|]).
        unfold iobind in H.
        destruct (write_chapters head cd chs fs1) as [[fl|e] fs2] eqn:R.
        -- unfold ret in H. injection H as _ <-.
           eapply IH; [exact R|]. intros c Hc. apply N. now right.
        -- injection H as _ <-.
           eapply IH; [exact R|]. intros c Hc. apply N. now right.
      * injection H as _ <-. unfold write_file in W.
        destruct (fs_get _ fs) as [[?|]|]; inversion W; subst; reflexivity.
    + unfold raise in H. now injection H as _ <-.
Qed.

Lemma write_chapters_written head cd chs fs files fs' :
  write_chapters head cd chs fs = (Ok files, fs') ->
  NoDup (map (chapter_path cd) chs) ->
  forall ch, In ch chs ->
    exists doc,
      chapter_document head (manifest cd) ch = Some doc
      /\ fs_get (chapter_path cd ch) fs' = Some (File (decode_contents doc)).
Proof.
  revert fs files. induction chs as [|c chs IH]; intros fs files H D ch Hin;
    [destruct Hin|].
  simpl in H. inversion D as [|? ? Dc D']; subst.
  destruct (chapter_document head (manifest cd) c) as [doc|] eqn:Doc;
    [|discriminate].
  apply iobind_Ok in H as ([] & fs1 & W & H).
  apply iobind_Ok in H as (fl & fs2 & H & E).
  unfold ret in E. injection E as _ <-.
  destruct Hin as [<-|Hin].
  - exists doc. split; [exact Doc|].
    rewrite (write_chapters_frame _ _ _ _ _ _ (chapter_path cd c) H).
    + apply write_file_Ok in W as [W _]. exact W.
    + intros c' Hc' E. apply Dc. rewrite <- E. now apply in_map.
  - eapply IH; eauto.
Qed.

(** What one round of the removal loop can do to a path. *)
Lemma remove_old_file_effect m i fs r fs' q :
  remove_old_file m i fs = (r, fs') ->
  fs_get q fs' = fs_get q fs
  \/ (fs_get q fs' = None
      /\ exists item, manifest_get i m = Some item
                      /\ Item.media_type item = Some XHTML
                      /\ is_old_content_file i item = Ok true
                      /\ Item.full_path item = q).
Proof.
  unfold remove_old_file.
  destruct (manifest_get i m) as [item|] eqn:G;
    [|unfold ret; intros E; injection E as _ <-; now left].
  destruct (opt_eqb_spec (Item.media_type item) (Some XHTML)) as [T|T];
    [|unfold ret; intros E; injection E as _ <-; now left].
  unfold iobind, lift.
  destruct (is_old_content_file i item) as [[|]|e] eqn:O;
    try (unfold ret; intros E; injection E as _ <-; now left);
    try (intros E; injection E as _ <-; now left).
  unfold exists_.
  destruct (fs_get (Item.full_path item) fs) as [[data|]|] eqn:F;
    try (unfold ret; intros E; injection E as _ <-; now left).
  - unfold try_except_pass, os_remove. rewrite F. intros E. injection E as _ <-.
    rewrite fs_get_del. destruct (String.eqb_spec q (Item.full_path item)) as [->|N].
    + right. split; [reflexivity|]. now exists item.
    + now left.
  - unfold try_except_pass, os_remove. rewrite F. intros E. injection E as _ <-.
    now left.
Qed.

Lemma remove_loop_effect m l fs r fs' q :
  for_each l (remove_old_file m) fs = (r, fs') ->
  fs_get q fs' = fs_get q fs
  \/ (fs_get q fs' = None
      /\ exists i item, In i l /\ manifest_get i m = Some item
                        /\ Item.media_type item = Some XHTML
                        /\ is_old_content_file i item = Ok true
                        /\ Item.full_path item = q).
Proof.
  revert fs r. induction l as [|i l IH]; intros fs r H; simpl in H.
  - unfold ret in H. injection H as _ <-. now left.
  - unfold iobind in H.
    destruct (remove_old_file m i fs) as [[[]|e] fs1] eqn:R.
    + destruct (IH _ _ H) as [E|(E & j & it & Hj & G & T & O & P)].
      * destruct (remove_old_file_effect _ _ _ _ _ q R)
          as [E1|(E1 & it & G & T & O & P)].
        -- left. congruence.
        -- right. split; [congruence|]. exists i, it. repeat split; auto. now left.
      * right. split; [exact E|]. exists j, it. repeat split; auto. now right.
    + injection H as _ <-.
      destruct (remove_old_file_effect _ _ _ _ _ q R)
        as [E1|(E1 & it & G & T & O & P)].
      * now left.
      * right. split; [exact E1|]. exists i, it. repeat split; auto. now left.
Qed.

(** A round on an old content document leaves no regular file at its
    path. *)
Lemma remove_old_file_removes m i item fs fs' :
  manifest_get i m = Some item ->
  Item.media_type item = Some XHTML ->
  is_old_content_file i item = Ok true ->
  remove_old_file m i fs = (Ok tt, fs') ->
  no_file (Item.full_path item) fs'.
Proof.
  intros G T O. unfold remove_old_file. rewrite G, T.
  assert (opt_eqb (Some XHTML) (Some XHTML) = true) as -> by reflexivity.
  unfold iobind, lift. rewrite O. unfold exists_.
  destruct (fs_get (Item.full_path item) fs) as [[data|]|] eqn:F.
  - unfold try_except_pass, os_remove. rewrite F. intros E. injection E as <-.
    intros d. rewrite fs_get_del, String.eqb_refl. discriminate.
  - unfold try_except_pass, os_remove. rewrite F. intros E. injection E as <-.
    intros d. rewrite F. discriminate.
  - unfold ret. intros E. injection E as <-. intros d. rewrite F. discriminate.
Qed.

Lemma remove_loop_removes m l fs fs' i item :
  for_each l (remove_old_file m) fs = (Ok tt, fs') ->
  In i l ->
  manifest_get i m = Some item ->
  Item.media_type item = Some XHTML ->
  is_old_content_file i item = Ok true ->
  no_file (Item.full_path item) fs'.
Proof.
  revert fs. induction l as [|j l IH]; intros fs H Hin G T O; [destruct Hin|].
  simpl in H. apply iobind_Ok in H as ([] & fs1 & R & H).
  destruct Hin as [->|Hin].
  - pose proof (remove_old_file_removes _ _ _ _ _ G T O R) as N.
    intros d.
    destruct (remove_loop_effect _ _ _ _ _ (Item.full_path item) H) as [E|[E _]];
      rewrite E; [apply N | discriminate].
  - eapply IH; eauto.
Qed.

Lemma create_chapter_files_Ok chs cd fs files fs' :
  create_chapter_files chs cd fs = (Ok files, fs') ->
  exists template_id rest template_item template fs1,
    spine cd = template_id :: rest
    /\ manifest_get template_id (manifest cd) = Some template_item
    /\ fs_get (Item.full_path template_item) fs = Some (File template)
    /\ for_each (spine cd) (remove_old_file (manifest cd)) fs = (Ok tt, fs1)
    /\ write_chapters (template_head template) cd chs fs1 = (Ok files, fs').
Proof.
  unfold create_chapter_files.
  destruct (spine cd) as [|i0 rest] eqn:S; [discriminate|].
  destruct (manifest_get i0 (manifest cd)) as [it0|] eqn:G; [|discriminate].
  intros H. apply iobind_Ok in H as (template & fs0 & R & H).
  pose proof (read_file_state _ _ _ _ R) as ->.
  unfold read_file in R.
  destruct (fs_get (Item.full_path it0) fs) as [[data|]|] eqn:F;
    try discriminate.
  injection R as ->.
  apply iobind_Ok in H as ([] & fs1 & L & H).
  exists i0, rest, it0, template, fs1. repeat split; auto.
Qed.

(** X7. The records [create_chapter_files] returns mirror the chapters
    it was given, in order: same identifier and title, href
    [<id>.xhtml], path [os.path.join(opf_dir, href)]. *)
Theorem chapter_files_mirror_chapters chs cd fs files fs' :
  create_chapter_files chs cd fs = (Ok files, fs') ->
  files = map (chapter_file_of cd) chs
  /\ map ChapterFile.id files = map Chapter.id chs
  /\ map ChapterFile.title files = map Chapter.title chs
  /\ Forall (fun f =>
               ChapterFile.href f = (ChapterFile.id f ++ ".xhtml")%string
               /\ ChapterFile.path f
                  = Path.join (opf_dir cd) (ChapterFile.href f)) files.
Proof.
  intros H. apply create_chapter_files_Ok in H
    as (i0 & rest & it0 & template & fs1 & _ & _ & _ & _ & W).
  apply write_chapters_shape in W as ->.
  split; [reflexivity|]. rewrite !map_map. simpl.
  split; [reflexivity|]. split; [reflexivity|].
  apply Forall_map, Forall_forall. intros ch _. split; reflexivity.
Qed.

(** X9. After a successful [create_chapter_files] no old content
    document of the spine (XHTML, not the cover, not named [nav] or
    [cover], not a chapter) is left as a regular file, unless a chapter
    was written to its path. *)
Theorem old_content_files_removed chs cd fs files fs' item :
  create_chapter_files chs cd fs = (Ok files, fs') ->
  old_content cd item ->
  (forall ch, In ch chs -> chapter_path cd ch <> Item.full_path item) ->
  no_file (Item.full_path item) fs'.
Proof.
  intros H (i & Hi & G & T & O) N. apply create_chapter_files_Ok in H
    as (i0 & rest & it0 & template & fs1 & _ & _ & _ & L & W).
  intros d. rewrite (write_chapters_frame _ _ _ _ _ _ _ W N).
  eapply remove_loop_removes; eauto.
Qed.

(** X10. Whatever its outcome, [create_chapter_files] changes no path
    but those of the old content documents (which it deletes) and the
    chapter paths (which it writes). *)
Theorem create_chapter_files_touches_only_package_files chs cd fs r fs' q :
  create_chapter_files chs cd fs = (r, fs') ->
  (forall item, old_content cd item -> Item.full_path item <> q) ->
  (forall ch, In ch chs -> chapter_path cd ch <> q) ->
  fs_get q fs' = fs_get q fs.
Proof.
  unfold create_chapter_files. intros H NS NC.
  destruct (spine cd) as [|i0 rest] eqn:S;
    [unfold raise in H; now injection H as _ <-|].
  destruct (manifest_get i0 (manifest cd)) as [it0|] eqn:G;
    [|unfold raise in H; now injection H as _ <-].
  unfold iobind in H at 1.
  destruct (read_file (Item.full_path it0) fs) as [[template|e] fs0] eqn:R;
    pose proof (read_file_state _ _ _ _ R) as ->;
    [|now injection H as _ <-].
  unfold iobind in H.
  destruct (for_each (i0 :: rest) (remove_old_file (manifest cd)) fs)
    as [[[]|e] fs1] eqn:L.
  - rewrite (write_chapters_frame _ _ _ _ _ _ _ H NC).
    destruct (remove_loop_effect _ _ _ _ _ q L)
      as [E|(_ & j & it & Hj & Gj & T & O & P)]; [exact E|].
    exfalso. apply (NS it); [|exact P]. exists j. rewrite S. repeat split; auto.
  - injection H as _ <-.
    destruct (remove_loop_effect _ _ _ _ _ q L)
      as [E|(_ & j & it & Hj & Gj & T & O & P)]; [exact E|].
    exfalso. apply (NS it); [|exact P]. exists j. rewrite S. repeat split; auto.
Qed.

(** X8. The chapter the segmenter returns at position [n] is written
    to [ch_<n>.xhtml] in the directory of the package document; the file
    holds the chapter's document, built with the [head] of the first
    spine document. *)
Theorem chapter_documents_written cd fs0 chs fs files fs' :
  find_chapter_boundaries cd fs0 = (Ok chs, fs) ->
  create_chapter_files chs cd fs = (Ok files, fs') ->
  exists template_id rest template_item template,
    spine cd = template_id :: rest
    /\ manifest_get template_id (manifest cd) = Some template_item
    /\ fs_get (Item.full_path template_item) fs = Some (File template)
    /\ forall n ch,
        nth_error chs n = Some ch ->
        exists doc,
          chapter_document (template_head template) (manifest cd) ch = Some doc
          /\ fs_get (Path.join (opf_dir cd) (ch_id n ++ ".xhtml")) fs'
             = Some (File (decode_contents doc)).
Proof.
  intros S H.
  assert (numbered chs) as N.
  { rewrite find_chapter_boundaries_spec in S.
    destruct (read_pages (content_files cd) fs0) as [pages|e]; [|discriminate].
    injection S as <- _. apply numbered_emitted. }
  apply create_chapter_files_Ok in H
    as (i0 & rest & it0 & template & fs1 & Sp & G & F & _ & W).
  exists i0, rest, it0, template. repeat split; auto.
  intros n ch Hn.
  rewrite <- (numbered_nth _ _ _ N Hn).
  apply (write_chapters_written _ _ _ _ _ _ W (chapter_paths_NoDup cd chs N)).
  eapply nth_error_In, Hn.
Qed.

(** X11. On a package whose content documents hold no [h1], the
    segmenter returns no chapter, and [create_chapter_files] then returns
    no file, deletes the old content documents and changes nothing
    else. *)
Theorem book_without_headings_is_emptied cd fs pages chs fs1 files fs2 :
  read_pages (content_files cd) fs = Ok pages ->
  headings pages = [] ->
  find_chapter_boundaries cd fs = (Ok chs, fs1) ->
  create_chapter_files chs cd fs1 = (Ok files, fs2) ->
  chs = [] /\ files = []
  /\ (forall item, old_content cd item -> no_file (Item.full_path item) fs2)
  /\ (forall q, (forall item, old_content cd item -> Item.full_path item <> q) ->
                fs_get q fs2 = fs_get q fs).
Proof.
  intros R Hh S H.
  rewrite find_chapter_boundaries_spec, R in S. injection S as <- <-.
  assert (emitted pages = []) as E.
  { apply length_zero_iff_nil. rewrite emitted_count, Hh. reflexivity. }
  rewrite E in *.
  apply create_chapter_files_Ok in H
    as (i0 & rest & it0 & template & fs1 & Sp & G & F & L & W).
  simpl in W. unfold ret in W. injection W as <- <-.
  split; [reflexivity|]. split; [reflexivity|]. split.
  - intros item (i & Hi & Gi & T & O). eapply remove_loop_removes; eauto.
  - intros q N.
    destruct (remove_loop_effect _ _ _ _ _ q L)
      as [Eq|(_ & j & it & Hj & Gj & T & O & P)]; [exact Eq|].
    exfalso. apply (N it); [|exact P]. exists j. repeat split; auto.
Qed.

End ChapterFiles.

Lemma chapter_files_mirror_chapters_witness :
  create_chapter_files (lib := Sample.book_lib) Sample.book_chapters
                       Sample.book_cd Sample.extracted_fs
  = (Ok Sample.book_chapter_files, Sample.book_chapters_fs)
  /\ map ChapterFile.id Sample.book_chapter_files = ["ch_0"; "ch_1"; "ch_2"]
  /\ map ChapterFile.title Sample.book_chapter_files
     = ["Intro"; "Part One"; "Part Two"].
Proof.
  assert (create_chapter_files (lib := Sample.book_lib) Sample.book_chapters
                               Sample.book_cd Sample.extracted_fs
          = (Ok Sample.book_chapter_files, Sample.book_chapters_fs)) as Hrun
      by (vm_compute; reflexivity).
  destruct (chapter_files_mirror_chapters (lib := Sample.book_lib)
              _ _ _ _ _ Hrun) as (_ & Hid & Htitle & _).
  split; [exact Hrun|]. split; [exact Hid|exact Htitle].
Defined.

Lemma chapter_documents_written_witness :
  find_chapter_boundaries (lib := Sample.book_lib) Sample.book_cd
                          Sample.extracted_fs
  = (Ok Sample.book_chapters, Sample.extracted_fs)
  /\ create_chapter_files (lib := Sample.book_lib) Sample.book_chapters
                          Sample.book_cd Sample.extracted_fs
     = (Ok Sample.book_chapter_files, Sample.book_chapters_fs)
  /\ exists doc,
      chapter_document
        (lib := Sample.book_lib)
        (template_head (lib := Sample.book_lib)
                       (Sample.render_soup Sample.cover_page))
        (manifest Sample.book_cd)
        (Chapter.mk "Part One" "<h1>Part One</h1><p>one</p>" "ch_1")
      = Some doc
      /\ fs_get "temp_epub_0a1b2c3d/OEBPS/ch_1.xhtml" Sample.book_chapters_fs
         = Some (File (decode_contents (Libraries := Sample.book_lib) doc)).
Proof.
  assert (find_chapter_boundaries (lib := Sample.book_lib) Sample.book_cd
                                  Sample.extracted_fs
          = (Ok Sample.book_chapters, Sample.extracted_fs)) as Hseg
      by (vm_compute; reflexivity).
  assert (create_chapter_files (lib := Sample.book_lib) Sample.book_chapters
                               Sample.book_cd Sample.extracted_fs
          = (Ok Sample.book_chapter_files, Sample.book_chapters_fs)) as Hrun
      by (vm_compute; reflexivity).
  destruct (chapter_documents_written (lib := Sample.book_lib)
              _ _ _ _ _ _ Hseg Hrun)
    as (i0 & rest & it0 & template & Hsp & Hget & Hfile & Hall).
  vm_compute in Hsp. injection Hsp as <- <-.
  vm_compute in Hget. injection Hget as <-.
  vm_compute in Hfile. injection Hfile as <-.
  split; [exact Hseg|]. split; [exact Hrun|].
  exact (Hall 1 (Chapter.mk "Part One" "<h1>Part One</h1><p>one</p>" "ch_1")
              eq_refl).
Defined.

Lemma old_content_files_removed_witness :
  create_chapter_files (lib := Sample.book_lib) Sample.book_chapters
                       Sample.book_cd Sample.extracted_fs
  = (Ok Sample.book_chapter_files, Sample.book_chapters_fs)
  /\ old_content Sample.book_cd
                 (Item.mk "c1.xhtml" (Some XHTML) "temp_epub_0a1b2c3d/OEBPS/c1.xhtml")
  /\ fs_get "temp_epub_0a1b2c3d/OEBPS/c1.xhtml" Sample.extracted_fs
     = Some (File (Sample.render_soup Sample.intro_page))
  /\ no_file "temp_epub_0a1b2c3d/OEBPS/c1.xhtml" Sample.book_chapters_fs.
Proof.
  assert (create_chapter_files (lib := Sample.book_lib) Sample.book_chapters
                               Sample.book_cd Sample.extracted_fs
          = (Ok Sample.book_chapter_files, Sample.book_chapters_fs)) as Hrun
      by (vm_compute; reflexivity).
  assert (old_content Sample.book_cd
                      (Item.mk "c1.xhtml" (Some XHTML)
                               "temp_epub_0a1b2c3d/OEBPS/c1.xhtml")) as Hold.
  { exists (Some "c1"). split; [vm_compute; tauto|]. repeat split. }
  split; [exact Hrun|]. split; [exact Hold|].
  split; [vm_compute; reflexivity|].
  apply (old_content_files_removed (lib := Sample.book_lib) _ _ _ _ _ _ Hrun Hold).
  intros ch [<-|[<-|[<-|[]]]]; vm_compute; discriminate.
Defined.

Lemma create_chapter_files_touches_only_package_files_witness :
  fs_get "temp_epub_0a1b2c3d/OEBPS/cover.xhtml" Sample.book_chapters_fs
  = fs_get "temp_epub_0a1b2c3d/OEBPS/cover.xhtml" Sample.extracted_fs
  /\ fs_get "temp_epub_0a1b2c3d/OEBPS/cover.xhtml" Sample.extracted_fs
     = Some (File (Sample.render_soup Sample.cover_page)).
Proof.
  split; [|vm_compute; reflexivity].
  apply (create_chapter_files_touches_only_package_files
           (lib := Sample.book_lib) Sample.book_chapters Sample.book_cd
           Sample.extracted_fs
           (fst (create_chapter_files (lib := Sample.book_lib)
                   Sample.book_chapters Sample.book_cd Sample.extracted_fs))).
  - apply surjective_pairing.
  - intros item (i & Hi & G & T & O) E.
    vm_compute in Hi.
    destruct Hi as [<-|[<-|[<-|[<-|[]]]]]; vm_compute in G;
      injection G as <-; vm_compute in O; discriminate.
  - intros ch [<-|[<-|[<-|[]]]]; vm_compute; discriminate.
Defined.

Lemma book_without_headings_is_emptied_witness :
  read_pages (lib := Sample.plain_lib) (content_files Sample.one_page_cd)
             Sample.plain_fs = Ok [Sample.plain_page]
  /\ headings [Sample.plain_page] = []
  /\ find_chapter_boundaries (lib := Sample.plain_lib) Sample.one_page_cd
                             Sample.plain_fs = (Ok [], Sample.plain_fs)
  /\ create_chapter_files (lib := Sample.plain_lib) [] Sample.one_page_cd
                          Sample.plain_fs = (Ok [], [])
  /\ no_file "OEBPS/c1.xhtml" [].
Proof.
  assert (read_pages (lib := Sample.plain_lib) (content_files Sample.one_page_cd)
                     Sample.plain_fs = Ok [Sample.plain_page]) as Hread
      by (vm_compute; reflexivity).
  assert (headings [Sample.plain_page] = []) as Hnone by reflexivity.
  assert (find_chapter_boundaries (lib := Sample.plain_lib) Sample.one_page_cd
                                  Sample.plain_fs = (Ok [], Sample.plain_fs))
    as Hseg by (vm_compute; reflexivity).
  assert (create_chapter_files (lib := Sample.plain_lib) [] Sample.one_page_cd
                               Sample.plain_fs = (Ok [], [])) as Hrun
      by (vm_compute; reflexivity).
  destruct (book_without_headings_is_emptied (lib := Sample.plain_lib)
              _ _ _ _ _ _ _ Hread Hnone Hseg Hrun) as (_ & _ & Hgone & _).
  split; [exact Hread|]. split; [exact Hnone|]. split; [exact Hseg|].
  split; [exact Hrun|].
  apply (Hgone (Item.mk "c1.xhtml" (Some XHTML) "OEBPS/c1.xhtml")).
  exists (Some "c1"). split; [now left|]. repeat split.
Defined.

(** *** The manifest element after [update_content_opf] *)

Lemma update_first_split {A} (g : A -> option A) l l' :
  update_first g l = Some l' ->
  exists pre x x' post,
    l = pre ++ x :: post /\ l' = pre ++ x' :: post /\ g x = Some x'
    /\ Forall (fun y => g y = None) pre.
Proof.
  revert l'. induction l as [|a l IH]; intros l' H; simpl in H; [discriminate|].
  destruct (g a) as [a'|] eqn:G.
  - injection H as <-. exists [], a, a', l. repeat split; auto.
  - destruct (update_first g l) as [l0|] eqn:U; [|discriminate].
    injection H as <-.
    destruct (IH _ eq_refl) as (pre & x & x' & post & -> & -> & Gx & F).
    exists (a :: pre), x, x', post. repeat split; auto.
Qed.

Lemma put_chapter_item_cases items ch :
  (exists pre x post,
      items = pre ++ x :: post
      /\ ET.get x "id" = Some (ChapterFile.id ch)
      /\ put_chapter_item items ch
         = pre ++ ET.set "media-type" XHTML
                         (ET.set "href" (ChapterFile.href ch) x) :: post)
  \/ put_chapter_item items ch = items ++ [chapter_manifest_item ch].
Proof.
  unfold put_chapter_item.
  destruct (update_first _ items) as [items'|] eqn:U; [left|now right].
  apply update_first_split in U as (pre & x & x' & post & -> & -> & G & _).
  destruct (opt_eqb_spec (ET.get x "id") (Some (ChapterFile.id ch))) as [E|];
    [|discriminate].
  injection G as <-. exists pre, x, post. repeat split; auto.
Qed.

Lemma registers_updated x ch :
  ET.get x "id" = Some (ChapterFile.id ch) ->
  registers (ET.set "media-type" XHTML (ET.set "href" (ChapterFile.href ch) x)) ch.
Proof.
  intros E. unfold registers. rewrite !get_set. simpl. repeat split; auto.
Qed.

Lemma put_chapter_item_registers items ch :
  exists y, In y (put_chapter_item items ch) /\ registers y ch.
Proof.
  destruct (put_chapter_item_cases items ch)
    as [(pre & x & post & -> & E & ->)| ->].
  - eexists. split; [apply in_or_app; right; left; reflexivity|].
    now apply registers_updated.
  - exists (chapter_manifest_item ch). split; [apply in_or_app; right; now left|].
    repeat split.
Qed.

Lemma put_chapter_item_keeps items ch x :
  In x items -> ET.get x "id" <> Some (ChapterFile.id ch) ->
  In x (put_chapter_item items ch).
Proof.
  intros Hx N.
  destruct (put_chapter_item_cases items ch)
    as [(pre & y & post & -> & E & ->)| ->].
  - apply in_app_or in Hx as [Hx|[<-|Hx]].
    + apply in_or_app. now left.
    + congruence.
    + apply in_or_app. right. now right.
  - apply in_or_app. now left.
Qed.

Lemma put_chapter_item_origin items ch y :
  In y (put_chapter_item items ch) ->
  In y items \/ ET.get y "id" = Some (ChapterFile.id ch).
Proof.
  destruct (put_chapter_item_cases items ch)
    as [(pre & x & post & -> & E & ->)| ->]; intros Hy.
  - apply in_app_or in Hy as [Hy|[<-|Hy]].
    + left. apply in_or_app. now left.
    + right. now apply registers_updated.
    + left. apply in_or_app. right. now right.
  - apply in_app_or in Hy as [Hy|[<-|[]]]; [now left|now right].
Qed.

Lemma fold_put_keeps chapter_files items x :
  In x items -> ~ In (ET.get x "id") (chapter_ids chapter_files) ->
  In x (fold_left put_chapter_item chapter_files items).
Proof.
  revert items. induction chapter_files as [|ch l IH]; intros items Hx N; simpl.
  - exact Hx.
  - apply IH.
    + apply put_chapter_item_keeps; [exact Hx|]. intros E. apply N. now left.
    + intros H. apply N. now right.
Qed.

Lemma fold_put_origin chapter_files items y :
  In y (fold_left put_chapter_item chapter_files items) ->
  In y items \/ In (ET.get y "id") (chapter_ids chapter_files).
Proof.
  revert items. induction chapter_files as [|ch l IH]; intros items Hy; simpl in *.
  - now left.
  - apply IH in Hy as [Hy|Hy]; [|right; now right].
    apply put_chapter_item_origin in Hy as [Hy|Hy]; [now left|].
    right. left. now symmetry.
Qed.

Lemma fold_put_registers chapter_files items :
  NoDup (map ChapterFile.id chapter_files) ->
  forall ch, In ch chapter_files ->
    exists y, In y (fold_left put_chapter_item chapter_files items)
              /\ registers y ch.
Proof.
  revert items. induction chapter_files as [|c l IH]; intros items D ch Hch;
    [destruct Hch|].
  simpl in D. inversion D as [|? ? Dc D']; subst. simpl.
  destruct Hch as [<-|Hch]; [|now apply IH].
  destruct (put_chapter_item_registers items c) as (y & Hy & R).
  exists y. split; [|exact R].
  apply fold_put_keeps; [exact Hy|].
  destruct R as (E & _). rewrite E. unfold chapter_ids. rewrite in_map_iff.
  intros (c2 & E2 & H2). injection E2 as E2. apply Dc. rewrite <- E2.
  now apply in_map.
Qed.

Section PackageDocument.
Context {lib : Libraries}.

(** Where the two elements are found once [update_content_opf] has run
    on a document that keeps its manifest and its spine apart. *)
Lemma updated_root_lookups cd chapter_files r2 :
  updated_root cd chapter_files = Ok r2 ->
  separate (root cd) ->
  exists pm me ps se items' refs',
    find_manifest_elem (root cd) = Some (pm, me)
    /\ find_spine_elem (root cd) = Some (ps, se)
    /\ update_manifest_children (ET.children me) chapter_files = Ok items'
    /\ update_spine_children (manifest cd) (ET.children se) chapter_files
       = Ok refs'
    /\ find_manifest_elem r2 = Some (pm, ET.set_children items' me)
    /\ find_spine_elem r2 = Some (ps, ET.set_children refs' se).
Proof.
  intros E Sep. apply updated_root_Ok in E
    as (pm & me & items' & root1 & ps & se & refs' & Fm & I & U1 & Fs & R & U2).
  pose proof (spine_lookup_after_manifest_step
                (root cd) pm me (ET.children me) chapter_files items' root1
                Sep Fm I eq_refl U1) as Fs1.
  rewrite Fs in Fs1. symmetry in Fs1.
  destruct Sep as [Sm Ss].
  pose proof (manifest_lookup_after_manifest_step _ _ _ _ _ _ Fm I U1) as Fm1.
  assert (nothing_below [opf "spine"; "spine"%string]
                        (ET.set_children items' me)) as Hme.
  { apply nothing_below_free. rewrite children_set_children.
    apply (update_manifest_children_Forall
             (free_of [opf "spine"; "spine"%string]) (ET.children me)
             chapter_files); auto.
    - intros k v e. apply free_of_set.
    - intros ch. apply free_of_chapter_manifest_item.
      unfold structural_tags. intros x [<-|[<-|[]]]; simpl; auto.
    - apply nothing_below_free. now apply (Sm pm). }
  pose proof (manifest_lookup_after_spine_step
                _ _ _ _ _ _ _ _ _ Fm1 Fs (Ss _ _ Fs1) Hme R U2) as Fm2.
  pose proof (spine_lookup_after_spine_step _ _ _ _ _ _ _ Fs R U2) as Fs2.
  exists pm, me, ps, se, items', refs'. repeat split; auto.
Qed.

(** X12. After [update_content_opf] on a document whose manifest and
    spine are not nested, the manifest element holds every item that was
    no old content document and whose identifier is no chapter's,
    unchanged; it holds nothing but such items and items with a
    chapter's identifier; and, the chapter identifiers being distinct,
    it holds for each chapter an item with the chapter's identifier and
    href and the XHTML media type. *)
Theorem manifest_after_update cd chapter_files fs r' fs' :
  update_content_opf cd chapter_files fs = (Ok r', fs') ->
  separate (root cd) ->
  exists pm me me',
    find_manifest_elem (root cd) = Some (pm, me)
    /\ find_manifest_elem r' = Some (pm, me')
    /\ (forall x, In x (ET.children me) ->
                  is_old_manifest_item x = Ok false ->
                  ~ In (ET.get x "id") (chapter_ids chapter_files) ->
                  In x (ET.children me'))
    /\ (forall y, In y (ET.children me') ->
                  In (ET.get y "id") (chapter_ids chapter_files)
                  \/ (In y (ET.children me) /\ is_old_manifest_item y = Ok false))
    /\ (NoDup (map ChapterFile.id chapter_files) ->
        forall ch, In ch chapter_files ->
                   exists y, In y (ET.children me') /\ registers y ch).
Proof.
  intros E Sep. apply update_content_opf_Ok in E as [E _].
  apply updated_root_lookups in E
    as (pm & me & ps & se & items' & refs' & Fm & Fs & I & R & Fm2 & Fs2);
    [|exact Sep].
  exists pm, me, (ET.set_children items' me).
  rewrite children_set_children.
  unfold update_manifest_children in I.
  apply bind_Ok in I as (kept & K & I). injection I as <-.
  apply remove_flagged_Ok in K as [_ ->].
  split; [exact Fm|]. split; [exact Fm2|]. split; [|split].
  - intros x Hx O N. apply fold_put_keeps; [|exact N].
    apply filter_In. split; [exact Hx|]. now rewrite O.
  - intros y Hy. apply fold_put_origin in Hy as [Hy|Hy]; [right|now left].
    apply filter_In in Hy as [Hy O]. split; [exact Hy|].
    destruct (is_old_manifest_item y) as [[|]|]; try discriminate. reflexivity.
  - intros D ch Hch. now apply fold_put_registers.
Qed.

End PackageDocument.

Lemma manifest_after_update_witness :
  update_content_opf (lib := Sample.book_lib) Sample.book_cd
                     Sample.book_chapter_files Sample.extracted_fs
  = (Ok Sample.book_new_root, Sample.book_updated_fs)
  /\ separate (root Sample.book_cd)
  /\ option_map (fun pe => item_ids (ET.children (snd pe)))
                (find_manifest_elem Sample.book_new_root)
     = Some [Some "cover"; Some "nav"; Some "ncx";
             Some "ch_0"; Some "ch_1"; Some "ch_2"]
  /\ exists pm me me',
      find_manifest_elem (root Sample.book_cd) = Some (pm, me)
      /\ find_manifest_elem Sample.book_new_root = Some (pm, me')
      /\ forall ch, In ch Sample.book_chapter_files ->
                    exists y, In y (ET.children me') /\ registers y ch.
Proof.
  assert (update_content_opf (lib := Sample.book_lib) Sample.book_cd
                             Sample.book_chapter_files Sample.extracted_fs
          = (Ok Sample.book_new_root, Sample.book_updated_fs)) as Hupd
      by (vm_compute; reflexivity).
  assert (separate (root Sample.book_cd)) as Hsep by apply book_package_separate.
  destruct (manifest_after_update (lib := Sample.book_lib) _ _ _ _ _ Hupd Hsep)
    as (pm & me & me' & Fm & Fm' & _ & _ & Hreg).
  split; [exact Hupd|]. split; [exact Hsep|].
  split; [vm_compute; reflexivity|].
  exists pm, me, me'. split; [exact Fm|]. split; [exact Fm'|].
  apply Hreg. vm_compute. repeat constructor; simpl; intuition discriminate.
Defined.


(** *** Loading the written package document again *)

Lemma foldM_add_has_href dir items m0 m :
  foldM (add_manifest_entry dir) items m0 = Ok m ->
  forallb has_href items = true.
Proof.
  intros H. destruct (forallb has_href items) eqn:F; [reflexivity|].
  rewrite (foldM_add_Raise _ _ _ F) in H. discriminate.
Qed.

Lemma has_href_set k v e : has_href e = true -> has_href (ET.set k v e) = true.
Proof.
  unfold has_href. rewrite get_set. now destruct (String.eqb "href" k).
Qed.

Lemma last_item_Some i items :
  In i (item_ids items) ->
  exists x, last_item i items = Some x /\ In x items.
Proof.
  intros H. unfold item_ids in H. apply in_map_iff in H as (x & E & Hx).
  unfold last_item.
  destruct (List.find _ (List.rev items)) as [y|] eqn:F.
  - exists y. split; [reflexivity|].
    apply find_some in F as [F _]. now apply in_rev.
  - pose proof (find_none _ _ F x) as N. simpl in N.
    rewrite <- in_rev in N. specialize (N Hx). rewrite E in N.
    destruct (opt_eqb_spec i i); congruence.
Qed.

Lemma filter_all {A} (f : A -> bool) l :
  Forall (fun x => f x = true) l -> filter f l = l.
Proof.
  induction 1 as [|x l Hx _ IH]; simpl; [reflexivity|]. now rewrite Hx, IH.
Qed.

Section Reloading.
Context {lib : Libraries}.

(** X13. The document [update_content_opf] writes can be loaded
    again, and the loader then finds every chapter in the manifest and,
    as one block in emission order, in the spine. *)
Theorem updated_package_parses dir r cd chapter_files fs r' fs' :
  parse_root dir r = Ok cd ->
  separate r ->
  update_content_opf cd chapter_files fs = (Ok r', fs') ->
  exists cd',
    parse_root dir r' = Ok cd'
    /\ (forall ch, In ch chapter_files ->
                   dict_mem opt_eqb (Some (ChapterFile.id ch)) (manifest cd') = true)
    /\ exists pre post, spine cd' = pre ++ chapter_ids chapter_files ++ post.
Proof.
  intros P Sep E. apply update_content_opf_Ok in E as [E _].
  apply parse_root_Ok in P as (pm0 & me0 & ps0 & se0 & m & Fm0 & Hm & Fs0 & ->).
  apply updated_root_lookups in E
    as (pm & me & ps & se & items' & refs' & Fm & Fs & I & R & Fm2 & Fs2);
    [|exact Sep].
  simpl in Fm, Fs, R. rewrite Fm0 in Fm. injection Fm as <- <-.
  rewrite Fs0 in Fs. injection Fs as <- <-.
  assert (Forall (fun x => has_href x = true) items') as Hh.
  { apply (update_manifest_children_Forall
             (fun x => has_href x = true) (ET.children me0) chapter_files).
    - intros k v e. apply has_href_set.
    - reflexivity.
    - apply Forall_forall, forallb_forall. eapply foldM_add_has_href, Hm.
    - exact I. }
  assert (forallb has_href items' = true) as Hb.
  { apply forallb_forall. now apply Forall_forall. }
  destruct (foldM_add_Ok dir items' [] Hb) as [m' Hm'].
  assert (forall ch, In ch chapter_files ->
                     dict_mem opt_eqb (Some (ChapterFile.id ch)) m' = true) as Mem.
  { intros ch Hch. unfold dict_mem.
    change (dict_get opt_eqb (Some (ChapterFile.id ch)) m')
      with (manifest_get (Some (ChapterFile.id ch)) m').
    rewrite (manifest_get_fold _ _ _ _ _ Hm').
    unfold update_manifest_children in I.
    apply bind_Ok in I as (kept & K & I). injection I as <-.
    destruct (item_ids_fold_put kept chapter_files) as [_ Hin].
    destruct (last_item_Some _ _ (Hin ch Hch)) as (x & -> & Hx).
    rewrite Forall_forall in Hh. specialize (Hh x Hx).
    unfold has_href in Hh. unfold entry_of.
    now destruct (ET.get x "href"). }
  exists (mk_content_data r' m' (parse_spine m' refs') dir).
  split; [|split].
  - unfold parse_root. rewrite Fm2, children_set_children, Hm'. simpl.
    now rewrite Fs2, children_set_children.
  - exact Mem.
  - simpl. destruct (update_spine_children_spec _ _ _ _ R)
      as (pre & post & -> & _).
    unfold parse_spine. rewrite !map_app, !filter_app, map_map. simpl.
    eexists. eexists. f_equal. f_equal.
    apply filter_all. unfold chapter_ids.
    apply Forall_map, Forall_forall. intros ch Hch. now apply Mem.
Qed.

End Reloading.

Lemma updated_package_parses_witness :
  parse_root "temp_epub_0a1b2c3d/OEBPS" Sample.book_package = Ok Sample.book_cd
  /\ separate Sample.book_package
  /\ update_content_opf (lib := Sample.book_lib) Sample.book_cd
                        Sample.book_chapter_files Sample.extracted_fs
     = (Ok Sample.book_new_root, Sample.book_updated_fs)
  /\ exists cd',
      parse_root "temp_epub_0a1b2c3d/OEBPS" Sample.book_new_root = Ok cd'
      /\ spine cd' = [Some "cover"; Some "nav"; Some "ch_0"; Some "ch_1";
                      Some "ch_2"].
Proof.
  assert (parse_root "temp_epub_0a1b2c3d/OEBPS" Sample.book_package
          = Ok Sample.book_cd) as Hparse by reflexivity.
  assert (update_content_opf (lib := Sample.book_lib) Sample.book_cd
                             Sample.book_chapter_files Sample.extracted_fs
          = (Ok Sample.book_new_root, Sample.book_updated_fs)) as Hupd
      by (vm_compute; reflexivity).
  destruct (updated_package_parses (lib := Sample.book_lib) _ _ _ _ _ _ _
              Hparse book_package_separate Hupd) as (cd' & Hcd' & _ & _).
  split; [exact Hparse|]. split; [apply book_package_separate|].
  split; [exact Hupd|].
  exists cd'. split; [exact Hcd'|].
  vm_compute in Hcd'. injection Hcd' as <-. reflexivity.
Defined.


(** *** An itemref without [idref] *)

Lemma filterM_Raise {A} (p : A -> result bool) l e :
  filterM p l = Raise e -> exists x, In x l /\ p x = Raise e.
Proof.
  induction l as [|x l IH]; simpl; [discriminate|].
  destruct (p x) as [b|e'] eqn:Px; simpl.
  - destruct (filterM p l) as [l'|e'']; simpl; [discriminate|].
    intros E. injection E as ->. destruct (IH eq_refl) as (y & Hy & Py).
    exists y. split; [now right|exact Py].
  - intros E. injection E as ->. exists x. split; [now left|exact Px].
Qed.

Lemma filterM_Ok_all {A} (p : A -> result bool) l l' x :
  filterM p l = Ok l' -> In x l -> exists b, p x = Ok b.
Proof.
  revert l'. induction l as [|y l IH]; intros l' H Hx; [destruct Hx|].
  simpl in H. destruct (p y) as [b|e] eqn:Py; simpl in H; [|discriminate].
  destruct (filterM p l) as [l0|e] eqn:F; simpl in H; [|discriminate].
  destruct Hx as [<-|Hx]; [eauto|]. eapply IH; eauto.
Qed.

Lemma is_old_manifest_item_Raise x e :
  is_old_manifest_item x = Raise e -> e = AttributeError.
Proof.
  unfold is_old_manifest_item.
  destruct (_ && _); [|discriminate].
  destruct (ET.get x "id"); [discriminate|]. intros E. now injection E.
Qed.

Lemma is_old_itemref_Raise m x e :
  is_old_itemref m x = Raise e -> e = AttributeError.
Proof.
  unfold is_old_itemref.
  destruct (_ && _); [|discriminate].
  destruct (ET.get x "idref"); [discriminate|]. intros E. now injection E.
Qed.

Lemma remove_flagged_Raise flag cs e :
  remove_flagged flag cs = Raise e -> exists x, In x cs /\ flag x = Raise e.
Proof.
  unfold remove_flagged. intros H. apply filterM_Raise in H as (x & Hx & Px).
  exists x. split; [exact Hx|]. destruct (flag x); [discriminate|exact Px].
Qed.

Section MissingIdref.
Context {lib : Libraries}.

(** X14. A spine itemref without [idref] passes the loader (which
    leaves it out of the in-memory spine) and makes [update_content_opf]
    raise [AttributeError]; nothing is written. *)
Theorem itemref_without_idref_raises dir r cd chapter_files fs ps se ref :
  parse_root dir r = Ok cd ->
  separate r ->
  find_spine_elem r = Some (ps, se) ->
  In ref (ET.children se) ->
  ET.get ref "idref" = None ->
  manifest_get None (manifest cd) = None ->
  update_content_opf cd chapter_files fs = (Raise AttributeError, fs).
Proof.
  intros P Sep Fs Href Hid Hnone.
  pose proof P as P0.
  apply parse_root_Ok in P as (pm0 & me0 & ps0 & se0 & m & Fm0 & Hm & Fs0 & ->).
  rewrite Fs in Fs0. injection Fs0 as <- <-. simpl in Hnone.
  assert (updated_root (mk_content_data r m (parse_spine m (ET.children se)) dir)
                       chapter_files = Raise AttributeError) as U.
  { unfold updated_root. simpl root. simpl manifest. rewrite Fm0.
    destruct (update_manifest_children (ET.children me0) chapter_files)
      as [items'|e] eqn:I; simpl.
    - destruct (find2_tag _ _ _ _ _ Fm0) as (t & Ht & -> & Ft & Tt).
      destruct (find_after_update (ET.tag_is t) (ET.set_children items') r me0
                                  (keeps_label_set_children items') Ft)
        as (root1 & U1 & _).
      rewrite U1.
      rewrite (spine_lookup_after_manifest_step
                 r (ET.tag_is t) me0 (ET.children me0) chapter_files items' root1
                 Sep Fm0 I eq_refl U1), Fs.
      assert (is_old_itemref m ref = Raise AttributeError) as Oref.
      { unfold is_old_itemref, is_cover_ref. now rewrite Hid, Hnone. }
      unfold update_spine_children.
      destruct (remove_flagged (is_old_itemref m) (ET.children se))
        as [kept|e] eqn:K; simpl.
      + unfold remove_flagged in K.
        destruct (filterM_Ok_all _ _ _ ref K Href) as [b Hb].
        rewrite Oref in Hb. discriminate.
      + apply remove_flagged_Raise in K as (x & _ & Px).
        now apply is_old_itemref_Raise in Px as ->.
    - unfold update_manifest_children in I.
      destruct (remove_flagged is_old_manifest_item (ET.children me0))
        as [kept|e'] eqn:K; simpl in I; [discriminate|].
      injection I as <-.
      apply remove_flagged_Raise in K as (x & _ & Px).
      now apply is_old_manifest_item_Raise in Px as ->. }
  unfold update_content_opf, iobind, lift. now rewrite U.
Qed.

End MissingIdref.

Lemma bare_itemref_package_separate : separate Sample.bare_itemref_package.
Proof.
  split.
  - intros pm me F. vm_compute in F. injection F as <- <-.
    intros t [<-|[<-|[]]]; reflexivity.
  - intros ps se F. vm_compute in F. injection F as <- <-.
    intros t [<-|[<-|[]]]; reflexivity.
Qed.

Lemma itemref_without_idref_raises_witness :
  parse_root "OEBPS" Sample.bare_itemref_package = Ok Sample.bare_itemref_cd
  /\ spine Sample.bare_itemref_cd = [Some "c1"]
  /\ update_content_opf (lib := Sample.nested_lib) Sample.bare_itemref_cd
                        Sample.one_chapter_file Sample.nested_fs
     = (Raise AttributeError, Sample.nested_fs).
Proof.
  assert (parse_root "OEBPS" Sample.bare_itemref_package
          = Ok Sample.bare_itemref_cd) as Hparse by reflexivity.
  split; [exact Hparse|]. split; [reflexivity|].
  apply (itemref_without_idref_raises
           (lib := Sample.nested_lib) "OEBPS" Sample.bare_itemref_package
           Sample.bare_itemref_cd Sample.one_chapter_file Sample.nested_fs
           (ET.tag_is (opf "spine"))
           (ET.Element (opf "spine") [] None
              [Sample.itemref "c1"; ET.Element (opf "itemref") [] None []])
           (ET.Element (opf "itemref") [] None [])
           Hparse bare_itemref_package_separate).
  - reflexivity.
  - right. now left.
  - reflexivity.
  - reflexivity.
Defined.

(** *** What the updates leave alone in their documents *)

Lemma update_children p f r r' :
  ET.update p f r = Some r' ->
  ET.tag r' = ET.tag r /\ ET.attrib r' = ET.attrib r /\ ET.text r' = ET.text r
  /\ exists pre c c' post,
      ET.children r = pre ++ c :: post
      /\ ET.children r' = pre ++ c' :: post
      /\ ET.update_self p f c = Some c'.
Proof.
  unfold ET.update. destruct r as [t a x cs]. simpl.
  destruct (update_first (ET.update_self p f) cs) as [cs'|] eqn:U; [|discriminate].
  intros E. injection E as <-. simpl. repeat split.
  apply update_first_split in U as (pre & c & c' & post & -> & -> & G & _).
  exists pre, c, c', post. auto.
Qed.

Lemma update_keeps_child p f r r' n c :
  ET.update p f r = Some r' ->
  nth_error (ET.children r) n = Some c ->
  ET.find_self p c = None ->
  nth_error (ET.children r') n = Some c.
Proof.
  intros U Hn Hc.
  apply update_children in U
    as (_ & _ & _ & pre & c0 & c0' & post & E & -> & Us).
  rewrite E in Hn.
  destruct (Nat.lt_ge_cases n (length pre)) as [L|L].
  - rewrite nth_error_app1 in * by exact L. exact Hn.
  - rewrite nth_error_app2 in * by exact L.
    destruct (n - length pre) as [|k] eqn:K; simpl in *; [|exact Hn].
    injection Hn as ->. rewrite (update_self_None p f c Hc) in Us. discriminate.
Qed.

Lemma update_length p f r r' :
  ET.update p f r = Some r' ->
  length (ET.children r') = length (ET.children r).
Proof.
  intros U. apply update_children in U
    as (_ & _ & _ & pre & c0 & c0' & post & -> & -> & _).
  rewrite !length_app. reflexivity.
Qed.

Section Untouched.
Context {lib : Libraries}.

(** X15. [update_content_opf] rewrites the children of the manifest
    and of the spine and nothing else of the package document: the root
    keeps its tag, attributes, text and number of children, and every
    child that holds no manifest or spine element (the metadata, the
    guide) stays where it was, as it was. *)
Theorem package_children_untouched cd chapter_files fs r' fs' :
  update_content_opf cd chapter_files fs = (Ok r', fs') ->
  ET.tag r' = ET.tag (root cd)
  /\ ET.attrib r' = ET.attrib (root cd)
  /\ ET.text r' = ET.text (root cd)
  /\ length (ET.children r') = length (ET.children (root cd))
  /\ forall n c,
      nth_error (ET.children (root cd)) n = Some c ->
      free_of structural_tags c ->
      nth_error (ET.children r') n = Some c.
Proof.
  intros E. apply update_content_opf_Ok in E as [E _].
  apply updated_root_Ok in E
    as (pm & me & items' & root1 & ps & se & refs' & Fm & I & U1 & Fs & R & U2).
  destruct (find2_tag _ _ _ _ _ Fm) as (tm & Htm & -> & _ & _).
  destruct (find2_tag _ _ _ _ _ Fs) as (ts & Hts & -> & _ & _).
  destruct (update_children _ _ _ _ U1) as (T1 & A1 & X1 & _).
  destruct (update_children _ _ _ _ U2) as (T2 & A2 & X2 & _).
  split; [congruence|]. split; [congruence|]. split; [congruence|]. split.
  - rewrite (update_length _ _ _ _ U2), (update_length _ _ _ _ U1). reflexivity.
  - intros n c Hn Hfree.
    apply (update_keeps_child _ _ _ _ _ _ U2).
    + apply (update_keeps_child _ _ _ _ _ _ U1 Hn).
      apply Hfree. unfold structural_tags.
      destruct Htm as [<-|[<-|[]]]; simpl; auto.
    + apply Hfree. unfold structural_tags.
      destruct Hts as [<-|[<-|[]]]; simpl; auto.
Qed.

(** X16. [update_ncx_document] rewrites the children of the navigation
    map and nothing else of the NCX document: the root keeps its tag,
    attributes, text and number of children, and every child that holds
    no navigation map (the head, the title) stays where it was, as it
    was. *)
Theorem ncx_children_untouched cd chapter_files fs r' fs' :
  update_ncx_document cd chapter_files fs = (Ok (Some r'), fs') ->
  exists ncx_id ncx_item text r,
    manifest_get ncx_id (manifest cd) = Some ncx_item
    /\ fs_get (Item.full_path ncx_item) fs = Some (File text)
    /\ ET_parse text = Some r
    /\ ET.tag r' = ET.tag r /\ ET.attrib r' = ET.attrib r
    /\ ET.text r' = ET.text r
    /\ length (ET.children r') = length (ET.children r)
    /\ forall n c,
        nth_error (ET.children r) n = Some c ->
        free_of nav_map_tags c ->
        nth_error (ET.children r') n = Some c.
Proof.
  unfold update_ncx_document.
  destruct (next_where _ (manifest cd)) as [[ncx_id ncx_item0]|];
    [|discriminate].
  destruct (negb (truthy ncx_id)); [discriminate|].
  destruct (manifest_get ncx_id (manifest cd)) as [ncx_item|] eqn:G;
    [|discriminate].
  intros E. apply iobind_Ok in E as (r & fs0 & P & E).
  unfold parse_xml_file in P. apply iobind_Ok in P as (text & fs0' & Rd & P).
  pose proof (read_file_state _ _ _ _ Rd) as ->.
  unfold read_file in Rd.
  destruct (fs_get (Item.full_path ncx_item) fs) as [[data|]|] eqn:Fg;
    try discriminate.
  injection Rd as ->.
  destruct (ET_parse text) as [r0|] eqn:Pt; [|discriminate].
  unfold ret in P. injection P as -> <-.
  destruct (find_nav_map r) as [[p nav_map]|] eqn:F; [|discriminate].
  destruct (ET.update p _ r) as [r''|] eqn:U; [|discriminate].
  apply iobind_Ok in E as ([] & fs1 & _ & E).
  unfold ret in E. injection E as <- _.
  destruct (find2_tag _ _ _ _ _ F) as (t & Ht & -> & _ & _).
  destruct (update_children _ _ _ _ U) as (T1 & A1 & X1 & _).
  exists ncx_id, ncx_item, text, r. repeat split; auto.
  - apply (update_length _ _ _ _ U).
  - intros n c Hn Hfree. apply (update_keeps_child _ _ _ _ _ _ U Hn).
    apply Hfree. exact Ht.
Qed.

End Untouched.

Lemma package_children_untouched_witness :
  update_content_opf (lib := Sample.nested_lib) Sample.titled_cd
                     Sample.one_chapter_file []
  = (Ok Sample.titled_new_root,
     [("OEBPS/content.opf", File (Sample.xml_text Sample.titled_new_root))])
  /\ free_of structural_tags Sample.metadata_element
  /\ ET.attrib Sample.titled_new_root = [("version", "3.0")]
  /\ nth_error (ET.children Sample.titled_new_root) 0
     = Some Sample.metadata_element.
Proof.
  assert (update_content_opf (lib := Sample.nested_lib) Sample.titled_cd
                             Sample.one_chapter_file []
          = (Ok Sample.titled_new_root,
             [("OEBPS/content.opf",
               File (Sample.xml_text Sample.titled_new_root))])) as Hupd
      by (vm_compute; reflexivity).
  assert (free_of structural_tags Sample.metadata_element) as Hfree.
  { intros u [<-|[<-|[<-|[<-|[]]]]]; reflexivity. }
  destruct (package_children_untouched (lib := Sample.nested_lib) _ _ _ _ _ Hupd)
    as (_ & Ha & _ & _ & Hc).
  split; [exact Hupd|]. split; [exact Hfree|]. split; [exact Ha|].
  exact (Hc 0 Sample.metadata_element eq_refl Hfree).
Defined.

Lemma ncx_children_untouched_witness :
  update_ncx_document (lib := Sample.book_lib) Sample.book_cd
                      Sample.book_chapter_files (snd Sample.book_nav_run)
  = (Ok (Some Sample.book_new_ncx), snd Sample.book_ncx_run)
  /\ exists r,
      ET.tag Sample.book_new_ncx = ET.tag r
      /\ ET.attrib Sample.book_new_ncx = ET.attrib r
      /\ length (ET.children Sample.book_new_ncx) = length (ET.children r)
      /\ forall n c,
          nth_error (ET.children r) n = Some c ->
          free_of nav_map_tags c ->
          nth_error (ET.children Sample.book_new_ncx) n = Some c.
Proof.
  assert (update_ncx_document (lib := Sample.book_lib) Sample.book_cd
                              Sample.book_chapter_files (snd Sample.book_nav_run)
          = (Ok (Some Sample.book_new_ncx), snd Sample.book_ncx_run)) as Hncx
      by (vm_compute; reflexivity).
  destruct (ncx_children_untouched (lib := Sample.book_lib) _ _ _ _ _ Hncx)
    as (ncx_id & ncx_item & text & r & _ & _ & _ & Ht & Ha & _ & Hl & Hc).
  split; [exact Hncx|]. exists r. repeat split; auto.
Defined.

(** *** The navigation documents after their update *)

Lemma nav_points_fold entries k acc :
  fold_left
    (fun acc e => (fst acc + 1, snd acc ++ [nav_point (fst acc) (fst e) (snd e)]))
    entries (k, acc)
  = (k + length entries,
     acc ++ map (fun ke => nav_point (fst ke) (fst (snd ke)) (snd (snd ke)))
                (combine (seq k (length entries)) entries)).
Proof.
  revert k acc. induction entries as [|e es IH]; intros k acc; simpl.
  - now rewrite Nat.add_0_r, app_nil_r.
  - rewrite IH. f_equal; [lia|].
    rewrite <- app_assoc. simpl. now rewrite Nat.add_1_r.
Qed.

Lemma nav_points_spec entries :
  nav_points entries
  = map (fun ke => nav_point (fst ke) (fst (snd ke)) (snd (snd ke)))
        (combine (seq 1 (length entries)) entries).
Proof. unfold nav_points. now rewrite nav_points_fold. Qed.


Lemma map_combine_snd {A B C} (f : B -> C) (l1 : list A) (l2 : list B) :
  length l1 = length l2 ->
  map (fun ab => f (snd ab)) (combine l1 l2) = map f l2.
Proof.
  revert l2. induction l1 as [|a l1 IH]; intros [|b l2] L; simpl in *;
    try discriminate; [reflexivity|].
  f_equal. apply IH. lia.
Qed.




Lemma toc_entries_pairs m chapter_files :
  map toc_entry_pair (toc_entries m chapter_files)
  = map Some (ncx_entries m chapter_files).
Proof.
  unfold toc_entries, ncx_entries. rewrite !map_app, !map_map.
  f_equal. now destruct (cover_item m).
Qed.

Lemma next_where_nav l nav_id :
  next_where (fun i => opt_eqb i (Some "nav")) l = Some nav_id ->
  nav_id = Some "nav" /\ In (Some "nav") l.
Proof.
  unfold next_where. intros F. apply find_some in F as [Hin E].
  destruct (opt_eqb_spec nav_id (Some "nav")) as [->|]; [|discriminate].
  now split.
Qed.

Lemma nav_points_pairs entries :
  map nav_point_pair (nav_points entries) = map Some entries.
Proof.
  rewrite nav_points_spec, map_map.
  rewrite <- (map_combine_snd Some (seq 1 (length entries)) entries)
    by apply length_seq.
  apply map_ext. now intros [k [label src]].
Qed.

Section NavigationDocuments.
Context {lib : Libraries}.

(** X17. When [update_nav_document] carries out its update, the spine
    names [nav], the file of the navigation document holds the printed
    soup, no other path has changed, and the first [ol] below the TOC
    [nav] element holds exactly the new entries: one for the cover when
    the manifest has one, then one per chapter file.  When the update is
    skipped, or raises, the working tree is as it was. *)
Theorem nav_update_outcome cd chapter_files fs r fs' :
  update_nav_document cd chapter_files fs = (r, fs') ->
  match r with
  | Ok (Some soup') =>
      exists nav_item nav_elem ol,
        In (Some "nav") (spine cd)
        /\ manifest_get (Some "nav") (manifest cd) = Some nav_item
        /\ fs_get (Item.full_path nav_item) fs' = Some (File (decode_contents soup'))
        /\ (forall q, q <> Item.full_path nav_item -> fs_get q fs' = fs_get q fs)
        /\ Bs4.find toc_pattern soup' = Some nav_elem
        /\ Bs4.find (Bs4.name_is "ol") (Bs4.contents nav_elem) = Some ol
        /\ Bs4.contents ol = toc_entries (manifest cd) chapter_files
        /\ length (Bs4.contents ol) = entry_count (manifest cd) chapter_files
  | _ => fs' = fs
  end.
Proof.
  unfold update_nav_document.
  destruct (next_where _ (spine cd)) as [nav_id|] eqn:N;
    [|unfold ret; intros E; now injection E as <- <-].
  apply next_where_nav in N as [-> Hin].
  destruct (manifest_get (Some "nav") (manifest cd)) as [nav_item|] eqn:G;
    [|unfold raise; intros E; now injection E as <- <-].
  unfold iobind at 1.
  destruct (read_file (Item.full_path nav_item) fs) as [[nav_content|e] fs0] eqn:R;
    pose proof (read_file_state _ _ _ _ R) as ->;
    [|intros E; now injection E as <- <-].
  destruct (Bs4.update toc_pattern _ (BeautifulSoup nav_content))
    as [soup'|] eqn:U; [|unfold ret; intros E; now injection E as <- <-].
  unfold iobind.
  destruct (write_file (Item.full_path nav_item) (decode_contents soup') fs)
    as [[[]|e] fs1] eqn:W.
  - unfold ret. intros E. injection E as <- <-.
    apply write_file_Ok in W as [Wp Wq].
    destruct (soup_update_Some _ _ _ _ U) as [nav F].
    destruct (soup_find_after_update
                toc_pattern (fill_toc (toc_entries (manifest cd) chapter_files))
                (keeps_name_fill_toc _) _ nav F) as (soup'' & U' & F').
    rewrite U in U'. injection U' as <-.
    destruct (soup_find_is_tag _ _ _ F) as (n & a & cs & -> & _).
    destruct (toc_list_after_fill (toc_entries (manifest cd) chapter_files) n a cs)
      as (ol & Fol & Col).
    exists nav_item, (fill_toc (toc_entries (manifest cd) chapter_files)
                               (Bs4.Tag n a cs)), ol.
    repeat split; auto.
    rewrite Col. unfold toc_entries, entry_count.
    rewrite length_app, length_map. now destruct (cover_item (manifest cd)).
  - intros E. injection E as <- <-. unfold write_file in W.
    destruct (fs_get _ fs) as [[?|]|]; inversion W; reflexivity.
Qed.


(** X19. When both navigation updates are carried out, the entries of
    the TOC list and the navPoints of the navigation map carry, position
    by position, the same label and the same target: [Cover] and the
    cover's href first when the manifest has a cover, then title and
    href of each chapter file. *)
Theorem navigation_entries_agree cd chapter_files fs soup' fs1 ncx' fs2 :
  update_nav_document cd chapter_files fs = (Ok (Some soup'), fs1) ->
  update_ncx_document cd chapter_files fs1 = (Ok (Some ncx'), fs2) ->
  exists nav_elem ol p nav_map,
    Bs4.find toc_pattern soup' = Some nav_elem
    /\ Bs4.find (Bs4.name_is "ol") (Bs4.contents nav_elem) = Some ol
    /\ find_nav_map ncx' = Some (p, nav_map)
    /\ map toc_entry_pair (Bs4.contents ol)
       = map nav_point_pair (ET.children nav_map)
    /\ map toc_entry_pair (Bs4.contents ol)
       = map Some (ncx_entries (manifest cd) chapter_files).
Proof.
  intros Hnav Hncx.
  apply update_nav_document_Some in Hnav as (soup & U).
  apply update_ncx_document_Some in Hncx as (r & p & nav_map & F & U').
  destruct (soup_update_Some _ _ _ _ U) as [nav Fn].
  destruct (soup_find_after_update
              toc_pattern (fill_toc (toc_entries (manifest cd) chapter_files))
              (keeps_name_fill_toc _) soup nav Fn) as (soup'' & U2 & F2).
  rewrite U in U2. injection U2 as <-.
  destruct (soup_find_is_tag _ _ _ Fn) as (n & a & cs & -> & _).
  destruct (toc_list_after_fill (toc_entries (manifest cd) chapter_files) n a cs)
    as (ol & Fol & Col).
  destruct (find2_after_update
              "{http://www.daisy.org/z3986/2005/ncx/}navMap" "navMap"
              r p nav_map (nav_points (ncx_entries (manifest cd) chapter_files)))
    as (r'' & U3 & F3); auto.
  { apply String.eqb_neq. reflexivity. }
  { intros _. apply nav_points_no_nav_map. }
  rewrite U' in U3. injection U3 as <-.
  eexists _, ol, p, _. split; [exact F2|]. split; [exact Fol|].
  split; [exact F3|].
  rewrite children_set_children, Col, nav_points_pairs, toc_entries_pairs.
  split; reflexivity.
Qed.

End NavigationDocuments.

Lemma nav_update_outcome_witness :
  update_nav_document (lib := Sample.book_lib) Sample.book_cd
                      Sample.book_chapter_files Sample.book_updated_fs
  = (Ok (Some Sample.book_new_nav), snd Sample.book_nav_run)
  /\ fs_get "temp_epub_0a1b2c3d/OEBPS/nav.xhtml" (snd Sample.book_nav_run)
     = Some (File (Sample.render_soup Sample.book_new_nav))
  /\ exists nav_elem ol,
      Bs4.find toc_pattern Sample.book_new_nav = Some nav_elem
      /\ Bs4.find (Bs4.name_is "ol") (Bs4.contents nav_elem) = Some ol
      /\ length (Bs4.contents ol) = 4.
Proof.
  assert (update_nav_document (lib := Sample.book_lib) Sample.book_cd
                              Sample.book_chapter_files Sample.book_updated_fs
          = (Ok (Some Sample.book_new_nav), snd Sample.book_nav_run)) as Hnav
      by (vm_compute; reflexivity).
  pose proof (nav_update_outcome (lib := Sample.book_lib) _ _ _ _ _ Hnav) as H.
  destruct H as (nav_item & nav_elem & ol & _ & G & Hfile & _ & Fn & Fo & _ & L).
  vm_compute in G. injection G as <-.
  split; [exact Hnav|]. split; [exact Hfile|].
  exists nav_elem, ol. split; [exact Fn|]. split; [exact Fo|]. exact L.
Defined.


Lemma navigation_entries_agree_witness :
  update_nav_document (lib := Sample.book_lib) Sample.book_cd
                      Sample.book_chapter_files Sample.book_updated_fs
  = (Ok (Some Sample.book_new_nav), snd Sample.book_nav_run)
  /\ update_ncx_document (lib := Sample.book_lib) Sample.book_cd
                         Sample.book_chapter_files (snd Sample.book_nav_run)
     = (Ok (Some Sample.book_new_ncx), snd Sample.book_ncx_run)
  /\ exists nav_elem ol p nav_map,
      Bs4.find toc_pattern Sample.book_new_nav = Some nav_elem
      /\ Bs4.find (Bs4.name_is "ol") (Bs4.contents nav_elem) = Some ol
      /\ find_nav_map Sample.book_new_ncx = Some (p, nav_map)
      /\ map toc_entry_pair (Bs4.contents ol)
         = map nav_point_pair (ET.children nav_map)
      /\ map toc_entry_pair (Bs4.contents ol)
         = [Some ("Cover", "cover.xhtml"); Some ("Intro", "ch_0.xhtml");
            Some ("Part One", "ch_1.xhtml"); Some ("Part Two", "ch_2.xhtml")].
Proof.
  assert (update_nav_document (lib := Sample.book_lib) Sample.book_cd
                              Sample.book_chapter_files Sample.book_updated_fs
          = (Ok (Some Sample.book_new_nav), snd Sample.book_nav_run)) as Hnav
      by (vm_compute; reflexivity).
  assert (update_ncx_document (lib := Sample.book_lib) Sample.book_cd
                              Sample.book_chapter_files (snd Sample.book_nav_run)
          = (Ok (Some Sample.book_new_ncx), snd Sample.book_ncx_run)) as Hncx
      by (vm_compute; reflexivity).
  destruct (navigation_entries_agree (lib := Sample.book_lib)
              _ _ _ _ _ _ _ Hnav Hncx)
    as (nav_elem & ol & p & nav_map & Fn & Fo & Fm & Hsame & Hexp).
  split; [exact Hnav|]. split; [exact Hncx|].
  exists nav_elem, ol, p, nav_map. repeat split; auto.
Defined.

(** *** The chapters in the manifest and on disk *)

Section WrittenPackage.
Context {lib : Libraries}.


End WrittenPackage.


(** *** The archive *)

Lemma prefix_append a r : String.prefix a (a ++ r) = true.
Proof.
  induction a as [|c a IH]; cbn [String.prefix append]; [now destruct r|].
  destruct (ascii_dec c c); [exact IH|congruence].
Qed.

Lemma prefix_split a p : String.prefix a p = true -> exists r, p = (a ++ r)%string.
Proof.
  revert p. induction a as [|c a IH]; intros p H; cbn [String.prefix append] in *.
  - now exists p.
  - destruct p as [|c' p]; [discriminate|].
    cbn [String.prefix] in H.
    destruct (ascii_dec c c') as [<-|]; [|discriminate].
    destruct (IH _ H) as [r ->]. now exists r.
Qed.

Lemma substring_skip a r m :
  String.substring (String.length a) m (a ++ r) = String.substring 0 m r.
Proof. induction a as [|c a IH]; simpl; [reflexivity|exact IH]. Qed.

Lemma substring_all r m : String.length r <= m -> String.substring 0 m r = r.
Proof.
  revert m. induction r as [|c r IH]; intros m L; simpl in *.
  - now destruct m.
  - destruct m as [|m]; [lia|]. f_equal. apply IH. lia.
Qed.

(** The path relative to [d] that [walk] computes for a path below
    [d]. *)
Lemma relative_path d rel :
  String.substring (String.length d + 1) (String.length (d ++ "/" ++ rel))
                   (d ++ "/" ++ rel) = rel.
Proof.
  assert (String.length d + 1 = String.length (d ++ "/")) as ->
      by (rewrite length_append; reflexivity).
  rewrite <- append_assoc, substring_skip. apply substring_all.
  rewrite length_append. lia.
Qed.

Lemma below_split d p :
  Path.below d p = true -> exists rel, p = (d ++ "/" ++ rel)%string.
Proof.
  unfold Path.below, Py.startswith. intros H.
  apply prefix_split in H as [r ->]. exists r. apply append_assoc.
Qed.

Lemma below_append d rel : Path.below d (d ++ "/" ++ rel) = true.
Proof.
  unfold Path.below, Py.startswith. rewrite <- append_assoc. apply prefix_append.
Qed.

Lemma fs_get_In p e (fs : filesystem) : fs_get p fs = Some e -> In (p, e) fs.
Proof.
  unfold fs_get. induction fs as [|[q e'] fs IH]; simpl; [discriminate|].
  destruct (String.eqb_spec p q) as [->|N].
  - intros E. injection E as ->. now left.
  - intros E. right. now apply IH.
Qed.

Lemma In_fs_get p e (fs : filesystem) :
  one_entry_per_path fs -> In (p, e) fs -> fs_get p fs = Some e.
Proof.
  unfold one_entry_per_path, fs_get.
  induction fs as [|[q e'] fs IH]; simpl; intros D H; [destruct H|].
  inversion D as [|? ? Dq D']; subst.
  destruct H as [E|H].
  - injection E as -> ->. now rewrite String.eqb_refl.
  - destruct (String.eqb_spec p q) as [->|N]; [|now apply IH].
    exfalso. apply Dq. change q with (fst (q, e)). now apply in_map.
Qed.

Lemma walk_spec d fs :
  exists files,
    walk d fs = (Ok files, fs)
    /\ forall rel data,
        In (rel, data) files <->
        exists p, In (p, File data) fs /\ Path.below d p = true
                  /\ rel = String.substring (String.length d + 1)
                                            (String.length p) p.
Proof.
  unfold walk. eexists. split; [reflexivity|].
  intros rel data. rewrite in_flat_map. split.
  - intros ([p e] & Hin & H). simpl in H.
    destruct e as [data'|]; [|destruct H].
    destruct (Path.below d p) eqn:B; [|destruct H].
    destruct H as [E|[]]. injection E as <- <-. exists p. auto.
  - intros (p & Hin & B & ->). exists (p, File data). split; [exact Hin|].
    simpl. rewrite B. now left.
Qed.

Lemma walk_fs_set d out e fs :
  Path.below d out = false ->
  fst (walk d (fs_set out e fs)) = fst (walk d fs).
Proof.
  intros B. unfold walk. simpl. f_equal. unfold fs_set.
  induction fs as [|[q e'] fs IH]; simpl.
  - rewrite B. now destruct e.
  - destruct (String.eqb_spec out q) as [<-|N]; simpl.
    + rewrite B. now destruct e, e'.
    + now rewrite IH.
Qed.

Section Archive.
Context {lib : Libraries}.

(** X21. The archive [rebuild_epub] writes, the output path lying
    outside the extraction directory: only the output path changes; a
    [mimetype] file at the top of the directory is the first member, and
    no other member is called [mimetype], in whatever directory; every
    other regular file below the directory is a member under its
    relative path, and there is no further member. *)
Theorem archive_members d out fs fs' :
  rebuild_epub d out fs = (Ok tt, fs') ->
  Path.below d out = false ->
  one_entry_per_path fs ->
  exists members,
    fs_get out fs' = Some (File (zip_write members))
    /\ (forall q, q <> out -> fs_get q fs' = fs_get q fs)
    /\ (forall data,
           fs_get (Path.join d "mimetype") fs = Some (File data) ->
           exists rest, members = ("mimetype", data) :: rest
                        /\ Forall not_mimetype rest)
    /\ (fs_get (Path.join d "mimetype") fs = None -> Forall not_mimetype members)
    /\ (forall rel data,
           Path.basename rel <> "mimetype" ->
           (In (rel, data) members
            <-> fs_get (d ++ "/" ++ rel) fs = Some (File data))).
Proof.
  intros H B D. unfold rebuild_epub in H.
  apply iobind_Ok in H as (present & fs0 & P & H).
  unfold exists_ in P. injection P as <- <-.
  apply iobind_Ok in H as (first & fs0 & Hfirst & H).
  assert (fs0 = fs
          /\ match fs_get (Path.join d "mimetype") fs with
             | Some (File data) => first = [("mimetype", data)]
             | Some Dir => False
             | None => first = []
             end) as [-> First].
  { destruct (fs_get (Path.join d "mimetype") fs) as [[data|]|] eqn:G.
    - unfold iobind, read_file in Hfirst. rewrite G in Hfirst.
      unfold ret in Hfirst. now injection Hfirst as <- <-.
    - unfold iobind, read_file in Hfirst. rewrite G in Hfirst. discriminate.
    - unfold ret in Hfirst. now injection Hfirst as <- <-. }
  apply iobind_Ok in H as ([] & fs1 & W1 & H).
  apply iobind_Ok in H as (files1 & fs2 & Wk1 & W2).
  destruct (walk_spec d fs1) as (files & Wk & Hfiles).
  rewrite Wk in Wk1. injection Wk1 as <- <-.
  assert (fs1 = fs_set out (File (zip_write first)) fs) as E1.
  { unfold write_file in W1.
    destruct (fs_get out fs) as [[?|]|]; inversion W1; reflexivity. }
  assert (forall rel data,
             In (rel, data) files <->
             exists p, In (p, File data) fs /\ Path.below d p = true
                       /\ rel = String.substring (String.length d + 1)
                                                 (String.length p) p) as Hfs.
  { destruct (walk_spec d fs) as (files0 & Wk0 & Hfiles0).
    assert (files = files0) as ->; [|exact Hfiles0].
    pose proof (walk_fs_set d out (File (zip_write first)) fs B) as Q.
    rewrite <- E1, Wk, Wk0 in Q. simpl in Q. now injection Q. }
  apply write_file_Ok in W1 as [_ F1]. apply write_file_Ok in W2 as [G2 F2].
  set (others := filter (fun f => negb (String.eqb (Path.basename (fst f)) "mimetype"))
                        files) in *.
  assert (Forall not_mimetype others) as NM.
  { apply Forall_forall. intros f Hf. apply filter_In in Hf as [_ Hf].
    unfold not_mimetype. apply negb_true_iff in Hf. now apply String.eqb_neq. }
  exists (first ++ others). split; [exact G2|]. split; [|split; [|split]].
  - intros q N. rewrite F2, F1; auto.
  - intros data G. rewrite G in First. subst first. now exists others.
  - intros G. rewrite G in First. now subst first.
  - intros rel data N. rewrite in_app_iff. split.
    + intros [Hin|Hin].
      * exfalso. apply N.
        destruct (fs_get (Path.join d "mimetype") fs) as [[data'|]|];
          [|destruct First|subst first; destruct Hin].
        subst first. destruct Hin as [E|[]]. now injection E as <- _.
      * apply filter_In in Hin as [Hin _].
        apply Hfs in Hin as (p & Hin & Bp & ->).
        apply below_split in Bp as [rel ->]. rewrite relative_path.
        now apply In_fs_get.
    + intros G. right. apply filter_In. split.
      * apply Hfs. exists (d ++ "/" ++ rel)%string.
        split; [now apply fs_get_In|]. split; [apply below_append|].
        now rewrite relative_path.
      * simpl. apply negb_true_iff. now apply String.eqb_neq.
Qed.

(** X22. A run of [main] that returns leaves the rebuilt archive at
    the output path (which is neither the extraction directory nor below
    it): the clean-up does not take it away. *)
Theorem successful_run_leaves_archive input output d fs fs' :
  main input output d fs = (Ok tt, fs') ->
  output <> d ->
  Path.below d output = false ->
  exists members, fs_get output fs' = Some (File (zip_write members)).
Proof.
  unfold main, try_finally. intros H N B.
  destruct (pipeline input output d fs) as [r fs1] eqn:P.
  destruct (clean_up d fs1) as [[[]|e] fs2] eqn:C; [|discriminate].
  injection H as -> <-.
  unfold clean_up in C.
  assert (fs_get d fs1 = Some Dir) as Dd.
  { unfold rmtree in C. destruct (fs_get d fs1) as [[?|]|]; try discriminate.
    reflexivity. }
  destruct (rmtree_removes d fs1 Dd) as (fs2' & C' & _ & _ & Keep).
  rewrite C in C'. injection C' as <-.
  rewrite Keep; [|now apply String.eqb_neq|exact B].
  unfold pipeline in P.
  apply iobind_Ok in P as ([] & fsa & _ & P).
  apply iobind_Ok in P as (p & fsb & _ & P).
  apply iobind_Ok in P as (cd & fsc & _ & P).
  apply iobind_Ok in P as (chs & fsd & _ & P).
  apply iobind_Ok in P as (files & fse & _ & P).
  apply iobind_Ok in P as (r1 & fsf & _ & P).
  apply iobind_Ok in P as (r2 & fsg & _ & P).
  apply iobind_Ok in P as (r3 & fsh & _ & P).
  unfold rebuild_epub in P.
  apply iobind_Ok in P as (present & fs0 & _ & P).
  apply iobind_Ok in P as (first & fs0' & _ & P).
  apply iobind_Ok in P as ([] & fs1' & _ & P).
  apply iobind_Ok in P as (walked & fs2' & _ & W2).
  apply write_file_Ok in W2 as [G2 _]. eauto.
Qed.

End Archive.

Lemma archive_members_witness :
  fst (rebuild_epub (lib := Sample.book_lib) Sample.book_dir "out.epub"
                    (snd Sample.book_ncx_run)) = Ok tt
  /\ Path.below Sample.book_dir "out.epub" = false
  /\ one_entry_per_path (snd Sample.book_ncx_run)
  /\ exists rest,
      fs_get "out.epub"
             (snd (rebuild_epub (lib := Sample.book_lib) Sample.book_dir
                                "out.epub" (snd Sample.book_ncx_run)))
      = Some (File (zip_write (Libraries := Sample.book_lib)
                              (("mimetype", "application/epub+zip") :: rest)))
      /\ Forall not_mimetype rest
      /\ In ("OEBPS/cover.xhtml", Sample.render_soup Sample.cover_page) rest.
Proof.
  assert (rebuild_epub (lib := Sample.book_lib) Sample.book_dir "out.epub"
                       (snd Sample.book_ncx_run)
          = (Ok tt, snd (rebuild_epub (lib := Sample.book_lib) Sample.book_dir
                                      "out.epub" (snd Sample.book_ncx_run))))
    as Hrun by (vm_compute; reflexivity).
  assert (one_entry_per_path (snd Sample.book_ncx_run)) as Hwf.
  { unfold one_entry_per_path.
    assert (nodup string_dec (map fst (snd Sample.book_ncx_run))
            = map fst (snd Sample.book_ncx_run)) as <- by (vm_compute; reflexivity).
    apply NoDup_nodup. }
  destruct (archive_members (lib := Sample.book_lib) _ _ _ _ Hrun eq_refl Hwf)
    as (members & Hout & _ & Hmime & _ & Hin).
  destruct (Hmime "application/epub+zip" ltac:(vm_compute; reflexivity))
    as (rest & -> & Hrest).
  split; [vm_compute; reflexivity|]. split; [reflexivity|]. split; [exact Hwf|].
  exists rest. split; [exact Hout|]. split; [exact Hrest|].
  assert (In ("OEBPS/cover.xhtml", Sample.render_soup Sample.cover_page)
             (("mimetype", "application/epub+zip") :: rest)) as [E|Hc].
  { apply Hin; [vm_compute; discriminate|vm_compute; reflexivity]. }
  - discriminate E.
  - exact Hc.
Defined.

Lemma successful_run_leaves_archive_witness :
  fst (main (lib := Sample.book_lib) "book.epub" "out.epub"
            Sample.book_dir Sample.book_fs) = Ok tt
  /\ "out.epub" <> Sample.book_dir
  /\ Path.below Sample.book_dir "out.epub" = false
  /\ exists members,
      fs_get "out.epub"
             (snd (main (lib := Sample.book_lib) "book.epub" "out.epub"
                        Sample.book_dir Sample.book_fs))
      = Some (File (zip_write (Libraries := Sample.book_lib) members)).
Proof.
  assert (main (lib := Sample.book_lib) "book.epub" "out.epub"
               Sample.book_dir Sample.book_fs
          = (Ok tt, snd (main (lib := Sample.book_lib) "book.epub" "out.epub"
                              Sample.book_dir Sample.book_fs))) as Hrun
      by (vm_compute; reflexivity).
  assert ("out.epub" <> Sample.book_dir) as Hne by (vm_compute; discriminate).
  split; [vm_compute; reflexivity|]. split; [exact Hne|]. split; [reflexivity|].
  exact (successful_run_leaves_archive (lib := Sample.book_lib)
           _ _ _ _ _ Hrun Hne eq_refl).
Defined.

(** *** The extraction and the container document *)

Lemma append_neq_self d s : s <> "" -> (d ++ s)%string <> d.
Proof.
  intros N E. apply (f_equal String.length) in E. rewrite length_append in E.
  destruct s; [congruence|]. simpl in E. lia.
Qed.

Lemma endswith_no_sep d : no_sep d = true -> Py.endswith_char d Path.sep = false.
Proof.
  induction d as [|c d IH]; [reflexivity|].
  cbn [no_sep]. intros H. apply andb_true_iff in H as [Hc Hd].
  destruct d as [|c' d'].
  - simpl. now apply negb_true_iff in Hc.
  - change (Py.endswith_char (String c' d') Path.sep = false). now apply IH.
Qed.

Lemma endswith_append d x c :
  x <> ""%string -> Py.endswith_char (d ++ x) c = Py.endswith_char x c.
Proof.
  intros N. induction d as [|a d IH]; [reflexivity|].
  cbn [append Py.endswith_char]. destruct (d ++ x)%string eqn:E; [|exact IH].
  destruct d; [simpl in E; congruence|discriminate].
Qed.

Lemma join_plain d x :
  d <> ""%string -> Py.endswith_char d Path.sep = false ->
  Py.startswith x "/" = false ->
  Path.join d x = (d ++ "/" ++ x)%string.
Proof.
  intros Nd Ed Sx. unfold Path.join. rewrite Sx, Ed.
  now destruct (String.eqb_spec d "").
Qed.

(** Where [find_content_opf] looks for the container document. *)
Lemma container_path d :
  no_sep d = true -> d <> ""%string ->
  Path.join (Path.join d "META-INF") "container.xml"
  = (d ++ "/" ++ "META-INF/container.xml")%string.
Proof.
  intros Hd Nd.
  rewrite (join_plain d "META-INF" Nd (endswith_no_sep d Hd) eq_refl).
  rewrite join_plain.
  - now rewrite append_assoc.
  - destruct d; [congruence|discriminate].
  - rewrite endswith_append by discriminate. reflexivity.
  - reflexivity.
Qed.

Section Extraction.
Context {lib : Libraries}.

Lemma write_members_effect d members fs r fs' q :
  for_each members (fun m => write_file (d ++ "/" ++ fst m) (snd m)) fs = (r, fs') ->
  (forall name, In name (map fst members) -> q <> (d ++ "/" ++ name)%string) ->
  fs_get q fs' = fs_get q fs.
Proof.
  revert fs r. induction members as [|[n data] ms IH]; intros fs r H N;
    cbn [for_each] in H.
  - unfold ret in H. now injection H as _ <-.
  - unfold iobind in H at 1. cbn [fst snd] in H.
    destruct (write_file (d ++ "/" ++ n) data fs) as [[[]|e] fs1] eqn:W.
    + apply write_file_Ok in W as [_ W]. rewrite <- (W q).
      * apply (IH _ _ H). intros name Hn. apply N. now right.
      * apply N. now left.
    + injection H as _ <-. unfold write_file in W.
      destruct (fs_get _ fs) as [[?|]|]; inversion W; reflexivity.
Qed.

Lemma write_members_last d members fs fs' name data :
  for_each members (fun m => write_file (d ++ "/" ++ fst m) (snd m)) fs
  = (Ok tt, fs') ->
  last_member name members = Some data ->
  fs_get (d ++ "/" ++ name) fs' = Some (File data).
Proof.
  revert fs. induction members as [|[n x] ms IH]; intros fs H L;
    [discriminate|].
  cbn [for_each] in H. apply iobind_Ok in H as ([] & fs1 & W & H).
  cbn [fst snd] in W. unfold last_member in L. simpl List.rev in L. rewrite find_app in L.
  destruct (List.find _ (List.rev ms)) as [m|] eqn:F.
  - apply (IH _ H). unfold last_member. now rewrite F.
  - simpl in L. destruct (String.eqb_spec n name) as [->|Ne]; [|discriminate].
    injection L as ->.
    rewrite (write_members_effect _ _ _ _ _ (d ++ "/" ++ name) H).
    + apply write_file_Ok in W as [W _]. exact W.
    + intros name' Hn E. apply append_inj_l in E. injection E as <-.
      apply in_map_iff in Hn as (m & Em & Hm).
      pose proof (find_none _ _ F m) as Q. rewrite <- in_rev in Q.
      specialize (Q Hm). simpl in Q. rewrite Em, String.eqb_refl in Q.
      discriminate.
Qed.

Lemma extract_epub_Ok input d fs fs' :
  extract_epub input d fs = (Ok tt, fs') ->
  exists bytes members fs0,
    makedirs d fs = (Ok tt, fs0)
    /\ fs_get input fs0 = Some (File bytes)
    /\ zip_read bytes = Some members
    /\ for_each members (fun m => write_file (d ++ "/" ++ fst m) (snd m)) fs0
       = (Ok tt, fs').
Proof.
  unfold extract_epub. intros H.
  apply iobind_Ok in H as ([] & fs0 & M & H).
  apply iobind_Ok in H as (bytes & fs1 & R & H).
  pose proof (read_file_state _ _ _ _ R) as ->.
  unfold read_file in R.
  destruct (fs_get input fs0) as [[b|]|] eqn:G; try discriminate.
  injection R as ->.
  destruct (zip_read bytes) as [members|] eqn:Z; [|discriminate].
  exists bytes, members, fs0. auto.
Qed.

Lemma makedirs_effect d fs fs0 :
  makedirs d fs = (Ok tt, fs0) ->
  fs_get d fs0 = Some Dir /\ forall q, q <> d -> fs_get q fs0 = fs_get q fs.
Proof.
  unfold makedirs. destruct (fs_get d fs) as [[data|]|] eqn:G; intros E;
    try discriminate; injection E as <-.
  - now split.
  - split; [now rewrite fs_get_set, String.eqb_refl|].
    intros q N. rewrite fs_get_set.
    now destruct (String.eqb_spec q d).
Qed.

(** X23. What [extract_epub] leaves on disk, for an archive [zipfile]
    extracts under the members' own names and a one-component
    extraction directory: the directory exists, the path of every member
    name holds the data of the last member of that name, and no path
    outside the directory has changed. *)
Theorem extract_epub_members_on_disk input d fs fs' bytes members :
  extract_epub input d fs = (Ok tt, fs') ->
  fs_get input fs = Some (File bytes) ->
  zip_read bytes = Some members ->
  extractable members = true ->
  no_sep d = true -> plain_name d = true ->
  fs_get d fs' = Some Dir
  /\ (forall name data,
         last_member name members = Some data ->
         fs_get (Path.join d name) fs' = Some (File data))
  /\ (forall q, q <> d -> Path.below d q = false -> fs_get q fs' = fs_get q fs).
Proof.
  intros H G Z X Hd Pd.
  apply extract_epub_Ok in H as (bytes' & members' & fs0 & M & G' & Z' & W).
  apply makedirs_effect in M as [Md Mq].
  assert (input <> d) as Ni by (intros ->; congruence).
  rewrite (Mq input Ni), G in G'. injection G' as <-.
  rewrite Z in Z'. injection Z' as <-.
  assert (d <> ""%string) as Nd by (intros ->; discriminate).
  split; [|split].
  - rewrite (write_members_effect _ _ _ _ _ d W); [exact Md|].
    intros name _ E. symmetry in E. revert E. apply append_neq_self. discriminate.
  - intros name data L.
    assert (In name (map fst members)) as Hin.
    { unfold last_member in L.
      destruct (List.find _ (List.rev members)) as [m|] eqn:F; [|discriminate].
      apply find_some in F as [Hm E]. apply String.eqb_eq in E. subst name.
      apply in_map. now apply in_rev. }
    rewrite join_plain; [now apply (write_members_last _ _ _ _ _ _ W)|exact Nd
                         |now apply endswith_no_sep|].
    apply andb_true_iff in X as [X _]. rewrite forallb_forall in X.
    apply in_map_iff in Hin as (m & <- & Hm). specialize (X m Hm).
    destruct (fst m) as [|c r]; [discriminate|].
    unfold Py.startswith. cbn [String.prefix].
    destruct (ascii_dec "/" c) as [<-|]; [discriminate|reflexivity].
  - intros q Nq B. rewrite (write_members_effect _ _ _ _ _ q W); [now apply Mq|].
    intros name _ ->. now rewrite below_append in B.
Qed.

(** X24. On the tree [extract_epub] leaves, [find_content_opf] finds the
    container document the archive carried and returns
    [os.path.join(extract_dir, full-path)] for the first [rootfile]
    element with the package media type, a namespaced element being
    preferred to a bare one; it changes nothing. *)
Theorem extracted_container_is_found input d fs fs' bytes members text r e p :
  extract_epub input d fs = (Ok tt, fs') ->
  fs_get input fs = Some (File bytes) ->
  zip_read bytes = Some members ->
  extractable members = true ->
  no_sep d = true -> plain_name d = true ->
  last_member "META-INF/container.xml" members = Some text ->
  ET_parse text = Some r ->
  package_rootfile r = Some e ->
  ET.get e "full-path" = Some p ->
  find_content_opf d fs' = (Ok (Path.join d p), fs').
Proof.
  intros H G Z _ Hd Pd L P Rf Fp.
  apply extract_epub_Ok in H as (bytes' & members' & fs0 & M & G' & Z' & W).
  apply makedirs_effect in M as [Md Mq].
  assert (input <> d) as Ni by (intros ->; congruence).
  rewrite (Mq input Ni), G in G'. injection G' as <-.
  rewrite Z in Z'. injection Z' as <-.
  assert (d <> ""%string) as Nd by (intros ->; discriminate).
  pose proof (write_members_last _ _ _ _ _ _ W L) as F.
  assert (Path.join (Path.join d "META-INF") "container.xml"
          = (d ++ "/" ++ "META-INF/container.xml")%string) as Ejoin
      by now apply container_path.
  unfold package_rootfile in Rf.
  unfold find_content_opf, parse_xml_file, exists_, read_file, ret, iobind.
  rewrite Ejoin, F. cbn [negb]. cbv iota beta. rewrite F, P, Rf, Fp.
  reflexivity.
Qed.

End Extraction.

Lemma extract_epub_members_on_disk_witness :
  extract_epub (lib := Sample.book_lib) "book.epub" Sample.book_dir Sample.book_fs
  = (Ok tt, Sample.extracted_fs)
  /\ extractable Sample.book_members = true
  /\ fs_get Sample.book_dir Sample.extracted_fs = Some Dir
  /\ fs_get "temp_epub_0a1b2c3d/OEBPS/c1.xhtml" Sample.extracted_fs
     = Some (File (Sample.render_soup Sample.intro_page))
  /\ fs_get "book.epub" Sample.extracted_fs = fs_get "book.epub" Sample.book_fs.
Proof.
  assert (extract_epub (lib := Sample.book_lib) "book.epub" Sample.book_dir
                       Sample.book_fs = (Ok tt, Sample.extracted_fs)) as Hrun
      by (vm_compute; reflexivity).
  assert (extractable Sample.book_members = true) as Hx by (vm_compute; reflexivity).
  destruct (extract_epub_members_on_disk
              (lib := Sample.book_lib) "book.epub" Sample.book_dir Sample.book_fs
              Sample.extracted_fs (Sample.archive_text Sample.book_members)
              Sample.book_members Hrun eq_refl
              ltac:(vm_compute; reflexivity) Hx eq_refl eq_refl)
    as (Hdir & Hmem & Hout).
  split; [exact Hrun|]. split; [exact Hx|]. split; [exact Hdir|]. split.
  - exact (Hmem "OEBPS/c1.xhtml" (Sample.render_soup Sample.intro_page) eq_refl).
  - apply Hout; [vm_compute; discriminate|reflexivity].
Defined.

Lemma extracted_container_is_found_witness :
  extract_epub (lib := Sample.book_lib) "book.epub" Sample.book_dir Sample.book_fs
  = (Ok tt, Sample.extracted_fs)
  /\ package_rootfile Sample.container
     = Some (ET.Element "{urn:oasis:names:tc:opendocument:xmlns:container}rootfile"
               [("full-path", "OEBPS/package.opf");
                ("media-type", "application/oebps-package+xml")] None [])
  /\ find_content_opf (lib := Sample.book_lib) Sample.book_dir Sample.extracted_fs
     = (Ok "temp_epub_0a1b2c3d/OEBPS/package.opf", Sample.extracted_fs).
Proof.
  assert (extract_epub (lib := Sample.book_lib) "book.epub" Sample.book_dir
                       Sample.book_fs = (Ok tt, Sample.extracted_fs)) as Hrun
      by (vm_compute; reflexivity).
  split; [exact Hrun|]. split; [reflexivity|].
  exact (extracted_container_is_found
           (lib := Sample.book_lib) "book.epub" Sample.book_dir Sample.book_fs
           Sample.extracted_fs (Sample.archive_text Sample.book_members)
           Sample.book_members (Sample.xml_text Sample.container)
           Sample.container _ "OEBPS/package.opf"
           Hrun eq_refl ltac:(vm_compute; reflexivity)
           ltac:(vm_compute; reflexivity) eq_refl eq_refl eq_refl
           ltac:(vm_compute; reflexivity) eq_refl eq_refl).
Defined.


(* ================================================================= *)
(** ** Running [update_content_opf] again *)

(** The steps of [update_content_opf] are written to be repeatable: the
    chapter items are updated in place when they exist and the chapter
    itemrefs are removed before they are inserted.  The lemmas below
    follow one more run over the tree the first run has left. *)

Lemma dict_set_same {K V} (eqb : K -> K -> bool) k v (d : list (K * V)) :
  dict_get eqb k d = Some v -> dict_set eqb k v d = d.
Proof.
  induction d as [|[k' v'] d IH]; simpl; [discriminate|].
  destruct (eqb k k').
  - intros E. now injection E as ->.
  - intros E. now rewrite IH.
Qed.

Lemma set_same k v e : ET.get e k = Some v -> ET.set k v e = e.
Proof.
  destruct e as [t a x cs]. unfold ET.get. simpl. intros E.
  now rewrite dict_set_same.
Qed.

Lemma set_children_same e : ET.set_children (ET.children e) e = e.
Proof. now destruct e. Qed.

Lemma set_children_twice cs e :
  ET.set_children cs (ET.set_children cs e) = ET.set_children cs e.
Proof. now destruct e. Qed.

(** A mutation that changes nothing where it applies changes nothing in
    the tree. *)
Lemma update_self_same p f e m :
  ET.find_self p e = Some m -> f m = m -> ET.update_self p f e = Some e.
Proof.
  induction e as [t a x cs IH] using element_induction.
  simpl. destruct (p t a).
  - intros E. injection E as <-. intros ->. reflexivity.
  - intros E Hf.
    assert (update_first (ET.update_self p f) cs = Some cs) as ->;
      [|reflexivity].
    induction IH as [|c cs Hc _ IHcs]; simpl in *; [discriminate|].
    destruct (ET.find_self p c) as [m'|] eqn:Fc.
    + injection E as ->. now rewrite Hc.
    + rewrite (update_self_None p f _ Fc). now rewrite IHcs.
Qed.

Lemma update_same p f r m :
  ET.find p r = Some m -> f m = m -> ET.update p f r = Some r.
Proof.
  unfold ET.find, ET.update. intros E Hf.
  assert (update_first (ET.update_self p f) (ET.children r)
          = Some (ET.children r)) as ->;
    [|simpl; now rewrite set_children_same].
  induction (ET.children r) as [|c cs IH]; simpl in *; [discriminate|].
  destruct (ET.find_self p c) as [m'|] eqn:Fc.
  - injection E as ->. now rewrite (update_self_same p f c m).
  - rewrite (update_self_None p f _ Fc). now rewrite IH.
Qed.

Lemma find2_find p1 p2 r ps s :
  ET.find2 p1 p2 r = Some (ps, s) -> ET.find ps r = Some s.
Proof.
  intros E. apply find2_cases in E as [[-> F]|[-> [_ F]]]; exact F.
Qed.

Lemma fs_set_same p e fs : fs_get p fs = Some e -> fs_set p e fs = fs.
Proof. apply dict_set_same. Qed.

Lemma remove_flagged_none flag l :
  Forall (fun x => flag x = Ok false) l -> remove_flagged flag l = Ok l.
Proof.
  unfold remove_flagged. induction 1 as [|x l Hx _ IH]; simpl; [reflexivity|].
  rewrite Hx. simpl. now rewrite IH.
Qed.

Lemma update_first_None_inv {A} (g : A -> option A) l :
  update_first g l = None -> Forall (fun x => g x = None) l.
Proof.
  induction l as [|x l IH]; simpl; [constructor|].
  destruct (g x) eqn:G; [discriminate|].
  destruct (update_first g l); [discriminate|]. intros _. constructor; auto.
Qed.

(** A round for one chapter leaves the first item of any other
    identifier where and as it was. *)
Lemma put_chapter_item_first_other items ch i :
  i <> Some (ChapterFile.id ch) ->
  List.find (fun x => opt_eqb (ET.get x "id") i) (put_chapter_item items ch) = List.find (fun x => opt_eqb (ET.get x "id") i) items.
Proof.
  intros N. unfold put_chapter_item.
  destruct (update_first _ items) as [items'|] eqn:U.
  - revert items' U. induction items as [|a l IH]; intros items' U; simpl in U;
      [discriminate|].
    destruct (opt_eqb_spec (ET.get a "id") (Some (ChapterFile.id ch))) as [E|E].
    + injection U as <-. simpl. rewrite !get_set. simpl.
      destruct (opt_eqb_spec (ET.get a "id") i) as [E'|E']; [congruence|].
      reflexivity.
    + destruct (update_first _ l) as [l'|]; [|discriminate].
      injection U as <-. simpl.
      destruct (opt_eqb (ET.get a "id") i); [reflexivity|]. now apply IH.
  - rewrite find_app. destruct (List.find _ items); [reflexivity|].
    cbn [List.find].
    change (ET.get (chapter_manifest_item ch) "id")
      with (Some (ChapterFile.id ch)).
    destruct (opt_eqb_spec (Some (ChapterFile.id ch)) i) as [E|E];
      [congruence|reflexivity].
Qed.

(** After the round for a chapter the first item with the chapter's
    identifier carries the chapter's href and media type. *)
Lemma put_chapter_item_first_self items ch :
  exists y,
    List.find (fun x => opt_eqb (ET.get x "id") (Some (ChapterFile.id ch))) (put_chapter_item items ch)
    = Some y
    /\ registers y ch.
Proof.
  unfold put_chapter_item.
  destruct (update_first _ items) as [items'|] eqn:U.
  - revert items' U. induction items as [|a l IH]; intros items' U; simpl in U;
      [discriminate|].
    destruct (opt_eqb_spec (ET.get a "id") (Some (ChapterFile.id ch))) as [E|E].
    + injection U as <-. eexists. simpl. rewrite !get_set. simpl.
      destruct (opt_eqb_spec (ET.get a "id") (Some (ChapterFile.id ch)));
        [|contradiction].
      split; [reflexivity|]. now apply registers_updated.
    + destruct (update_first _ l) as [l'|]; [|discriminate].
      injection U as <-. destruct (IH _ eq_refl) as (y & F & R).
      exists y. simpl.
      destruct (opt_eqb_spec (ET.get a "id") (Some (ChapterFile.id ch)));
        [contradiction|]. auto.
  - apply update_first_None_inv in U.
    exists (chapter_manifest_item ch). split; [|repeat split].
    rewrite find_app.
    assert (List.find (fun x => opt_eqb (ET.get x "id") (Some (ChapterFile.id ch))) items = None) as ->.
    { induction U as [|a l Ha _ IH]; simpl; [reflexivity|].
      destruct (opt_eqb (ET.get a "id") (Some (ChapterFile.id ch)));
        [discriminate|exact IH]. }
    cbn [List.find].
    change (ET.get (chapter_manifest_item ch) "id")
      with (Some (ChapterFile.id ch)).
    destruct (opt_eqb_spec (Some (ChapterFile.id ch)) (Some (ChapterFile.id ch)));
      [reflexivity|contradiction].
Qed.

Lemma fold_put_first chapter_files items :
  NoDup (map ChapterFile.id chapter_files) ->
  forall ch, In ch chapter_files ->
    exists y,
      List.find (fun x => opt_eqb (ET.get x "id") (Some (ChapterFile.id ch)))
                (fold_left put_chapter_item chapter_files items) = Some y
      /\ registers y ch.
Proof.
  revert items. induction chapter_files as [|c l IH]; intros items D ch Hch;
    [destruct Hch|].
  simpl in D. inversion D as [|? ? Dc D']; subst. simpl.
  destruct Hch as [<-|Hch]; [|now apply IH].
  destruct (put_chapter_item_first_self items c) as (y & F & R).
  exists y. split; [|exact R]. clear IH D R.
  revert F. generalize (put_chapter_item items c). clear items.
  induction l as [|c2 l IH]; intros start F; simpl; [exact F|].
  apply IH.
  - intros H. apply Dc. now right.
  - now inversion D'.
  - rewrite put_chapter_item_first_other; [exact F|].
    intros E. injection E as E. apply Dc. left. now symmetry.
Qed.

(** A round for a chapter whose item is already in place changes
    nothing. *)
Lemma put_chapter_item_same items ch y :
  List.find (fun x => opt_eqb (ET.get x "id") (Some (ChapterFile.id ch))) items = Some y ->
  registers y ch ->
  put_chapter_item items ch = items.
Proof.
  intros F (Ei & Eh & Em). unfold put_chapter_item.
  assert (update_first (fun item =>
             if opt_eqb (ET.get item "id") (Some (ChapterFile.id ch))
             then Some (ET.set "media-type" XHTML
                          (ET.set "href" (ChapterFile.href ch) item))
             else None) items = Some items) as ->; [|reflexivity].
  induction items as [|a l IH]; simpl in *; [discriminate|].
  destruct (opt_eqb (ET.get a "id") (Some (ChapterFile.id ch))).
  - injection F as ->. now rewrite (set_same "href"), (set_same "media-type").
  - now rewrite IH.
Qed.

Lemma fold_put_same chapter_files items :
  (forall ch, In ch chapter_files -> put_chapter_item items ch = items) ->
  fold_left put_chapter_item chapter_files items = items.
Proof.
  induction chapter_files as [|c l IH]; intros H; simpl; [reflexivity|].
  rewrite (H c) by now left. apply IH. intros ch Hch. apply H. now right.
Qed.

Lemma is_old_manifest_item_chapter y s :
  ET.get y "id" = Some s -> Py.startswith s "ch_" = true ->
  is_old_manifest_item y = Ok false.
Proof.
  intros E S. unfold is_old_manifest_item. rewrite E, S.
  now destruct (_ && _ && _).
Qed.

(** Running the manifest step on its own result changes nothing. *)
Lemma update_manifest_children_again items chapter_files items' :
  update_manifest_children items chapter_files = Ok items' ->
  NoDup (map ChapterFile.id chapter_files) ->
  Forall chapter_prefixed chapter_files ->
  update_manifest_children items' chapter_files = Ok items'.
Proof.
  unfold update_manifest_children. intros E D P.
  apply bind_Ok in E as (kept & K & E). injection E as <-.
  apply remove_flagged_Ok in K as [_ ->].
  rewrite remove_flagged_none.
  - simpl. f_equal. apply fold_put_same. intros ch Hch.
    destruct (fold_put_first chapter_files
                (filter (fun x => match is_old_manifest_item x with
                                  | Ok b => negb b | Raise _ => false end) items)
                D ch Hch) as (y & F & R).
    now apply (put_chapter_item_same _ ch y).
  - apply Forall_forall. intros y Hy.
    apply fold_put_origin in Hy as [Hy|Hy].
    + apply filter_In in Hy as [_ Hy].
      destruct (is_old_manifest_item y) as [[|]|]; try discriminate. reflexivity.
    + unfold chapter_ids in Hy. apply in_map_iff in Hy as (ch & E & Hch).
      rewrite Forall_forall in P.
      apply (is_old_manifest_item_chapter y (ChapterFile.id ch)); [now symmetry|].
      now apply P.
Qed.

Lemma insert_position_after m pre post :
  ends_with (nav_or_cover m) pre ->
  Forall (fun r => nav_or_cover m r = false) post ->
  insert_position m (pre ++ post) = length pre.
Proof.
  intros Hpre Hpost. induction post as [|x post IH] using rev_ind.
  - rewrite app_nil_r. destruct Hpre as [->|(l0 & x & -> & Hx)]; [reflexivity|].
    rewrite insert_position_snoc, Hx, length_app. reflexivity.
  - apply Forall_app in Hpost as [Hpost Hx]. inversion Hx as [|? ? Hx' _]; subst.
    rewrite app_assoc, insert_position_snoc, Hx'. now apply IH.
Qed.

Lemma retained_not_old m r : retained m r = true -> is_old_itemref m r = Ok false.
Proof.
  unfold retained, is_old_itemref. intros H.
  apply andb_true_iff in H as [H _]. apply orb_true_iff in H.
  assert (negb (Py.mem (ET.get r "idref") [Some "nav"; Some "ncx"])
          && negb (is_cover_ref m (ET.get r "idref")) = false) as ->
      by (destruct H as [-> | ->]; [reflexivity | apply andb_false_r]).
  reflexivity.
Qed.

Lemma chapter_itemref_not_old m ch :
  chapter_prefixed ch -> is_old_itemref m (chapter_itemref ch) = Ok false.
Proof.
  unfold chapter_prefixed, is_old_itemref. intros S. cbv zeta.
  change (ET.get (chapter_itemref ch) "idref") with (Some (ChapterFile.id ch)).
  cbv iota. rewrite S. now destruct (_ && _).
Qed.

Lemma chapter_itemref_is_chapter ch :
  chapter_prefixed ch -> is_chapter_itemref (chapter_itemref ch) = true.
Proof.
  unfold chapter_prefixed, is_chapter_itemref. intros S.
  change (ET.get (chapter_itemref ch) "idref") with (Some (ChapterFile.id ch)).
  cbv iota. now rewrite S, (startswith_ch_nonempty _ S).
Qed.

Lemma filter_none {A} (f : A -> bool) l :
  Forall (fun x => f x = false) l -> filter f l = [].
Proof.
  induction 1 as [|x l Hx _ IH]; simpl; [reflexivity|]. now rewrite Hx.
Qed.

(** Running the spine step on its own result changes nothing. *)
Lemma update_spine_children_again m refs chapter_files refs' :
  update_spine_children m refs chapter_files = Ok refs' ->
  Forall chapter_prefixed chapter_files ->
  update_spine_children m refs' chapter_files = Ok refs'.
Proof.
  intros E P.
  apply update_spine_children_spec in E as (pre & post & -> & S & Hpre & Hpost).
  assert (Forall (fun r => retained m r = true) (pre ++ post)) as R.
  { rewrite S. apply Forall_forall. intros r Hr. now apply filter_In in Hr. }
  apply Forall_app in R as [Rpre Rpost].
  unfold update_spine_children. rewrite remove_flagged_none.
  - simpl. rewrite !filter_app.
    rewrite (filter_all _ pre), (filter_all _ post), filter_none.
    + simpl. rewrite insert_position_after by assumption.
      now rewrite insert_chapter_refs_split.
    + apply Forall_forall. intros r Hr. apply in_map_iff in Hr as (ch & <- & Hch).
      rewrite Forall_forall in P. now rewrite chapter_itemref_is_chapter by auto.
    + eapply Forall_impl; [|exact Rpost]. intros r H. unfold retained in H.
      now apply andb_true_iff in H.
    + eapply Forall_impl; [|exact Rpre]. intros r H. unfold retained in H.
      now apply andb_true_iff in H.
  - apply Forall_app. split; [|apply Forall_app; split].
    + eapply Forall_impl; [|exact Rpre]. intros r. apply retained_not_old.
    + apply Forall_forall. intros r Hr. apply in_map_iff in Hr as (ch & <- & Hch).
      rewrite Forall_forall in P. now apply chapter_itemref_not_old, P.
    + eapply Forall_impl; [|exact Rpost]. intros r. apply retained_not_old.
Qed.

Section SecondRun.
Context {lib : Libraries}.

Lemma updated_root_again cd chapter_files r' :
  updated_root cd chapter_files = Ok r' ->
  separate (root cd) ->
  NoDup (map ChapterFile.id chapter_files) ->
  Forall chapter_prefixed chapter_files ->
  updated_root (with_root r' cd) chapter_files = Ok r'.
Proof.
  intros E Sep D P.
  apply updated_root_lookups in E
    as (pm & me & ps & se & items' & refs' & _ & _ & I & R & Fm & Fs); [|exact Sep].
  unfold updated_root, with_root. simpl. rewrite Fm.
  rewrite children_set_children.
  rewrite (update_manifest_children_again _ _ _ I D P). simpl.
  rewrite (update_same pm _ r' _ (find2_find _ _ _ _ _ Fm))
    by apply set_children_twice.
  rewrite Fs, children_set_children.
  rewrite (update_spine_children_again _ _ _ _ R P). simpl.
  rewrite (update_same ps _ r' _ (find2_find _ _ _ _ _ Fs))
    by apply set_children_twice.
  reflexivity.
Qed.

(** X25. Running [update_content_opf] a second time with the same
    chapter files, on the tree the first run has left, yields the same
    tree and leaves the working tree as the first run left it, when the
    chapter identifiers are distinct and start with [ch_] and the
    manifest and the spine are not nested in one another. *)
Theorem update_content_opf_twice cd chapter_files fs r' fs' :
  update_content_opf cd chapter_files fs = (Ok r', fs') ->
  separate (root cd) ->
  NoDup (map ChapterFile.id chapter_files) ->
  Forall chapter_prefixed chapter_files ->
  update_content_opf (with_root r' cd) chapter_files fs' = (Ok r', fs').
Proof.
  intros E Sep D P. apply update_content_opf_Ok in E as [U W].
  unfold update_content_opf, iobind, lift, ret.
  rewrite (updated_root_again _ _ _ U Sep D P).
  apply write_file_Ok in W as [G _].
  unfold write_file, with_root. simpl. rewrite G.
  now rewrite fs_set_same.
Qed.

End SecondRun.

Lemma update_content_opf_twice_witness :
  update_content_opf (lib := Sample.book_lib) Sample.book_cd
                     Sample.book_chapter_files Sample.extracted_fs
  = (Ok Sample.book_new_root, Sample.book_updated_fs)
  /\ separate (root Sample.book_cd)
  /\ NoDup (map ChapterFile.id Sample.book_chapter_files)
  /\ Forall chapter_prefixed Sample.book_chapter_files
  /\ update_content_opf (lib := Sample.book_lib)
                        (with_root Sample.book_new_root Sample.book_cd)
                        Sample.book_chapter_files Sample.book_updated_fs
     = (Ok Sample.book_new_root, Sample.book_updated_fs).
Proof.
  assert (update_content_opf (lib := Sample.book_lib) Sample.book_cd
                             Sample.book_chapter_files Sample.extracted_fs
          = (Ok Sample.book_new_root, Sample.book_updated_fs)) as Hupd
      by (vm_compute; reflexivity).
  assert (separate (root Sample.book_cd)) as Hsep by apply book_package_separate.
  assert (NoDup (map ChapterFile.id Sample.book_chapter_files)) as Hdup
      by (vm_compute; repeat constructor; simpl; intuition discriminate).
  assert (Forall chapter_prefixed Sample.book_chapter_files) as Hpre
      by (repeat constructor).
  split; [exact Hupd|]. split; [exact Hsep|]. split; [exact Hdup|].
  split; [exact Hpre|].
  exact (update_content_opf_twice (lib := Sample.book_lib) _ _ _ _ _
           Hupd Hsep Hdup Hpre).
Defined.
